(** * Nginx configuration generator

    A shallow embedding of [lib/generate-nginx-configs.py]: the class
    [NginxConfigGenerator] with its renderers, the directory validator and
    the driver [generate_all], followed by the properties of the
    specification that concern them.

    Conventions of the model.
    - Python [str] values are byte strings ([string]); text outside ASCII is
      kept in its UTF-8 encoding, for which substring tests coincide with
      the tests on code points.  [lower] and [upper] fold the letters of
      ASCII only: they are [str.lower] and [str.upper] on the strings that
      satisfy [is_ascii], and the statements that depend on the letters of a
      container key are made for such keys.
    - Text files are opened with the UTF-8 encoding.  [read_text] is what a
      reader gets from a file whose bytes decode ([valid_utf8]); on other
      bytes [open] raises, and the statements about what the validator
      reads are made for directories whose [*.conf] files decode.
    - [self] and the parts of the process the generator touches (the files
      of the output directory and the standard output) are one record,
      threaded through a state-and-exception monad.
    - The registry is what [yaml.safe_load] returned: mappings keep their
      insertion order, so they are association lists.
    - The output directory is a finite map from file name to file text (a
      POSIX host).  A write under a name is a write to that entry when the
      name is a single path component; the statements that rest on where a
      file lands are made for such names. *)

From Stdlib Require Import Ascii.
From stdpp Require Import gmap strings pretty sorting.

(** ** Python string primitives *)

Module Py.

Definition NL : string := String "010"%char "".
Definition CR : string := String "013"%char "".
Definition DQ : string := String "034"%char "".
Definition ESC : string := String "027"%char "".
Definition BACKSLASH : string := String "092"%char "".

(** [s.startswith(p)] *)
Definition startswith (p s : string) : bool := String.prefix p s.

Global Arguments startswith : simpl never.

(** [sub in s] *)
Fixpoint contains (sub s : string) : bool :=
  startswith sub s ||
  match s with
  | EmptyString => false
  | String _ s' => contains sub s'
  end.

(** [s.endswith(suf)] *)
Fixpoint endswith (suf s : string) : bool :=
  String.eqb suf s ||
  match s with
  | EmptyString => false
  | String _ s' => endswith suf s'
  end.

Definition lower_char (c : ascii) : ascii :=
  let n := nat_of_ascii c in
  if (65 <=? n)%nat && (n <=? 90)%nat then ascii_of_nat (n + 32) else c.

Definition upper_char (c : ascii) : ascii :=
  let n := nat_of_ascii c in
  if (97 <=? n)%nat && (n <=? 122)%nat then ascii_of_nat (n - 32) else c.

Fixpoint map_chars (f : ascii → ascii) (s : string) : string :=
  match s with
  | EmptyString => EmptyString
  | String c s' => String (f c) (map_chars f s')
  end.

(** [s.lower()] and [s.upper()] on ASCII strings *)
Definition lower : string → string := map_chars lower_char.
Definition upper : string → string := map_chars upper_char.

(** [sep.join(l)] *)
Fixpoint join (sep : string) (l : list string) : string :=
  match l with
  | [] => ""
  | x :: l' =>
      match l' with
      | [] => x
      | _ :: _ => x +:+ sep +:+ join sep l'
      end
  end.

(** [s * n] *)
Fixpoint mul (s : string) (n : nat) : string :=
  match n with
  | O => ""
  | S n' => s +:+ mul s n'
  end.

(** [s.replace(old, new)] for a non-empty [old]: the occurrences are taken
    from left to right and do not overlap.  [skip] counts the characters
    of a matched occurrence that are still to be dropped. *)
Fixpoint replace_from (old new : string) (skip : nat) (s : string) : string :=
  match s with
  | EmptyString => EmptyString
  | String c s' =>
      match skip with
      | S k => replace_from old new k s'
      | O =>
          if startswith old s
          then new +:+ replace_from old new (String.length old - 1) s'
          else String c (replace_from old new 0 s')
      end
  end.

Definition replace (old new s : string) : string := replace_from old new 0 s.

(** [s.split(sep)] for a non-empty [sep]; the result is the first piece
    and the pieces after it. *)
Fixpoint split_from (sep : string) (skip : nat) (s : string) : string * list string :=
  match s with
  | EmptyString => (EmptyString, [])
  | String c s' =>
      match skip with
      | S k => split_from sep k s'
      | O =>
          if startswith sep s
          then let '(h, t) := split_from sep (String.length sep - 1) s' in
               (EmptyString, h :: t)
          else let '(h, t) := split_from sep 0 s' in
               (String c h, t)
      end
  end.

Definition split (sep s : string) : list string :=
  let '(h, t) := split_from sep 0 s in h :: t.

(** What a text-mode [open(file)] hands to the reader: the line ends
    CR LF and CR are translated to LF. *)
Fixpoint universal_newlines (s : string) : string :=
  match s with
  | EmptyString => EmptyString
  | String c s' =>
      if Ascii.eqb c "013"%char
      then match s' with
           | String c' s'' =>
               if Ascii.eqb c' "010"%char
               then String "010"%char (universal_newlines s'')
               else String "010"%char (universal_newlines s')
           | EmptyString => String "010"%char EmptyString
           end
      else String c (universal_newlines s')
  end.

(** [f.readlines()] on translated text: every line keeps its LF. *)
Fixpoint readlines (s : string) : list string :=
  match s with
  | EmptyString => []
  | String c s' =>
      if Ascii.eqb c "010"%char then String c EmptyString :: readlines s'
      else match readlines s' with
           | [] => [String c EmptyString]
           | l :: ls => String c l :: ls
           end
  end.

(** [enumerate(l, start)] *)
Fixpoint enumerate {A} (start : nat) (l : list A) : list (nat * A) :=
  match l with
  | [] => []
  | x :: l' => (start, x) :: enumerate (S start) l'
  end.

(** The text of consecutive lines, each ended by LF. *)
Fixpoint unlines (l : list string) : string :=
  match l with
  | [] => ""
  | x :: l' => x +:+ NL +:+ unlines l'
  end.

(** [s.isascii()] *)
Fixpoint is_ascii (s : string) : bool :=
  match s with
  | EmptyString => true
  | String c s' => (nat_of_ascii c <? 128)%nat && is_ascii s'
  end.

(** The strict UTF-8 decoder, as an automaton over the bytes: at the start
    of a character, or inside one with [remaining] bytes to come after the
    next byte, which has to lie between [low] and [high]. *)
Inductive utf8_state :=
  | Utf8Start
  | Utf8Inside (remaining low high : nat).

Definition utf8_step (state : utf8_state) (c : ascii) : option utf8_state :=
  let b := nat_of_ascii c in
  match state with
  | Utf8Start =>
      if (b <=? 127)%nat then Some Utf8Start
      else if (194 <=? b)%nat && (b <=? 223)%nat then Some (Utf8Inside 0 128 191)
      else if (b =? 224)%nat then Some (Utf8Inside 1 160 191)
      else if (225 <=? b)%nat && (b <=? 236)%nat then Some (Utf8Inside 1 128 191)
      else if (b =? 237)%nat then Some (Utf8Inside 1 128 159)
      else if (238 <=? b)%nat && (b <=? 239)%nat then Some (Utf8Inside 1 128 191)
      else if (b =? 240)%nat then Some (Utf8Inside 2 144 191)
      else if (241 <=? b)%nat && (b <=? 243)%nat then Some (Utf8Inside 2 128 191)
      else if (b =? 244)%nat then Some (Utf8Inside 2 128 143)
      else None
  | Utf8Inside remaining low high =>
      if (low <=? b)%nat && (b <=? high)%nat
      then match remaining with
           | O => Some Utf8Start
           | S remaining' => Some (Utf8Inside remaining' 128 191)
           end
      else None
  end.

Fixpoint utf8_from (state : utf8_state) (s : string) : bool :=
  match s with
  | EmptyString => match state with Utf8Start => true | _ => false end
  | String c s' =>
      match utf8_step state c with
      | Some state' => utf8_from state' s'
      | None => false
      end
  end.

(** Whether [bytes.decode("utf-8")] accepts the bytes. *)
Definition valid_utf8 (s : string) : bool := utf8_from Utf8Start s.

End Py.

Import Py.

(** ** The project registry *)

(** A YAML scalar placed in an f-string: an integer or a string. *)
Inductive scalar :=
  | SInt (z : Z)
  | SStr (s : string).

Definition str (v : scalar) : string :=
  match v with
  | SInt z => pretty z
  | SStr s => s
  end.

(** A domain entry is a list of domains or a single domain. *)
Inductive domain_spec :=
  | DomainList (l : list string)
  | DomainStr (s : string).

Record staging_config := { staging_domains : domain_spec }.

Record domains_config := {
  production : option domain_spec;
  staging : option staging_config;
}.

Record container_config := {
  container_name : string;
  container_port : scalar;
}.

Record rate_limit_config := {
  zone : option string;
  burst : option scalar;
}.

Record nginx_options := {
  api_locations : option (list string);
  rate_limit : option rate_limit_config;
  proxy_connect_timeout : option scalar;
  proxy_timeout : option scalar;
}.

Record project := {
  name : string;
  domains : domains_config;
  containers : list (string * container_config);
  nginx : option nginx_options;
}.

Definition registry := list (string * project).

Inductive environment := Production | Staging.

Definition env_str (e : environment) : string :=
  match e with
  | Production => "production"
  | Staging => "staging"
  end.

(** ** Generator state, exceptions and the monad *)

(** The exceptions that the code of the generator raises by itself on a
    loaded registry whose entries have their mandatory keys. *)
Inductive exn :=
  | IndexError
  | KeyError (key : string)
  | SystemExit (code : Z).

Inductive result (A : Type) :=
  | Ok (a : A)
  | Raise (e : exn).
Arguments Ok {A} a.
Arguments Raise {A} e.

(** One HTTPS block as it left [generate_server_block]: the listener
    directive chosen for it and its text. *)
Record https_block := {
  quic_listener : string;
  block_text : string;
}.

(** [output_dir] is the path of the output directory as printed;
    [output_files] its files; [rendered] is a history variable, absent from
    the program, that records the HTTPS blocks in the order they were
    rendered. *)
Record state := {
  output_dir : string;
  is_first_server_block : bool;
  output_files : gmap string string;
  stdout : list string;
  rendered : list https_block;
}.

(** [NginxConfigGenerator.__init__], in a process that has printed nothing. *)
Definition init (dir : string) (files : gmap string string) : state :=
  {| output_dir := dir;
     is_first_server_block := true;
     output_files := files;
     stdout := [];
     rendered := [] |}.

Definition M (A : Type) : Type := state → result A * state.

Definition ret {A} (a : A) : M A := λ st, (Ok a, st).

Definition bind {A B} (c : M A) (k : A → M B) : M B :=
  λ st, match c st with
        | (Ok a, st') => k a st'
        | (Raise e, st') => (Raise e, st')
        end.

Definition lift {A} (r : result A) : M A := λ st, (r, st).

Global Instance M_ret : MRet M := @ret.
Global Instance M_bind : MBind M := λ A B k c, bind c k.

Definition print (line : string) : M unit :=
  λ st, (Ok (),
         {| output_dir := output_dir st;
            is_first_server_block := is_first_server_block st;
            output_files := output_files st;
            stdout := stdout st ++ [line];
            rendered := rendered st |}).

(** [open(output_file, 'w')] and [f.write(content)], for an output file
    that is the entry [file_name] of the output directory. *)
Definition write_file (file_name content : string) : M unit :=
  λ st, (Ok (),
         {| output_dir := output_dir st;
            is_first_server_block := is_first_server_block st;
            output_files := <[file_name := content]> (output_files st);
            stdout := stdout st;
            rendered := rendered st |}).

Definition record_block (b : https_block) : M unit :=
  λ st, (Ok (),
         {| output_dir := output_dir st;
            is_first_server_block := is_first_server_block st;
            output_files := output_files st;
            stdout := stdout st;
            rendered := rendered st ++ [b] |}).

Fixpoint for_each {A} (body : A → M unit) (l : list A) : M unit :=
  match l with
  | [] => ret ()
  | x :: l' => body x ;; for_each body l'
  end.

(** ** Console decoration

    The colour codes of lines 30-33 and the pictographs of the messages,
    given by the bytes they have in the source file. *)

Definition of_codes (codes : list nat) : string :=
  foldr (λ n s, String (ascii_of_nat n) s) "" codes.

Definition GREEN : string := ESC +:+ "[0;32m".
Definition YELLOW : string := ESC +:+ "[1;33m".
Definition BLUE : string := ESC +:+ "[0;34m".
Definition NC : string := ESC +:+ "[0m".

Definition ARROW : string := of_codes [226; 128; 154; 195; 156; 195; 173].
Definition CHECK_MARK : string := of_codes [226; 128; 154; 195; 186; 195; 150].
Definition CROSS_MARK : string := of_codes [226; 128; 154; 195; 185; 195; 165].
Definition WARNING_SIGN : string :=
  of_codes [226; 128; 154; 195; 182; 226; 128; 160; 195; 148; 226; 136; 143; 195; 168].
Definition MAGNIFIER : string := of_codes [239; 163; 191; 195; 188; 195; 174; 195; 167].
Definition WRENCH : string := of_codes [239; 163; 191; 195; 188; 195; 174; 195; 159].

(** ** Server block renderer (lines 47-198) *)

Definition QUIC_REUSEPORT : string :=
  "listen 443 quic reuseport;  # HTTP/3 support (reuseport only on first block)".

Definition QUIC_PLAIN : string := "listen 443 quic;  # HTTP/3 support".

(** Lines 50-54: the domain entry of an environment; a missing key raises. *)
Definition environment_domains (p : project) (e : environment) : result domain_spec :=
  match e with
  | Production =>
      match production (domains p) with
      | Some d => Ok d
      | None => Raise (KeyError "production")
      end
  | Staging =>
      match staging (domains p) with
      | Some s => Ok (staging_domains s)
      | None => Raise (KeyError "staging")
      end
  end.

(** [domains[0] if isinstance(domains, list) else domains] *)
Definition primary_domain (d : domain_spec) : result string :=
  match d with
  | DomainList [] => Raise IndexError
  | DomainList (x :: _) => Ok x
  | DomainStr s => Ok s
  end.

(** [" ".join(domains) if isinstance(domains, list) else domains] *)
Definition server_names (d : domain_spec) : string :=
  match d with
  | DomainList l => join " " l
  | DomainStr s => s
  end.

(** The dictionaries built at lines 75-78 and 80-83. *)
Record endpoint := {
  endpoint_name : string;
  endpoint_port : scalar;
}.

(** One iteration of the loop at lines 69-83, on the pair
    (backend_container, frontend_container). *)
Definition classify_step (e : environment)
    (acc : option endpoint * option endpoint)
    (entry : string * container_config) : option endpoint * option endpoint :=
  let '(container_key, config) := entry in
  let cname :=
    match e with
    | Staging => container_name config +:+ "-staging"
    | Production => container_name config
    end in
  if contains "backend" (lower container_key)
  then (Some {| endpoint_name := cname; endpoint_port := container_port config |}, acc.2)
  else if contains "frontend" (lower container_key) || contains "web" (lower container_key)
  then (acc.1, Some {| endpoint_name := cname; endpoint_port := container_port config |})
  else acc.

Definition classify_containers (e : environment)
    (cs : list (string * container_config)) : option endpoint * option endpoint :=
  foldl (classify_step e) (None, None) cs.

(** Lines 90-95: pick the QUIC listener and take the flag down. *)
Definition choose_quic_listener : M string :=
  λ st,
    if is_first_server_block st
    then (Ok QUIC_REUSEPORT,
          {| output_dir := output_dir st;
             is_first_server_block := false;
             output_files := output_files st;
             stdout := stdout st;
             rendered := rendered st |})
    else (Ok QUIC_PLAIN, st).

Definition RULE : string := "# " +:+ mul "=" 77.
Definition SECTION_RULE : string := "    # " +:+ mul "=" 74.

(** Lines 98-117. *)
Definition server_block_head (p : project) (project_name : string) (e : environment)
    (listener names primary : string) : string :=
  unlines [
    RULE;
    "# " +:+ name p +:+ " - " +:+ upper (env_str e);
    RULE;
    "server {";
    "    listen 443 ssl;";
    "    " +:+ listener;
    "    http2 on;";
    "    server_name " +:+ names +:+ ";";
    "";
    "    # SSL certificates";
    "    ssl_certificate /etc/letsencrypt/live/" +:+ primary +:+ "/fullchain.pem;";
    "    ssl_certificate_key /etc/letsencrypt/live/" +:+ primary +:+ "/privkey.pem;";
    "";
    "    # Include security headers";
    "    include /etc/nginx/includes/security-headers.conf;";
    "";
    "    # Logs";
    "    access_log /var/log/nginx/" +:+ project_name +:+ "-" +:+ env_str e +:+ ".access.log detailed;";
    "    error_log /var/log/nginx/" +:+ project_name +:+ "-" +:+ env_str e +:+ ".error.log warn;"
  ].

(** Line 122: [rate_limit.get("burst", 20)]. *)
Definition api_burst (rl : rate_limit_config) : scalar :=
  default (SInt 20) (burst rl).

(** Line 150: [rate_limit.get("burst", 50) if not backend_container else 50]. *)
Definition frontend_burst (rl : rate_limit_config)
    (backend_container : option endpoint) : scalar :=
  match backend_container with
  | None => default (SInt 50) (burst rl)
  | Some _ => SInt 50
  end.

(** Lines 124-145. *)
Definition backend_routes (api_pattern : string) (burst_value : scalar)
    (backend : endpoint) (connect_timeout timeout : scalar) : string :=
  unlines [
    "";
    SECTION_RULE;
    "    # BACKEND ROUTES (API)";
    SECTION_RULE;
    "    location ~ ^/(" +:+ api_pattern +:+ ") {";
    "        # Rate limiting for API";
    "        limit_req zone=api burst=" +:+ str burst_value +:+ " nodelay;";
    "";
    "        # Dynamic backend resolution";
    "        set $backend_host " +:+ DQ +:+ endpoint_name backend +:+ DQ +:+ ";";
    "        set $backend_port " +:+ DQ +:+ str (endpoint_port backend) +:+ DQ +:+ ";";
    "        proxy_pass http://$backend_host:$backend_port;";
    "";
    "        # Include standard proxy headers";
    "        include /etc/nginx/includes/proxy-headers.conf;";
    "";
    "        # API-specific timeouts";
    "        proxy_connect_timeout " +:+ str connect_timeout +:+ ";";
    "        proxy_send_timeout " +:+ str timeout +:+ ";";
    "        proxy_read_timeout " +:+ str timeout +:+ ";";
    "    }"
  ].

(** Lines 152-194. *)
Definition frontend_routes (rate_zone : string) (burst_value : scalar)
    (frontend : endpoint) : string :=
  unlines [
    "";
    SECTION_RULE;
    "    # FRONTEND ROUTES";
    SECTION_RULE;
    "    location / {";
    "        # Rate limiting";
    "        limit_req zone=" +:+ rate_zone +:+ " burst=" +:+ str burst_value +:+ " nodelay;";
    "";
    "        # Dynamic frontend resolution";
    "        set $frontend_host " +:+ DQ +:+ endpoint_name frontend +:+ DQ +:+ ";";
    "        set $frontend_port " +:+ DQ +:+ str (endpoint_port frontend) +:+ DQ +:+ ";";
    "        proxy_pass http://$frontend_host:$frontend_port;";
    "";
    "        # Include standard proxy headers";
    "        include /etc/nginx/includes/proxy-headers.conf;";
    "";
    "        # SPA fallback";
    "        proxy_intercept_errors on;";
    "        error_page 404 = @frontend_fallback;";
    "    }";
    "";
    "    # SPA fallback - serve index.html for client-side routes";
    "    location @frontend_fallback {";
    "        set $frontend_host " +:+ DQ +:+ endpoint_name frontend +:+ DQ +:+ ";";
    "        set $frontend_port " +:+ DQ +:+ str (endpoint_port frontend) +:+ DQ +:+ ";";
    "        proxy_pass http://$frontend_host:$frontend_port/index.html;";
    "        include /etc/nginx/includes/proxy-headers.conf;";
    "    }";
    "";
    SECTION_RULE;
    "    # STATIC ASSETS (with caching)";
    SECTION_RULE;
    "    location ~* \.(js|css|png|jpg|jpeg|gif|ico|svg|woff|woff2|ttf|eot)$ {";
    "        set $frontend_host " +:+ DQ +:+ endpoint_name frontend +:+ DQ +:+ ";";
    "        set $frontend_port " +:+ DQ +:+ str (endpoint_port frontend) +:+ DQ +:+ ";";
    "        proxy_pass http://$frontend_host:$frontend_port;";
    "        include /etc/nginx/includes/proxy-headers.conf;";
    "";
    "        # Cache static assets";
    "        proxy_cache_valid 200 7d;";
    "        add_header Cache-Control " +:+ DQ +:+ "public, max-age=604800, immutable" +:+ DQ +:+ ";";
    "    }"
  ].

Definition EMPTY_RATE_LIMIT : rate_limit_config := {| zone := None; burst := None |}.

Definition EMPTY_NGINX : nginx_options :=
  {| api_locations := None; rate_limit := None;
     proxy_connect_timeout := None; proxy_timeout := None |}.

(** Lines 119-145: the API section, present when a backend container was
    recognised and the list of API locations is not empty. *)
Definition backend_section (nginx_config : nginx_options)
    (backend_container : option endpoint) : string :=
  let locations := default [] (api_locations nginx_config) in
  let rl := default EMPTY_RATE_LIMIT (rate_limit nginx_config) in
  match backend_container, locations with
  | Some backend, _ :: _ =>
      backend_routes (join "|" locations) (api_burst rl) backend
        (default (SStr "60s") (proxy_connect_timeout nginx_config))
        (default (SStr "60s") (proxy_timeout nginx_config))
  | _, _ => ""
  end.

(** Lines 147-194: the frontend section, present when a frontend container
    was recognised. *)
Definition frontend_section (nginx_config : nginx_options)
    (backend_container frontend_container : option endpoint) : string :=
  let rl := default EMPTY_RATE_LIMIT (rate_limit nginx_config) in
  match frontend_container with
  | Some frontend =>
      frontend_routes (default "general" (zone rl))
        (frontend_burst rl backend_container) frontend
  | None => ""
  end.

(** Lines 59-88 and 97-196: the text of the block, once the domains are
    resolved and the listener is chosen. *)
Definition server_block_text (project_name : string) (p : project)
    (e : environment) (listener : string) (ds : domain_spec)
    (primary : string) : string :=
  let names := server_names ds in
  let '(backend_container, frontend_container) :=
    classify_containers e (containers p) in
  let nginx_config := default EMPTY_NGINX (nginx p) in
  server_block_head p project_name e listener names primary
  +:+ backend_section nginx_config backend_container
  +:+ frontend_section nginx_config backend_container frontend_container
  +:+ "}" +:+ NL.

Definition generate_server_block (project_name : string) (p : project)
    (e : environment) : M string :=
  ds ← lift (environment_domains p e);
  primary ← lift (primary_domain ds);
  listener ← choose_quic_listener;
  let config := server_block_text project_name p e listener ds primary in
  record_block {| quic_listener := listener; block_text := config |};;
  mret config.

(** ** Redirect block renderer (lines 200-222) *)

Definition generate_http_redirect (ds : domain_spec) (primary : string) : string :=
  unlines [
    RULE;
    "# HTTP " +:+ ARROW +:+ " HTTPS REDIRECT";
    RULE;
    "server {";
    "    listen 80;";
    "    server_name " +:+ server_names ds +:+ ";";
    "";
    "    # ACME challenge for SSL renewal";
    "    location /.well-known/acme-challenge/ {";
    "        root /var/www/certbot;";
    "    }";
    "";
    "    # Redirect all other traffic to HTTPS";
    "    location / {";
    "        return 301 https://$host$request_uri;";
    "    }";
    "}";
    ""
  ].

(** ** Project config assembler (lines 224-251) *)

Definition config_header (p : project) : string :=
  unlines [
    RULE;
    "# " +:+ name p +:+ " - Nginx Configuration";
    RULE;
    "# AUTO-GENERATED from config/projects.yml";
    "# DO NOT EDIT MANUALLY - Use ./lib/generate-nginx-configs.py to regenerate";
    RULE;
    ""
  ].

Definition generate_project_config (project_name : string) (p : project) : M string :=
  let config := config_header p in
  config ←
    match production (domains p) with
    | Some prod_domains =>
        primary ← lift (primary_domain prod_domains);
        block ← generate_server_block project_name p Production;
        mret (config +:+ generate_http_redirect prod_domains primary
                     +:+ block +:+ NL)
    | None => mret config
    end;
  match staging (domains p) with
  | Some s =>
      let stage_domains := staging_domains s in
      primary ← lift (primary_domain stage_domains);
      block ← generate_server_block project_name p Staging;
      mret (config +:+ generate_http_redirect stage_domains primary +:+ block)
  | None => mret config
  end.

(** ** Post-generation validator (lines 253-306) *)

Definition REUSEPORT_MARKER : string := "listen 443 quic reuseport".
Definition QUIC_MARKER : string := "listen 443 quic".

(** The heading the validator prints first (line 256). *)
Definition VALIDATOR_BANNER : string :=
  BLUE +:+ MAGNIFIER +:+ " VALIDATING GENERATED CONFIGS" +:+ NC.

Definition name_le (a b : string * string) : Prop := String.le a.1 b.1.

Global Instance name_le_dec : RelDecision name_le.
Proof. intros a b. unfold name_le. apply _. Defined.

(** [sorted(self.output_dir.glob("*.conf"))], each path with the text of
    its file. *)
Definition glob_conf (files : gmap string string) : list (string * string) :=
  merge_sort name_le
    (filter (λ entry, endswith ".conf" entry.1 = true) (map_to_list files)).

(** What [open(conf_file)] reads from a file whose bytes decode: the text
    with its line ends translated. *)
Definition read_text (raw : string) : string := universal_newlines raw.

(** Lines 265-268, on the pair (reuseport_count, reuseport_locations). *)
Definition scan_line (file_name : string) (acc : nat * list string)
    (numbered : nat * string) : nat * list string :=
  let '(line_num, line) := numbered in
  if contains REUSEPORT_MARKER line
  then (acc.1 + 1, acc.2 ++ [file_name +:+ ":" +:+ pretty line_num])
  else acc.

(** Lines 263-268. *)
Definition scan_file (acc : nat * list string) (conf : string * string)
    : nat * list string :=
  foldl (scan_line conf.1) acc (enumerate 1 (readlines (read_text conf.2))).

(** Lines 284-289. *)
Definition configs_without_http3 (confs : list (string * string)) : list string :=
  (filter (λ conf, contains QUIC_MARKER (read_text conf.2) = false) confs).*1.

Definition get_files : M (gmap string string) := λ st, (Ok (output_files st), st).

Definition validate_generated_configs : M bool :=
  print "";;
  print VALIDATOR_BANNER;;
  print (mul "-" 80);;
  files ← get_files;
  let '(reuseport_count, reuseport_locations) :=
    foldl scan_file (0, []) (glob_conf files) in
  all_passed ←
    (if (reuseport_count =? 1)%nat
     then
       print (GREEN +:+ CHECK_MARK +:+ " reuseport check: Found exactly 1 occurrence" +:+ NC);;
       match reuseport_locations with
       | loc :: _ => print ("   Location: " +:+ loc)
       | [] => lift (Raise IndexError)
       end;;
       mret true
     else
       print (YELLOW +:+ CROSS_MARK +:+ " reuseport check: Found "
              +:+ pretty reuseport_count +:+ " occurrences (expected 1)" +:+ NC);;
       for_each (λ loc, print ("   - " +:+ loc)) reuseport_locations;;
       mret false);
  files ← get_files;
  let missing := configs_without_http3 (glob_conf files) in
  all_passed ←
    match missing with
    | [] =>
        print (GREEN +:+ CHECK_MARK +:+ " HTTP/3 check: All configs have QUIC listeners" +:+ NC);;
        mret all_passed
    | _ :: _ =>
        print (YELLOW +:+ CROSS_MARK +:+ " HTTP/3 check: Missing QUIC listeners in:" +:+ NC);;
        for_each (λ conf, print ("   - " +:+ conf)) missing;;
        mret false
    end;
  print (mul "-" 80);;
  (if all_passed : bool
   then print (GREEN +:+ CHECK_MARK +:+ " All validations passed" +:+ NC)
   else print (YELLOW +:+ WARNING_SIGN +:+ "  Some validations failed" +:+ NC));;
  mret all_passed.

(** ** Output writer and driver (lines 308-377) *)

(** [projects[key]] and [key in projects] on the registry mapping. *)
Fixpoint lookup_project (key : string) (projects : registry) : option project :=
  match projects with
  | [] => None
  | (k, p) :: rest => if String.eqb k key then Some p else lookup_project key rest
  end.

(** Truth value of the [specific_project] argument: [None] and the empty
    string are false. *)
Definition requested (specific_project : option string) : option string :=
  match specific_project with
  | Some s => if String.eqb s "" then None else Some s
  | None => None
  end.

(** Lines 313-319. *)
Definition select_projects (specific_project : option string)
    (projects : registry) : M registry :=
  match requested specific_project with
  | Some s =>
      match lookup_project s projects with
      | None =>
          print (CROSS_MARK +:+ " Project not found: " +:+ s);;
          lift (Raise (SystemExit 1))
      | Some p => mret [(s, p)]
      end
  | None => mret projects
  end.

(** Lines 336-341: the name of the output file inside the output directory.
    The [in] test on "domains" always succeeds, the key being mandatory by
    the time line 336 is reached. *)
Definition output_file_name (project_name : string) (p : project) : result string :=
  match production (domains p) with
  | Some prod_domains =>
      match primary_domain prod_domains with
      | Ok primary => Ok (replace "www." "" primary +:+ ".conf")
      | Raise e => Raise e
      end
  | None => Ok (project_name +:+ ".conf")
  end.

Definition get_output_dir : M string := λ st, (Ok (output_dir st), st).

(** Lines 343-348. *)
Definition preview (output_file config : string) : M unit :=
  print ("  Would write to: " +:+ output_file);;
  print "  Config preview (first 10 lines):";;
  for_each (λ line, print ("    " +:+ line))
    (take 10 (split (BACKSLASH +:+ "n") config));;
  print "  ...".

(** Lines 330-357: the body of the loop over the projects. *)
Definition generate_one (dry_run : bool) (entry : string * project) : M unit :=
  let '(project_name, p) := entry in
  print ("Generating config for: " +:+ project_name);;
  config ← generate_project_config project_name p;
  file_name ← lift (output_file_name project_name p);
  dir ← get_output_dir;
  let output_file := dir +:+ "/" +:+ file_name in
  if dry_run
  then preview output_file config
  else
    write_file file_name config;;
    print ("  " +:+ GREEN +:+ CHECK_MARK +:+ " Generated: " +:+ output_file +:+ NC).

(** Lines 364-377. *)
Definition validate_and_report : M unit :=
  validation_passed ← validate_generated_configs;
  print "";;
  print "Next steps:";;
  print "1. Review generated configs";;
  print "2. Test: docker exec platform-nginx nginx -t";;
  print "3. Deploy: ./lib/deploy-platform.sh nginx";;
  if validation_passed : bool
  then mret ()
  else
    print "";;
    print (YELLOW +:+ WARNING_SIGN
           +:+ "  Warning: Some validations failed. Review configs before deploying."
           +:+ NC);;
    lift (Raise (SystemExit 1)).

(** Lines 310-362, applied to the mapping under "projects" of the loaded
    registry: selection, rendering and writing. *)
Definition generate_configs (dry_run : bool) (specific_project : option string)
    (all_projects : registry) : M unit :=
  projects ← select_projects specific_project all_projects;
  print (mul "=" 80);;
  print (BLUE +:+ WRENCH +:+ " NGINX CONFIGURATION GENERATOR" +:+ NC);;
  print (mul "=" 80);;
  print ("Projects to generate: " +:+ pretty (length projects));;
  (if dry_run
   then print (YELLOW +:+ "DRY RUN MODE - No files will be written" +:+ NC)
   else mret ());;
  print "";;
  for_each (generate_one dry_run) projects;;
  print "";;
  print (mul "=" 80);;
  print (GREEN +:+ CHECK_MARK +:+ " Configuration generation complete" +:+ NC);;
  print (mul "=" 80).

(** [generate_all]: generation, then validation unless in dry-run mode
    (line 364). *)
Definition generate_all (dry_run : bool) (specific_project : option string)
    (all_projects : registry) : M unit :=
  generate_configs dry_run specific_project all_projects;;
  if dry_run then mret () else validate_and_report.

(** The exit status of the process: 0 on return, the code of [sys.exit],
    1 after an uncaught exception. *)
Definition exit_status (r : result unit) : Z :=
  match r with
  | Ok _ => 0
  | Raise (SystemExit code) => code
  | Raise _ => 1
  end.

(** ** A sample registry *)

Definition shop : project :=
  {| name := "Shop";
     domains := {| production := Some (DomainList ["www.example.com"; "example.com"]);
                   staging := Some {| staging_domains := DomainList ["staging.example.com"] |} |};
     containers := [("api-backend", {| container_name := "shop-api"; container_port := SInt 3000 |});
                    ("web-frontend", {| container_name := "shop-web"; container_port := SInt 80 |})];
     nginx := Some {| api_locations := Some ["api"; "health"];
                      rate_limit := Some {| zone := None; burst := Some (SInt 100) |};
                      proxy_connect_timeout := None;
                      proxy_timeout := Some (SStr "120s") |} |}.

Definition blog : project :=
  {| name := "Blog";
     domains := {| production := Some (DomainStr "blog.example.org"); staging := None |};
     containers := [("web", {| container_name := "blog-web"; container_port := SInt 8080 |})];
     nginx := None |}.

Definition sample_registry : registry := [("shop", shop); ("blog", blog)].

(** * Notions used in the statements *)

(** ** Strings *)

(** Occurrence of a character in a string. *)
Fixpoint occurs (c : ascii) (s : string) : bool :=
  match s with
  | EmptyString => false
  | String d s' => bool_decide (c = d) || occurs c s'
  end.

(** ** Effects of the generation phase *)

(** What a computation of the generation phase does to the state. *)
Record effect := {
  flag_after : bool;
  writes : list (string * string);
  printed : list string;
  blocks : list https_block;
}.

(** The directory after a sequence of writes, the later ones prevailing. *)
Definition write_all (ws : list (string * string))
    (files : gmap string string) : gmap string string :=
  foldl (λ m w, <[w.1 := w.2]> m) files ws.

(** The state after an effect. *)
Definition apply_effect (eff : effect) (st : state) : state :=
  {| output_dir := output_dir st;
     is_first_server_block := flag_after eff;
     output_files := write_all (writes eff) (output_files st);
     stdout := stdout st ++ printed eff;
     rendered := rendered st ++ blocks eff |}.

(** The effect of doing nothing from a state whose flag is [b]. *)
Definition no_effect (b : bool) : effect :=
  {| flag_after := b; writes := []; printed := []; blocks := [] |}.

(** One effect after another. *)
Definition then_effect (e1 e2 : effect) : effect :=
  {| flag_after := flag_after e2;
     writes := writes e1 ++ writes e2;
     printed := printed e1 ++ printed e2;
     blocks := blocks e1 ++ blocks e2 |}.

(** The effects of [print], of a file write and of rendering a block. *)
Definition print_effect (b : bool) (line : string) : effect :=
  {| flag_after := b; writes := []; printed := [line]; blocks := [] |}.

Definition write_effect (b : bool) (file_name content : string) : effect :=
  {| flag_after := b; writes := [(file_name, content)]; printed := []; blocks := [] |}.

Definition block_effect (b : https_block) : effect :=
  {| flag_after := false; writes := []; printed := []; blocks := [b] |}.

(** A property of effects that sequential composition preserves. *)
Class Composable (P : bool → effect → Prop) := {
  composable_unit b : P b (no_effect b);
  composable_then b e1 e2 :
    P b e1 → P (flag_after e1) e2 → P b (then_effect e1 e2);
}.

(** [c] acts by effects that satisfy [P]: from any state with flag [b] and
    directory path [d], its result and its effect are the same. *)
Definition acts (P : bool → effect → Prop) {A} (c : M A) : Prop :=
  ∀ b d, ∃ r eff, P b eff ∧
    ∀ st, is_first_server_block st = b → output_dir st = d →
          c st = (r, apply_effect eff st).

(** ** Running the monad *)

(** Printing alone: the state with further lines on the standard output. *)
Definition say (out : list string) (st : state) : state :=
  {| output_dir := output_dir st;
     is_first_server_block := is_first_server_block st;
     output_files := output_files st;
     stdout := stdout st ++ out;
     rendered := rendered st |}.

(** ** The generation phase acts by effects *)

(** The listener chosen at lines 91-95 when the flag is [first]. *)
Definition listener_for (first : bool) : string :=
  if first then QUIC_REUSEPORT else QUIC_PLAIN.

(** A block that is the template of the renderer, filled in with the
    listener recorded for it and with the domains of an environment of a
    registry entry that satisfies [Q]. *)
Definition rendered_from (Q : string → project → Prop) (blk : https_block) : Prop :=
  ∃ project_name p e ds primary,
    Q project_name p ∧
    environment_domains p e = Ok ds ∧
    primary_domain ds = Ok primary ∧
    block_text blk
    = server_block_text project_name p e (quic_listener blk) ds primary.

(** Properties of effects kept by printing a line other than the
    validator's heading and by rendering a block of an entry that satisfies
    [Q]; and by writing a file. *)
Class Generation (Q : string → project → Prop) (P : bool → effect → Prop) := {
  #[global] generation_composable :: Composable P;
  generation_print b line :
    line ≠ VALIDATOR_BANNER → P b (print_effect b line);
  generation_block b blk :
    quic_listener blk = listener_for b → rendered_from Q blk →
    P b (block_effect blk);
}.

Class Writing (P : bool → effect → Prop) := {
  writing_write b file_name content : P b (write_effect b file_name content);
}.

(** ** The validator reads and reports *)

(** The counter of the first check and the verdict of the validator. *)
Definition reuseport_count (files : gmap string string) : nat :=
  (foldl scan_file (0, []) (glob_conf files)).1.

(** The value returned by the validator, from the files it reads. *)
Definition validation_passes (files : gmap string string) : bool :=
  (reuseport_count files =? 1)%nat
  && bool_decide (configs_without_http3 (glob_conf files) = []).

(** The messages of the two checks when they fail (lines 278 and 294). *)
Definition REUSEPORT_FAILURE (count : nat) : string :=
  YELLOW +:+ CROSS_MARK +:+ " reuseport check: Found "
  +:+ pretty count +:+ " occurrences (expected 1)" +:+ NC.

Definition HTTP3_FAILURE : string :=
  YELLOW +:+ CROSS_MARK +:+ " HTTP/3 check: Missing QUIC listeners in:" +:+ NC.

(** ** What a whole run does *)

(** The listeners of the blocks rendered from a state whose flag is [b]:
    the first one is decided by the flag, every later one is the plain
    directive, and the flag is down as soon as one block was rendered. *)
Definition listeners_ok (b : bool) (eff : effect) : Prop :=
  match blocks eff with
  | [] => flag_after eff = b
  | first :: others =>
      flag_after eff = false ∧
      quic_listener first = listener_for b ∧
      Forall (λ blk, quic_listener blk = QUIC_PLAIN) others
  end.

(** What every effect of the generation phase satisfies, for entries that
    satisfy [Q]: the listeners are in order, the blocks are rendered from
    the entries, the validator's heading is not printed, and a dry run
    writes nothing. *)
Definition well_behaved (Q : string → project → Prop) (dry_run : bool)
    (b : bool) (eff : effect) : Prop :=
  listeners_ok b eff ∧
  Forall (rendered_from Q) (blocks eff) ∧
  (VALIDATOR_BANNER ∉ printed eff) ∧
  (dry_run = true → writes eff = []).

(** No condition on the registry entries. *)
Definition any_entry : string → project → Prop := λ _ _, True.


(** Whether the validator is reached, and the result of the whole run,
    from the result [r] of the generation phase. *)
Definition validated (dry_run : bool) (r : result ()) : bool :=
  match r with
  | Ok _ => negb dry_run
  | Raise _ => false
  end.

Definition final_result (dry_run : bool) (r : result ())
    (files : gmap string string) : result () :=
  match r with
  | Ok _ =>
      if dry_run then Ok ()
      else if validation_passes files then Ok () else Raise (SystemExit 1)
  | Raise x => Raise x
  end.

(** ** The validator's verdict *)

(** The [*.conf] files of the directory, in no particular order. *)
Definition conf_files (files : gmap string string) : list (string * string) :=
  filter (λ entry, endswith ".conf" entry.1 = true) (map_to_list files).

(** The lines of a file that hold the exclusive-listener marker. *)
Definition marker_lines (raw : string) : list string :=
  filter (λ line, contains REUSEPORT_MARKER line = true) (readlines (read_text raw)).

(** Their number over the [*.conf] files. *)
Definition marker_line_count (files : gmap string string) : nat :=
  sum_list_with (λ conf, length (marker_lines conf.2)) (conf_files files).

(** The two failure conditions of the validator. *)
Definition exclusivity_fails (files : gmap string string) : Prop :=
  marker_line_count files ≠ 1.

Definition capability_fails (files : gmap string string) : Prop :=
  ∃ file_name raw,
    files !! file_name = Some raw ∧
    endswith ".conf" file_name = true ∧
    Forall (λ line, contains QUIC_MARKER line = false) (readlines (read_text raw)).

(** A directory whose [*.conf] files can be read as text. *)
Definition decodable (files : gmap string string) : Prop :=
  Forall (λ conf, valid_utf8 conf.2 = true) (conf_files files).

(** A directory with a stale [*.conf] file that holds the exclusive
    listener. *)
Definition stale : gmap string string :=
  {[ "old.example.net.conf" := "    " +:+ QUIC_REUSEPORT +:+ NL ]}.

(** A directory that holds one file, not a [*.conf] file. *)
Definition notes_only : gmap string string :=
  {[ "notes.txt" := "renew the certificates in March" ]}.

(** ** Primary domain, certificates and logs *)

(** The lines of a block that name a log file. *)
Definition log_lines (text : string) : list string :=
  filter (λ line, contains "access_log " line || contains "error_log " line = true)
    (readlines text).

(** A project with a production list of two domains and no container. *)
Definition boutique : project :=
  {| name := "Boutique";
     domains := {| production := Some (DomainList ["example.com"; "www.example.com"]);
                   staging := None |};
     containers := [];
     nginx := None |}.

(** ** Output file names *)

(** A file name that is a single component of a path: the file of that
    name in a directory is an entry of the directory. *)
Definition path_component (file_name : string) : bool :=
  negb (occurs "/" file_name) && negb (occurs "000" file_name)
  && (String.length file_name <=? 255)%nat
  && negb (String.eqb file_name "") && negb (String.eqb file_name ".")
  && negb (String.eqb file_name "..").

(** [s.removeprefix(prefix)]: what stripping a leading prefix means. *)
Definition removeprefix (prefix s : string) : string :=
  if startswith prefix s
  then String.substring (String.length prefix) (String.length s - String.length prefix) s
  else s.

(** A project whose primary domain has "www." inside. *)
Definition portal : project :=
  {| name := "Portal";
     domains := {| production := Some (DomainList ["mywww.example.com"]);
                   staging := None |};
     containers := [];
     nginx := None |}.

(** ** Rate-limit bursts *)

(** [project.get("nginx", {})] and [nginx_config.get("rate_limit", {})]. *)
Definition nginx_of (p : project) : nginx_options := default EMPTY_NGINX (nginx p).

Definition rate_limit_of (p : project) : rate_limit_config :=
  default EMPTY_RATE_LIMIT (rate_limit (nginx_of p)).

(** A project with both containers, a configured burst and no API location. *)
Definition kiosk : project :=
  {| name := "Kiosk";
     domains := {| production := Some (DomainList ["kiosk.example.com"]);
                   staging := None |};
     containers :=
       [("api-backend", {| container_name := "kiosk-api"; container_port := SInt 3000 |});
        ("web-frontend", {| container_name := "kiosk-web"; container_port := SInt 80 |})];
     nginx := Some {| api_locations := None;
                      rate_limit := Some {| zone := None; burst := Some (SInt 100) |};
                      proxy_connect_timeout := None;
                      proxy_timeout := None |} |}.

(** ** Dry-run mode *)

(** The separator written in the source at line 346: a backslash followed
    by the letter n. *)
Definition PREVIEW_SEPARATOR : string := BACKSLASH +:+ "n".

(** The entries printed by the preview loop. *)
Definition preview_entries (out : list string) : list string :=
  filter (λ line, startswith "    " line = true) out.

(** ** Container classification *)

(** The tests of lines 74 and 79 on a container key. *)
Definition is_backend_key (key : string) : bool := contains "backend" (lower key).

Definition is_frontend_key (key : string) : bool :=
  negb (is_backend_key key)
  && (contains "frontend" (lower key) || contains "web" (lower key)).

(** The dictionary built for a recognised container. *)
Definition to_endpoint (e : environment) (config : container_config) : endpoint :=
  {| endpoint_name :=
       match e with
       | Staging => container_name config +:+ "-staging"
       | Production => container_name config
       end;
     endpoint_port := container_port config |}.

(** A container mapping with a second backend key, in two iteration orders. *)
Definition depot_containers : list (string * container_config) :=
  [("api-backend", {| container_name := "depot-api"; container_port := SInt 3000 |});
   ("web-frontend", {| container_name := "depot-web"; container_port := SInt 80 |});
   ("db-backend", {| container_name := "depot-db"; container_port := SInt 5432 |})].

Definition depot_containers_reordered : list (string * container_config) :=
  [("db-backend", {| container_name := "depot-db"; container_port := SInt 5432 |});
   ("api-backend", {| container_name := "depot-api"; container_port := SInt 3000 |});
   ("web-frontend", {| container_name := "depot-web"; container_port := SInt 80 |})].

(** A container mapping with a key that matches none of the tests. *)
Definition stack_containers : list (string * container_config) :=
  [("api-backend", {| container_name := "stack-api"; container_port := SInt 3000 |});
   ("Redis-Cache", {| container_name := "stack-redis"; container_port := SInt 6379 |});
   ("web-frontend", {| container_name := "stack-web"; container_port := SInt 80 |})].

(** ** Empty domain lists *)

(** A project one of whose domain entries is an empty list. *)
Definition has_empty_domain_list (p : project) : Prop :=
  production (domains p) = Some (DomainList []) ∨
  ∃ s, staging (domains p) = Some s ∧ staging_domains s = DomainList [].

(** The projects a run works on: all of them, or the one requested;
    none when the requested one is missing. *)
Definition selection (specific_project : option string)
    (projects : registry) : option registry :=
  match requested specific_project with
  | Some s =>
      match lookup_project s projects with
      | Some p => Some [(s, p)]
      | None => None
      end
  | None => Some projects
  end.

(** A project whose production domain list is empty. *)
Definition vacant : project :=
  {| name := "Vacant";
     domains := {| production := Some (DomainList []); staging := None |};
     containers := [];
     nginx := None |}.

(** ** Texts free of the word "reuseport" *)

(** The word that distinguishes the exclusive listener. *)
Definition WORD : string := "reuseport".

(** A text in which the word does not occur. *)
Definition clean (s : string) : Prop := contains WORD s = false.

(** A character that does not occur in the word. *)
Definition foreign (c : ascii) : bool := negb (occurs c WORD).

(** Texts that start, or end, with a character foreign to the word. *)
Definition starts_foreign (s : string) : bool :=
  match s with
  | EmptyString => false
  | String c _ => foreign c
  end.

Fixpoint ends_foreign (s : string) : bool :=
  match s with
  | EmptyString => false
  | String c s' =>
      match s' with
      | EmptyString => foreign c
      | String _ _ => ends_foreign s'
      end
  end.

(** Domain entries, optional scalars and endpoints without the word. *)
Definition clean_domains (d : domain_spec) : Prop :=
  match d with
  | DomainList l => Forall clean l
  | DomainStr s => clean s
  end.

Definition clean_scalar (v : option scalar) : Prop :=
  ∀ x, v = Some x → clean (str x).

(** A registry entry none of whose texts holds the word. *)
Definition hygienic (project_name : string) (p : project) : Prop :=
  clean project_name ∧
  clean (name p) ∧
  (∀ d, production (domains p) = Some d → clean_domains d) ∧
  (∀ s, staging (domains p) = Some s → clean_domains (staging_domains s)) ∧
  Forall (λ entry, clean (container_name entry.2) ∧
                   clean (str (container_port entry.2))) (containers p) ∧
  Forall clean (default [] (api_locations (nginx_of p))) ∧
  clean (default "general" (zone (rate_limit_of p))) ∧
  clean_scalar (burst (rate_limit_of p)) ∧
  clean_scalar (proxy_connect_timeout (nginx_of p)) ∧
  clean_scalar (proxy_timeout (nginx_of p)).

Definition clean_endpoint (ep : option endpoint) : Prop :=
  ∀ x, ep = Some x → clean (endpoint_name x) ∧ clean (str (endpoint_port x)).

(** ** Reading a file line by line *)

(** The lines the validator sees in a file (lines 263-264). *)
Definition file_lines (raw : string) : list string := readlines (read_text raw).

(** ** The driver, step by step *)

(** The state after [f.write(config)] on the file [file_name] (lines 354-355). *)
Definition store (file_name content : string) (st : state) : state :=
  {| output_dir := output_dir st;
     is_first_server_block := is_first_server_block st;
     output_files := <[file_name := content]> (output_files st);
     stdout := stdout st;
     rendered := rendered st |}.

(** The state after one more HTTPS block was rendered. *)
Definition render (blk : https_block) (st : state) : state :=
  apply_effect (block_effect blk) st.

(** The lines printed before and after the loop (lines 321-327 and 359-362),
    and the message of line 314. *)
Definition run_heading (dry_run : bool) (count : nat) : list string :=
  [mul "=" 80;
   BLUE +:+ WRENCH +:+ " NGINX CONFIGURATION GENERATOR" +:+ NC;
   mul "=" 80;
   "Projects to generate: " +:+ pretty count]
  ++ (if dry_run
      then [YELLOW +:+ "DRY RUN MODE - No files will be written" +:+ NC]
      else [])
  ++ [""].

Definition RUN_FOOTER : list string :=
  [""; mul "=" 80;
   GREEN +:+ CHECK_MARK +:+ " Configuration generation complete" +:+ NC;
   mul "=" 80].

Definition NOT_FOUND (project_name : string) : string :=
  CROSS_MARK +:+ " Project not found: " +:+ project_name.

(** The lines of the loop body at lines 330 and 357. *)
Definition GENERATING (project_name : string) : string :=
  "Generating config for: " +:+ project_name.

Definition GENERATED (output_file : string) : string :=
  "  " +:+ GREEN +:+ CHECK_MARK +:+ " Generated: " +:+ output_file +:+ NC.

(** ** What the block renderer does to the generator *)

(** A project with a staging environment only. *)
Definition preview_site : project :=
  {| name := "Preview";
     domains := {| production := None;
                   staging := Some {| staging_domains := DomainStr "preview.example.net" |} |};
     containers := [("Web-UI", {| container_name := "preview-web"; container_port := SStr "8080" |})];
     nginx := None |}.

(** ** Which containers are recognised *)

(** The dictionary of a container in the staging environment, from the one
    of the production environment (lines 71-72). *)
Definition staged (ep : endpoint) : endpoint :=
  {| endpoint_name := endpoint_name ep +:+ "-staging";
     endpoint_port := endpoint_port ep |}.

(** A container mapping with its keys rewritten. *)
Definition rekey (f : string → string) (cs : list (string * container_config))
    : list (string * container_config) :=
  prod_map f id <$> cs.

(** A container mapping whose keys mix capitals and small letters. *)
Definition mixed_case_containers : list (string * container_config) :=
  [("API-Backend", {| container_name := "mixed-api"; container_port := SInt 3000 |});
   ("Web-UI", {| container_name := "mixed-web"; container_port := SInt 80 |})].

(** ** What a rendered block holds *)

(** The domains of a domain entry. *)
Definition domain_names (ds : domain_spec) : list string :=
  match ds with
  | DomainList l => l
  | DomainStr s => [s]
  end.

(** The line that names the servers of a block (lines 105 and 209). *)
Definition server_name_line (ds : domain_spec) : string :=
  ("    server_name " +:+ server_names ds +:+ ";") +:+ NL.

(** ** Marker lines of a generated file *)

(** The number of lines of a file that the first check counts. *)
Definition marker_count (raw : string) : nat := length (marker_lines raw).

(** A text whose last line is complete. *)
Definition ends_with_newline (s : string) : Prop := ∃ s', s = s' +:+ NL.

(** Whether a project has an environment to render. *)
Definition has_environment (p : project) : bool :=
  match production (domains p), staging (domains p) with
  | None, None => false
  | _, _ => true
  end.

(** ** The files of a write-mode run *)

(** The file written for a registry entry: it has the name computed at
    lines 336-341 and, when the project has an environment, a QUIC
    listener. *)
Definition written_by (entry : string * project) (w : string * string) : Prop :=
  output_file_name entry.1 entry.2 = Ok w.1 ∧
  (has_environment entry.2 = true → contains QUIC_MARKER w.2 = true).

(** The output file names of the entries of a registry. *)
Definition output_file_names (projects : registry) : list (result string) :=
  (λ entry, output_file_name entry.1 entry.2) <$> projects.

(** The marker lines of a sequence of written files. *)
Definition written_marker_count (ws : list (string * string)) : nat :=
  sum_list_with (λ w, marker_count w.2) ws.

(** ** The file of one project *)

(** A project with both environments and no container. *)
Definition journal : project :=
  {| name := "Journal";
     domains := {| production := Some (DomainList ["journal.example.org"]);
                   staging := Some {| staging_domains := DomainStr "next.journal.example.org" |} |};
     containers := [];
     nginx := None |}.


(** ** Runs that cannot pass the validation *)


(** ** Dry-run mode against write mode *)


(** The line that announces a file in dry-run mode (line 344). *)
Definition WOULD_WRITE (dir file_name : string) : string :=
  "  Would write to: " +:+ dir +:+ "/" +:+ file_name.

(** The dry run [a] has announced every file in which the directory of the
    write run [b] differs from [files]. *)
Definition announced (dir : string) (files : gmap string string) (a b : state) : Prop :=
  ∀ file_name,
    output_files b !! file_name ≠ files !! file_name →
    WOULD_WRITE dir file_name ∈ stdout a.

(** ** What the validator reads and what it reports *)

(** The places noted by the first check (line 268). *)
Definition reuseport_locations (files : gmap string string) : list string :=
  (foldl scan_file (0, []) (glob_conf files)).2.

(** A place: the name of a file and the number of a line, from 1. *)
Definition location (file_name : string) (line_num : nat) : string :=
  file_name +:+ ":" +:+ pretty line_num.

(** A place that is a line with the exclusive-listener marker in a [*.conf]
    file of the directory. *)
Definition marker_location (files : gmap string string) (loc : string) : Prop :=
  ∃ file_name raw index line,
    loc = location file_name (S index) ∧
    files !! file_name = Some raw ∧
    endswith ".conf" file_name = true ∧
    file_lines raw !! index = Some line ∧
    contains REUSEPORT_MARKER line = true.

(** ** The log of the generation phase *)

(** The lines of one turn of the loop in write mode: the announcement and,
    when the output file has a name, the confirmation with its path. *)
Definition progress_lines (dir : string) (entry : string * project) : list string :=
  match output_file_name entry.1 entry.2 with
  | Ok file_name => [GENERATING entry.1; GENERATED (dir +:+ "/" +:+ file_name)]
  | Raise _ => [GENERATING entry.1]
  end.

(** Whether a domain entry is an empty list, on which [domain_list[0]]
    (lines 237 and 245) raises. *)
Definition is_empty_list (d : domain_spec) : bool :=
  match d with
  | DomainList [] => true
  | _ => false
  end.

Definition has_empty_list (p : project) : bool :=
  match production (domains p) with
  | Some d => is_empty_list d
  | None => false
  end
  || match staging (domains p) with
     | Some s => is_empty_list (staging_domains s)
     | None => false
     end.

(** The projects whose turn of the loop of lines 329-357 completes: those
    before the first one with an empty domain list. *)
Fixpoint processed (selected : registry) : registry :=
  match selected with
  | [] => []
  | entry :: rest =>
      if has_empty_list entry.2 then [] else entry :: processed rest
  end.

(** The first domain of an entry that has one. *)
Definition primary_of (ds : domain_spec) : string :=
  match primary_domain ds with
  | Ok primary => primary
  | Raise _ => ""
  end.

(** The text that [generate_project_config] (lines 224-251) returns for a
    project, by the value [first] of the flag when its turn starts: the
    header, then for production and for staging, when present, the HTTP
    redirect and the HTTPS block.  The block of the first environment
    present is rendered with the flag as it is, the staging block after a
    production block with the flag down. *)
Definition planned_text (first : bool) (project_name : string) (p : project) : string :=
  match production (domains p) with
  | Some prod =>
      let config :=
        config_header p +:+ generate_http_redirect prod (primary_of prod)
        +:+ server_block_text project_name p Production (listener_for first)
              prod (primary_of prod)
        +:+ NL in
      match staging (domains p) with
      | Some s =>
          config
          +:+ generate_http_redirect (staging_domains s) (primary_of (staging_domains s))
          +:+ server_block_text project_name p Staging QUIC_PLAIN
                (staging_domains s) (primary_of (staging_domains s))
      | None => config
      end
  | None =>
      match staging (domains p) with
      | Some s =>
          config_header p
          +:+ generate_http_redirect (staging_domains s) (primary_of (staging_domains s))
          +:+ server_block_text project_name p Staging (listener_for first)
                (staging_domains s) (primary_of (staging_domains s))
      | None => config_header p
      end
  end.

(** The name of the file of a project (lines 336-341). *)
Definition planned_name (project_name : string) (p : project) : string :=
  match output_file_name project_name p with
  | Ok file_name => file_name
  | Raise _ => ""
  end.

(** The files that the loop writes for a sequence of projects, in the order
    of the sequence, started with the flag at [first]: the flag stays up
    only as long as the projects met have no environment. *)
Fixpoint planned_files (first : bool) (selected : registry) : list (string * string) :=
  match selected with
  | [] => []
  | entry :: rest =>
      (planned_name entry.1 entry.2, planned_text first entry.1 entry.2)
      :: planned_files (first && negb (has_environment entry.2)) rest
  end.

(** ** The exclusive listener in the files of a run *)


(** * Properties *)

(** ** Strings *)

Section strings.
Implicit Types (s t u sub : string) (c : ascii).

Lemma str_app_cons c s t : String c s +:+ t = String c (s +:+ t).
Proof. done. Qed.

Lemma str_app_nil_l s : "" +:+ s = s.
Proof. done. Qed.

Lemma str_app_nil_r s : s +:+ "" = s.
Proof. induction s as [|c s IH]; [done|]. by rewrite str_app_cons, IH. Qed.

Lemma str_app_assoc s t u : (s +:+ t) +:+ u = s +:+ t +:+ u.
Proof. induction s as [|c s IH]; [done|]. by rewrite !str_app_cons, IH. Qed.

Lemma startswith_nil s : startswith "" s = true.
Proof. by destruct s. Qed.

Lemma startswith_cons c sub d s :
  startswith (String c sub) (String d s)
  = bool_decide (c = d) && startswith sub s.
Proof.
  unfold startswith. simpl.
  destruct (ascii_dec c d);
  [by rewrite bool_decide_eq_true_2|by rewrite bool_decide_eq_false_2].
Qed.

Lemma startswith_app sub s : startswith sub (sub +:+ s) = true.
Proof.
  induction sub as [|c sub IH]; [apply startswith_nil|].
  rewrite str_app_cons, startswith_cons, IH. by rewrite bool_decide_eq_true_2.
Qed.

Lemma startswith_app_l sub s t :
  startswith sub s = true → startswith sub (s +:+ t) = true.
Proof.
  revert s. induction sub as [|c sub IH]; intros [|d s]; try done.
  - intros _. apply startswith_nil.
  - rewrite str_app_cons, !startswith_cons.
    intros [-> ?]%andb_true_iff. rewrite IH; [done|done].
Qed.

Lemma contains_nil s : contains "" s = true.
Proof. destruct s; simpl; by rewrite ?startswith_nil. Qed.

Lemma contains_empty sub : contains sub "" = startswith sub "".
Proof. unfold contains. apply orb_false_r. Qed.

Lemma contains_cons sub c s :
  contains sub (String c s) = startswith sub (String c s) || contains sub s.
Proof. done. Qed.

Lemma contains_app_r sub s t :
  contains sub t = true → contains sub (s +:+ t) = true.
Proof.
  intros Ht. induction s as [|c s IH]; [done|].
  rewrite str_app_cons, contains_cons, IH. apply orb_true_r.
Qed.

Lemma contains_startswith sub s :
  startswith sub s = true → contains sub s = true.
Proof.
  intros H. destruct s as [|c s]; [|by rewrite contains_cons, H].
  unfold contains. by rewrite H.
Qed.

Lemma contains_app_l sub s t :
  contains sub s = true → contains sub (s +:+ t) = true.
Proof.
  induction s as [|c s IH].
  - simpl. rewrite orb_false_r. intros H.
    destruct sub; [apply contains_nil|done].
  - rewrite str_app_cons, !contains_cons. intros [H|H]%orb_true_iff.
    + pose proof (startswith_app_l _ _ t H) as H'.
      rewrite str_app_cons in H'. by rewrite H'.
    + rewrite IH by done. apply orb_true_r.
Qed.

(** [sub] occurs in any text built around it. *)
Lemma contains_infix sub s t : contains sub (s +:+ sub +:+ t) = true.
Proof. apply contains_app_r, contains_startswith, startswith_app. Qed.

Lemma contains_spec sub s :
  contains sub s = true ↔ ∃ pre post, s = pre +:+ sub +:+ post.
Proof.
  split.
  - induction s as [|c s IH].
    + simpl. rewrite orb_false_r. destruct sub; [|done].
      intros _. by exists "", "".
    + rewrite contains_cons. intros [H|H]%orb_true_iff.
      * exists "". revert H. generalize (String c s). clear.
        induction sub as [|d sub IH]; intros [|c s] H; try done.
        -- by exists "".
        -- by exists (String c s).
        -- rewrite startswith_cons in H. apply andb_true_iff in H as [Hd H].
           apply bool_decide_eq_true in Hd as ->.
           destruct (IH _ H) as [post Hpost]. exists post.
           simpl in *. by rewrite Hpost.
      * destruct (IH H) as (pre & post & ->). by exists (String c pre), post.
  - intros (pre & post & ->). apply contains_infix.
Qed.

(** A match of [sub] cannot run over a character that [sub] lacks. *)
Lemma startswith_app_foreign sub s c t :
  occurs c sub = false →
  startswith sub (s +:+ String c t) = startswith sub s.
Proof.
  revert s. induction sub as [|d sub IH]; intros s Hc.
  { by rewrite !startswith_nil. }
  simpl in Hc. apply orb_false_iff in Hc as [Hd Hc].
  destruct s as [|e s].
  - rewrite str_app_nil_l, startswith_cons.
    apply bool_decide_eq_false in Hd.
    by rewrite bool_decide_eq_false_2 by congruence.
  - rewrite str_app_cons, !startswith_cons, IH; done.
Qed.

Lemma contains_app_foreign sub s c t :
  occurs c sub = false →
  contains sub (s +:+ String c t) = contains sub s || contains sub t.
Proof.
  intros Hc. induction s as [|d s IH].
  - rewrite str_app_nil_l, contains_cons.
    pose proof (startswith_app_foreign sub "" c t Hc) as H.
    rewrite str_app_nil_l in H. rewrite H.
    by rewrite contains_empty.
  - rewrite str_app_cons, !contains_cons, IH.
    rewrite <-str_app_cons, startswith_app_foreign by done.
    by rewrite orb_assoc.
Qed.

Lemma contains_trans s t u :
  contains s t = true → contains t u = true → contains s u = true.
Proof.
  rewrite !contains_spec. intros (a & b & ->) (c & d & ->).
  exists (c +:+ a), (b +:+ d). by rewrite !str_app_assoc.
Qed.

Lemma contains_unlines line lines :
  line ∈ lines → contains (line +:+ NL) (unlines lines) = true.
Proof.
  induction 1 as [line lines|line other lines _ IH]; simpl.
  - rewrite <-str_app_assoc. apply contains_startswith, startswith_app.
  - by apply contains_app_r, contains_app_r.
Qed.

End strings.

(** ** Effects of the generation phase

    Rendering and writing never read the files or the output already
    produced: what a computation of that phase does is determined by the
    flag and the directory path it starts from, and amounts to a new flag,
    a sequence of file writes, printed lines and rendered blocks. *)

Lemma apply_no_effect st :
  apply_effect (no_effect (is_first_server_block st)) st = st.
Proof.
  destruct st. unfold apply_effect, no_effect. simpl.
  by rewrite !app_nil_r.
Qed.

Lemma write_all_app ws1 ws2 files :
  write_all (ws1 ++ ws2) files = write_all ws2 (write_all ws1 files).
Proof. apply foldl_app. Qed.

Lemma apply_then_effect e1 e2 st :
  apply_effect e2 (apply_effect e1 st) = apply_effect (then_effect e1 e2) st.
Proof.
  unfold apply_effect, then_effect. simpl.
  by rewrite write_all_app, !(assoc_L (++)).
Qed.

Section acts.
Context (P : bool → effect → Prop) `{!Composable P}.

Lemma acts_ret {A} (a : A) : acts P (mret a).
Proof.
  intros b d. exists (Ok a), (no_effect b). split; [apply composable_unit|].
  intros st <- _. by rewrite apply_no_effect.
Qed.

Lemma acts_lift {A} (r : result A) : acts P (lift r).
Proof.
  intros b d. exists r, (no_effect b). split; [apply composable_unit|].
  intros st <- _. by rewrite apply_no_effect.
Qed.

Lemma acts_get_output_dir : acts P get_output_dir.
Proof.
  intros b d. exists (Ok d), (no_effect b). split; [apply composable_unit|].
  intros st <- <-. by rewrite apply_no_effect.
Qed.

Lemma acts_bind {A B} (c : M A) (k : A → M B) :
  acts P c → (∀ a, acts P (k a)) → acts P (c ≫= k).
Proof.
  intros Hc Hk b d. destruct (Hc b d) as (r & e1 & HP1 & H1).
  destruct r as [a|x].
  - destruct (Hk a (flag_after e1) d) as (r2 & e2 & HP2 & H2).
    exists r2, (then_effect e1 e2). split; [by apply composable_then|].
    intros st Hb Hd. unfold mbind, M_bind, bind. rewrite (H1 st Hb Hd).
    rewrite (H2 (apply_effect e1 st)) by done.
    by rewrite apply_then_effect.
  - exists (Raise x), e1. split; [done|].
    intros st Hb Hd. unfold mbind, M_bind, bind. by rewrite (H1 st Hb Hd).
Qed.

Lemma acts_for_each {A} (body : A → M unit) (l : list A) :
  (∀ x, acts P (body x)) → acts P (for_each body l).
Proof.
  intros Hbody. induction l as [|x l IH]; simpl.
  - apply (acts_ret ()).
  - apply acts_bind; [apply Hbody|]. intros _. apply IH.
Qed.

Lemma acts_print line :
  (∀ b, P b (print_effect b line)) → acts P (print line).
Proof.
  intros HP b d. exists (Ok ()), (print_effect b line). split; [apply HP|].
  intros st <- _. unfold print, apply_effect. simpl. by rewrite app_nil_r.
Qed.

Lemma acts_write_file file_name content :
  (∀ b, P b (write_effect b file_name content)) →
  acts P (write_file file_name content).
Proof.
  intros HP b d. exists (Ok ()), (write_effect b file_name content).
  split; [apply HP|].
  intros st <- _. unfold write_file, apply_effect. simpl.
  by rewrite !app_nil_r.
Qed.

End acts.

(** ** Running the monad *)

Lemma say_nil st : say [] st = st.
Proof. destruct st. unfold say. simpl. by rewrite app_nil_r. Qed.

Lemma say_say out1 out2 st : say out2 (say out1 st) = say (out1 ++ out2) st.
Proof. unfold say. simpl. by rewrite (assoc_L (++)). Qed.

Lemma bind_run {A B} (c : M A) (k : A → M B) st :
  (c ≫= k) st
  = match c st with
    | (Ok a, st') => k a st'
    | (Raise x, st') => (Raise x, st')
    end.
Proof. done. Qed.

Lemma print_run line st : print line st = (Ok (), say [line] st).
Proof. done. Qed.

Lemma print_bind {B} line (k : () → M B) st :
  (print line ≫= k) st = k () (say [line] st).
Proof. done. Qed.

Lemma ret_bind {A B} (a : A) (k : A → M B) st : (mret a ≫= k) st = k a st.
Proof. done. Qed.

Lemma get_files_bind {B} (k : gmap string string → M B) st :
  (get_files ≫= k) st = k (output_files st) st.
Proof. done. Qed.

Lemma bind_bind {A B C} (c : M A) (k1 : A → M B) (k2 : B → M C) st :
  ((c ≫= k1) ≫= k2) st = (c ≫= λ a, k1 a ≫= k2) st.
Proof. unfold mbind, M_bind, bind. by destruct (c st) as [[a|x] st']. Qed.

Lemma for_each_print_run {A} (f : A → string) (l : list A) st :
  for_each (λ x, print (f x)) l st = (Ok (), say (f <$> l) st).
Proof.
  revert st. induction l as [|x l IH]; intros st; simpl.
  - by rewrite say_nil.
  - rewrite bind_run, print_run, IH. by rewrite say_say.
Qed.

Lemma for_each_print_bind {A B} (f : A → string) (l : list A) (k : () → M B) st :
  (for_each (λ x, print (f x)) l ≫= k) st = k () (say (f <$> l) st).
Proof. by rewrite bind_run, for_each_print_run. Qed.

Ltac run_prints :=
  repeat first
    [ rewrite print_bind | rewrite bind_bind | rewrite ret_bind
    | rewrite get_files_bind | rewrite for_each_print_bind ];
  rewrite ?print_run, ?say_say.

Lemma lift_bind {A B} (r : result A) (k : A → M B) st :
  (lift r ≫= k) st
  = match r with
    | Ok a => k a st
    | Raise x => (Raise x, st)
    end.
Proof. by destruct r. Qed.

Lemma ret_run {A} (a : A) (st : state) : (mret a : M A) st = (Ok a, st).
Proof. done. Qed.

(** ** The generation phase acts by effects *)

Lemma choose_quic_listener_run st :
  choose_quic_listener st
  = (Ok (listener_for (is_first_server_block st)),
     apply_effect (no_effect false) st).
Proof.
  unfold choose_quic_listener. destruct (is_first_server_block st) eqn:Hflag.
  - unfold apply_effect. simpl. by rewrite !app_nil_r.
  - simpl. f_equal. by rewrite <-Hflag, apply_no_effect.
Qed.

Lemma generate_server_block_run project_name p e st :
  generate_server_block project_name p e st =
  match environment_domains p e with
  | Raise x => (Raise x, st)
  | Ok ds =>
      match primary_domain ds with
      | Raise x => (Raise x, st)
      | Ok primary =>
          let listener := listener_for (is_first_server_block st) in
          let text := server_block_text project_name p e listener ds primary in
          (Ok text,
           apply_effect
             (block_effect {| quic_listener := listener; block_text := text |}) st)
      end
  end.
Proof.
  unfold generate_server_block, mbind, M_bind, bind, lift.
  destruct (environment_domains p e) as [ds|x]; [|done].
  destruct (primary_domain ds) as [primary|x]; [|done].
  rewrite choose_quic_listener_run. simpl.
  unfold apply_effect. simpl. by rewrite !app_nil_r.
Qed.

(** Lines are told apart from the validator's heading by evaluation. *)
Ltac not_banner :=
  let H := fresh in
  intros H; vm_compute in H; discriminate H.

Lemma acts_ext (P : bool → effect → Prop) {A} (c c' : M A) :
  (∀ st, c st = c' st) → acts P c' → acts P c.
Proof.
  intros Heq Hc b d. destruct (Hc b d) as (r & eff & HP & Hrun).
  exists r, eff. split; [done|]. intros st Hb Hd. by rewrite Heq, Hrun.
Qed.

Lemma lookup_project_elem key projects p :
  lookup_project key projects = Some p → (key, p) ∈ projects.
Proof.
  induction projects as [|[k q] projects IH]; [done|]. simpl.
  destruct (String.eqb_spec k key) as [->|_].
  - intros [= ->]. by left.
  - intros Hp. right. by apply IH.
Qed.

Section generation.
Context (Q : string → project → Prop) (P : bool → effect → Prop).
Context `{!Generation Q P}.

Lemma acts_say line : line ≠ VALIDATOR_BANNER → acts P (print line).
Proof. intros H. apply (acts_print P). intros b. by apply generation_print. Qed.

Lemma acts_generate_server_block project_name p e :
  Q project_name p → acts P (generate_server_block project_name p e).
Proof.
  intros HQ b d.
  destruct (environment_domains p e) as [ds|x] eqn:Hds.
  2:{ exists (Raise x), (no_effect b). split; [apply composable_unit|].
      intros st <- _. by rewrite generate_server_block_run, Hds, apply_no_effect. }
  destruct (primary_domain ds) as [primary|x] eqn:Hprimary.
  2:{ exists (Raise x), (no_effect b). split; [apply composable_unit|].
      intros st <- _.
      by rewrite generate_server_block_run, Hds, Hprimary, apply_no_effect. }
  set (text := server_block_text project_name p e (listener_for b) ds primary).
  exists (Ok text),
    (block_effect {| quic_listener := listener_for b; block_text := text |}).
  split.
  - apply generation_block; [done|].
    by exists project_name, p, e, ds, primary.
  - intros st <- _. by rewrite generate_server_block_run, Hds, Hprimary.
Qed.

Lemma acts_generate_project_config project_name p :
  Q project_name p → acts P (generate_project_config project_name p).
Proof.
  intros HQ. unfold generate_project_config.
  apply (acts_bind P).
  - destruct (production (domains p)); [|by apply (acts_ret P)].
    apply (acts_bind P); [by apply (acts_lift P)|intros primary].
    apply (acts_bind P); [by apply acts_generate_server_block|intros block].
    by apply (acts_ret P).
  - intros config. destruct (staging (domains p)); [|by apply (acts_ret P)].
    apply (acts_bind P); [by apply (acts_lift P)|intros primary].
    apply (acts_bind P); [by apply acts_generate_server_block|intros block].
    by apply (acts_ret P).
Qed.

Lemma acts_preview output_file config : acts P (preview output_file config).
Proof.
  unfold preview.
  apply (acts_bind P); [apply acts_say; not_banner|intros _].
  apply (acts_bind P); [apply acts_say; not_banner|intros _].
  apply (acts_bind P); [ |intros _; apply acts_say; not_banner].
  apply (acts_for_each P). intros line. apply acts_say; not_banner.
Qed.

Lemma acts_generate_one dry_run entry :
  (dry_run = false → Writing P) → Q entry.1 entry.2 →
  acts P (generate_one dry_run entry).
Proof.
  intros Hwrite HQ. destruct entry as [project_name p]. unfold generate_one.
  apply (acts_bind P); [apply acts_say; not_banner|intros _].
  apply (acts_bind P); [by apply acts_generate_project_config|intros config].
  apply (acts_bind P); [by apply (acts_lift P)|intros file_name].
  apply (acts_bind P); [by apply (acts_get_output_dir P)|intros dir].
  destruct dry_run; [apply acts_preview|].
  apply (acts_bind P); [ |intros _; apply acts_say; not_banner].
  apply (acts_write_file P). intros b. by apply Hwrite.
Qed.

Lemma acts_generate_each dry_run projects :
  (dry_run = false → Writing P) →
  Forall (λ entry, Q entry.1 entry.2) projects →
  acts P (for_each (generate_one dry_run) projects).
Proof.
  intros Hwrite. induction 1 as [|entry projects Hentry _ IH]; simpl.
  - apply (acts_ret P ()).
  - apply (acts_bind P); [by apply acts_generate_one|]. intros _. apply IH.
Qed.

(** Lines 321-362, once the projects are selected. *)
Lemma acts_generate_selected dry_run selected :
  (dry_run = false → Writing P) →
  Forall (λ entry, Q entry.1 entry.2) selected →
  acts P
    (print (mul "=" 80);;
     print (BLUE +:+ WRENCH +:+ " NGINX CONFIGURATION GENERATOR" +:+ NC);;
     print (mul "=" 80);;
     print ("Projects to generate: " +:+ pretty (length selected));;
     (if dry_run
      then print (YELLOW +:+ "DRY RUN MODE - No files will be written" +:+ NC)
      else mret ());;
     print "";;
     for_each (generate_one dry_run) selected;;
     print "";;
     print (mul "=" 80);;
     print (GREEN +:+ CHECK_MARK +:+ " Configuration generation complete" +:+ NC);;
     print (mul "=" 80)).
Proof.
  intros Hwrite Hselected.
  do 4 (apply (acts_bind P); [apply acts_say; not_banner|intros _]).
  apply (acts_bind P); [ |intros _].
  { destruct dry_run; [apply acts_say; not_banner|by apply (acts_ret P)]. }
  apply (acts_bind P); [apply acts_say; not_banner|intros _].
  apply (acts_bind P); [by apply acts_generate_each|intros _].
  do 3 (apply (acts_bind P); [apply acts_say; not_banner|intros _]).
  apply acts_say; not_banner.
Qed.

Lemma acts_generate_configs dry_run specific_project projects :
  (dry_run = false → Writing P) →
  Forall (λ entry, Q entry.1 entry.2) projects →
  acts P (generate_configs dry_run specific_project projects).
Proof.
  intros Hwrite Hprojects. unfold generate_configs, select_projects.
  destruct (requested specific_project) as [s|].
  - destruct (lookup_project s projects) as [p|] eqn:Hlookup.
    + eapply acts_ext; [intros st; apply ret_bind|].
      apply acts_generate_selected; [done|].
      apply Forall_singleton. rewrite Forall_forall in Hprojects.
      by apply (Hprojects (s, p)), lookup_project_elem.
    + apply (acts_ext P _
               (print (CROSS_MARK +:+ " Project not found: " +:+ s);;
                lift (Raise (SystemExit 1)))); [done|].
      apply (acts_bind P); [apply acts_say; not_banner|intros _].
      by apply (acts_lift P).
  - eapply acts_ext; [intros st; apply ret_bind|].
    by apply acts_generate_selected.
Qed.

End generation.

(** ** The validator reads and reports *)

(** The number of marker lines found equals the number of places noted. *)
Lemma scan_file_count acc conf :
  acc.1 = length acc.2 → (scan_file acc conf).1 = length (scan_file acc conf).2.
Proof.
  unfold scan_file. generalize (enumerate 1 (readlines (read_text conf.2))).
  intros l. revert acc. induction l as [|[n line] l IH]; intros acc Hacc; [done|].
  simpl. apply IH. unfold scan_line.
  destruct (contains REUSEPORT_MARKER line); [|done].
  simpl. rewrite length_app. simpl. lia.
Qed.

Lemma scan_files_count confs acc :
  acc.1 = length acc.2 →
  (foldl scan_file acc confs).1 = length (foldl scan_file acc confs).2.
Proof.
  revert acc. induction confs as [|conf confs IH]; intros acc Hacc; [done|].
  simpl. by apply IH, scan_file_count.
Qed.

Lemma validate_generated_configs_run st :
  let files := output_files st in
  ∃ out,
    validate_generated_configs st = (Ok (validation_passes files), say out st) ∧
    VALIDATOR_BANNER ∈ out ∧
    (reuseport_count files ≠ 1 → REUSEPORT_FAILURE (reuseport_count files) ∈ out) ∧
    (configs_without_http3 (glob_conf files) ≠ [] → HTTP3_FAILURE ∈ out).
Proof.
  intros files. unfold validate_generated_configs.
  rewrite !print_bind, get_files_bind.
  change (output_files (say _ (say _ (say _ st)))) with files.
  unfold validation_passes, reuseport_count.
  pose proof (scan_files_count (glob_conf files) (0, []) eq_refl) as Hcount.
  destruct (foldl scan_file (0, []) (glob_conf files)) as [count locs].
  simpl in Hcount. cbn [fst].
  destruct (count =? 1)%nat eqn:Hone.
  - apply Nat.eqb_eq in Hone. subst count.
    destruct locs as [|loc locs]; [done|].
    run_prints. change (output_files (say _ st)) with files.
    destruct (configs_without_http3 (glob_conf files)) as [|conf missing] eqn:Hmissing;
      run_prints; (eexists; split; [reflexivity|]);
      (split; [set_solver|]); (split; [done|]); intros ?; [done|].
    unfold HTTP3_FAILURE. set_solver.
  - apply Nat.eqb_neq in Hone.
    run_prints. change (output_files (say _ st)) with files.
    destruct (configs_without_http3 (glob_conf files)) as [|conf missing] eqn:Hmissing;
      run_prints; (eexists; split; [reflexivity|]);
      (split; [set_solver|]);
      (split; [intros _; unfold REUSEPORT_FAILURE; set_solver|]); intros ?; [done|].
    unfold HTTP3_FAILURE. set_solver.
Qed.

Lemma validate_and_report_run st :
  ∃ out,
    validate_and_report st
    = (if validation_passes (output_files st) then Ok () else Raise (SystemExit 1),
       say out st) ∧
    VALIDATOR_BANNER ∈ out ∧
    (reuseport_count (output_files st) ≠ 1 →
     REUSEPORT_FAILURE (reuseport_count (output_files st)) ∈ out) ∧
    (configs_without_http3 (glob_conf (output_files st)) ≠ [] → HTTP3_FAILURE ∈ out).
Proof.
  destruct (validate_generated_configs_run st) as (out & Hrun & Hbanner & H1 & H2).
  unfold validate_and_report. rewrite bind_run, Hrun.
  destruct (validation_passes (output_files st)); run_prints.
  - eexists. split; [reflexivity|]. set_solver.
  - unfold lift. rewrite ?say_say. eexists. split; [reflexivity|]. set_solver.
Qed.

(** ** What a whole run does *)

Lemma listeners_ok_then b e1 e2 :
  listeners_ok b e1 → listeners_ok (flag_after e1) e2 →
  listeners_ok b (then_effect e1 e2).
Proof.
  unfold listeners_ok, then_effect. simpl.
  destruct (blocks e1) as [|first others]; simpl.
  - by intros ->.
  - intros (-> & Hfirst & Hothers).
    destruct (blocks e2) as [|first2 others2]; simpl.
    + intros ->. by rewrite app_nil_r.
    + intros (-> & Hfirst2 & Hothers2). split_and!; [done..|].
      apply Forall_app. split; [done|]. by constructor.
Qed.

Global Instance well_behaved_composable Q dry_run :
  Composable (well_behaved Q dry_run).
Proof.
  split.
  - intros b. unfold well_behaved, listeners_ok. simpl.
    split_and!; [done|constructor|apply not_elem_of_nil|done].
  - intros b e1 e2 (Hl1 & Hb1 & Hp1 & Hw1) (Hl2 & Hb2 & Hp2 & Hw2).
    split_and!.
    + by apply listeners_ok_then.
    + simpl. by apply Forall_app.
    + simpl. rewrite elem_of_app. tauto.
    + intros Hdry. simpl. by rewrite Hw1, Hw2.
Qed.

Global Instance well_behaved_generation Q dry_run :
  Generation Q (well_behaved Q dry_run).
Proof.
  split; [apply _|..].
  - intros b line Hline. unfold well_behaved, listeners_ok. simpl.
    split_and!; [done|constructor| |done].
    rewrite list_elem_of_singleton. congruence.
  - intros b blk Hlistener Hblk. unfold well_behaved, listeners_ok. simpl.
    split_and!; [done|done|constructor|by repeat constructor|apply not_elem_of_nil|done].
Qed.

Global Instance well_behaved_writing Q : Writing (well_behaved Q false).
Proof.
  split. intros b file_name content. unfold well_behaved, listeners_ok. simpl.
  split_and!; [done|constructor|apply not_elem_of_nil|done].
Qed.

Lemma Forall_any_entry (projects : registry) :
  Forall (λ entry, any_entry entry.1 entry.2) projects.
Proof. by apply Forall_true. Qed.

Lemma generate_configs_run Q dry_run specific_project projects b d :
  Forall (λ entry, Q entry.1 entry.2) projects →
  ∃ r eff,
    well_behaved Q dry_run b eff ∧
    ∀ st, is_first_server_block st = b → output_dir st = d →
          generate_configs dry_run specific_project projects st
          = (r, apply_effect eff st).
Proof.
  intros Hprojects.
  apply (acts_generate_configs Q (well_behaved Q dry_run)); [|done].
  intros ->. apply _.
Qed.

Lemma generate_all_unfold dry_run specific_project projects st :
  generate_all dry_run specific_project projects st =
  match generate_configs dry_run specific_project projects st with
  | (Ok _, st') => if dry_run then (Ok (), st') else validate_and_report st'
  | (Raise x, st') => (Raise x, st')
  end.
Proof.
  unfold generate_all. rewrite bind_run.
  destruct (generate_configs _ _ _ st) as [[[]|x] st']; [|done].
  by destruct dry_run.
Qed.

Lemma generate_all_run Q dry_run specific_project projects b d :
  Forall (λ entry, Q entry.1 entry.2) projects →
  ∃ r eff,
    well_behaved Q dry_run b eff ∧
    ∀ st, is_first_server_block st = b → output_dir st = d →
      generate_configs dry_run specific_project projects st
      = (r, apply_effect eff st) ∧
      ∃ out,
        generate_all dry_run specific_project projects st
        = (final_result dry_run r (output_files (apply_effect eff st)),
           say out (apply_effect eff st)) ∧
        if validated dry_run r
        then VALIDATOR_BANNER ∈ out ∧
             (reuseport_count (output_files (apply_effect eff st)) ≠ 1 →
              REUSEPORT_FAILURE (reuseport_count (output_files (apply_effect eff st))) ∈ out) ∧
             (configs_without_http3 (glob_conf (output_files (apply_effect eff st))) ≠ [] →
              HTTP3_FAILURE ∈ out)
        else out = [].
Proof.
  intros Hprojects.
  destruct (generate_configs_run Q dry_run specific_project projects b d Hprojects)
    as (r & eff & Hwb & Hrun).
  exists r, eff. split; [done|]. intros st Hb Hd.
  specialize (Hrun st Hb Hd). split; [done|].
  rewrite generate_all_unfold, Hrun. destruct r as [[]|x]; simpl.
  - destruct dry_run; simpl.
    + exists []. by rewrite say_nil.
    + destruct (validate_and_report_run (apply_effect eff st))
        as (out & -> & Hout).
      by exists out.
  - exists []. by rewrite say_nil.
Qed.

(** ** The validator's verdict (C2) *)

Lemma glob_conf_Permutation files : glob_conf files ≡ₚ conf_files files.
Proof. apply merge_sort_Permutation. Qed.

Lemma scan_lines_count file_name lines start acc :
  (foldl (scan_line file_name) acc (enumerate start lines)).1
  = acc.1 + length (filter (λ line, contains REUSEPORT_MARKER line = true) lines).
Proof.
  revert start acc. induction lines as [|line lines IH]; intros start acc.
  { simpl. lia. }
  cbn [enumerate foldl]. rewrite IH. unfold scan_line.
  destruct (contains REUSEPORT_MARKER line) eqn:Hline.
  - rewrite filter_cons_True by done. simpl. lia.
  - rewrite filter_cons_False by congruence. done.
Qed.

Lemma scan_files_total confs acc :
  (foldl scan_file acc confs).1
  = acc.1 + sum_list_with (λ conf, length (marker_lines conf.2)) confs.
Proof.
  revert acc. induction confs as [|conf confs IH]; intros acc.
  { simpl. lia. }
  cbn [foldl sum_list_with]. rewrite IH. unfold scan_file.
  rewrite scan_lines_count. unfold marker_lines. lia.
Qed.

(** The counter of the first check does not depend on the order in which
    the files are read. *)
Lemma reuseport_count_marker_lines files :
  reuseport_count files = marker_line_count files.
Proof.
  unfold reuseport_count, marker_line_count.
  by rewrite scan_files_total, glob_conf_Permutation.
Qed.

(** Lines and whole text: a text without line ends inside the pattern has
    the pattern exactly when one of its lines has it. *)
Lemma readlines_first t line lines :
  readlines t = line :: lines →
  (∃ body rest, line = body +:+ NL ∧ t = body +:+ NL +:+ rest) ∨ line = t.
Proof.
  revert line lines. induction t as [|c t IH]; intros line lines; [done|].
  cbn [readlines]. destruct (Ascii.eqb c "010") eqn:Hc.
  - apply Ascii.eqb_eq in Hc as ->. intros [= <- _]. left. by exists "", t.
  - destruct (readlines t) as [|line' lines'] eqn:Hlines.
    + intros [= <- _]. right. destruct t as [|d t]; [done|].
      cbn [readlines] in Hlines. destruct (Ascii.eqb d "010"); [done|].
      by destruct (readlines t).
    + intros [= <- _]. destruct (IH _ _ eq_refl) as [(body & rest & -> & ->) | ->].
      * left. by exists (String c body), rest.
      * by right.
Qed.

Lemma contains_readlines sub t :
  sub ≠ "" → occurs "010" sub = false →
  contains sub t = existsb (contains sub) (readlines t).
Proof.
  intros Hsub Hnl.
  assert (contains sub "" = false) as Hempty.
  { rewrite contains_empty. by destruct sub. }
  induction t as [|c t IH]; [done|].
  cbn [readlines]. destruct (Ascii.eqb c "010") eqn:Hc.
  - apply Ascii.eqb_eq in Hc as ->. cbn [existsb].
    rewrite <-IH, <-(str_app_nil_l (String "010" t)).
    rewrite <-(str_app_nil_l (String "010" "")).
    by rewrite !contains_app_foreign, Hempty.
  - rewrite contains_cons, IH.
    destruct (readlines t) as [|line lines] eqn:Hlines.
    + cbn [existsb]. rewrite contains_cons, Hempty, !orb_false_r.
      destruct t as [|d t]; [done|].
      cbn [readlines] in Hlines. destruct (Ascii.eqb d "010"); [done|].
      by destruct (readlines t).
    + cbn [existsb]. rewrite contains_cons, orb_assoc. f_equal. f_equal.
      destruct (readlines_first t line lines Hlines)
        as [(body & rest & -> & ->) | ->]; [|done].
      rewrite <-!str_app_cons.
      change (NL +:+ rest) with (String "010" rest).
      change NL with (String "010" "").
      by rewrite !startswith_app_foreign.
Qed.

Lemma configs_without_http3_spec files :
  configs_without_http3 (glob_conf files) ≠ [] ↔ capability_fails files.
Proof.
  unfold configs_without_http3, capability_fails.
  assert (∀ raw, contains QUIC_MARKER (read_text raw) = false ↔
            Forall (λ line, contains QUIC_MARKER line = false)
              (readlines (read_text raw))) as Hlines.
  { intros raw. rewrite (contains_readlines QUIC_MARKER) by done.
    rewrite <-not_true_iff_false, existsb_exists, Forall_forall.
    split.
    - intros Hnone line Hline. apply not_true_iff_false. intros Hc.
      apply Hnone. exists line. by rewrite <-list_elem_of_In.
    - intros Hall (line & Hline & Hc). apply list_elem_of_In in Hline.
      specialize (Hall line Hline). congruence. }
  split.
  - intros Hmissing.
    destruct (filter _ (glob_conf files)) as [|[file_name raw] rest] eqn:Hfilter;
      [done|].
    assert ((file_name, raw) ∈ filter
              (λ conf, contains QUIC_MARKER (read_text conf.2) = false)
              (glob_conf files)) as Hin by (rewrite Hfilter; left).
    apply list_elem_of_filter in Hin as [Hquic Hin]. simpl in Hquic.
    rewrite glob_conf_Permutation in Hin.
    apply list_elem_of_filter in Hin as [Hconf Hin].
    apply elem_of_map_to_list in Hin.
    exists file_name, raw. split_and!; [done..|]. by apply Hlines.
  - intros (file_name & raw & Hfile & Hconf & Hquic).
    assert ((file_name, raw) ∈ filter
              (λ conf, contains QUIC_MARKER (read_text conf.2) = false)
              (glob_conf files)) as Hin.
    { apply list_elem_of_filter. split; [by apply Hlines|].
      rewrite glob_conf_Permutation. apply list_elem_of_filter.
      split; [done|]. by apply elem_of_map_to_list. }
    intros Hnil. apply fmap_nil_inv in Hnil. rewrite Hnil in Hin.
    by apply elem_of_nil in Hin.
Qed.

Lemma validation_passes_spec files :
  validation_passes files = false ↔ exclusivity_fails files ∨ capability_fails files.
Proof.
  unfold validation_passes, exclusivity_fails.
  rewrite <-configs_without_http3_spec, <-reuseport_count_marker_lines.
  rewrite andb_false_iff, Nat.eqb_neq, bool_decide_eq_false. done.
Qed.

(** C2, as stated, fails: a file of the output directory that is not a
    [*.conf] file is not read.  After a write-mode run that passes
    validation and exits with status 0, the directory holds a file without
    any line carrying the QUIC listener marker. *)
Lemma validator_ignores_files_not_named_conf :
  let run := generate_all false None [("blog", blog)] (init "/srv/conf.d" notes_only) in
  run.1 = Ok () ∧
  exit_status run.1 = 0%Z ∧
  output_files run.2 !! "notes.txt" = Some "renew the certificates in March" ∧
  Forall (λ line, contains QUIC_MARKER line = false)
    (readlines (read_text "renew the certificates in March")).
Proof.
  split_and!; [by vm_compute..|]. vm_compute. by repeat constructor.
Qed.

Lemma decodable_forallb files :
  forallb (λ conf, valid_utf8 conf.2) (conf_files files) = true → decodable files.
Proof.
  unfold decodable. induction (conf_files files) as [|conf confs IH]; [done|].
  cbn [forallb]. intros [Hconf Hconfs]%andb_true_iff. constructor; [done|by apply IH].
Qed.

(** C2, amended.  After a write-mode generation that completed, on an
    output directory whose [*.conf] files can be read as text, the validator
    leaves the files as generation left them; it reports failure, and the
    process exits with status 1 instead of 0, exactly when the number of
    lines with the exclusive-listener marker over the [*.conf] files of the
    output directory is not one, or some [*.conf] file of the directory has
    no line with the QUIC listener marker.  Each failing check prints its
    own message, so both are reported when both fail. *)
Theorem validation_fails_iff_marker_count_or_missing_listener
    specific_project projects st :
  let generated := generate_configs false specific_project projects st in
  let run := generate_all false specific_project projects st in
  let files := output_files run.2 in
  generated.1 = Ok () →
  decodable files →
  files = output_files generated.2 ∧
  (∃ passed, (validate_generated_configs generated.2).1 = Ok passed ∧
             (passed = false ↔ exclusivity_fails files ∨ capability_fails files)) ∧
  (run.1 = Ok () ∨ run.1 = Raise (SystemExit 1)) ∧
  (run.1 = Raise (SystemExit 1) ↔ exclusivity_fails files ∨ capability_fails files) ∧
  (exit_status run.1 ≠ 0%Z ↔ exclusivity_fails files ∨ capability_fails files) ∧
  (exclusivity_fails files →
   REUSEPORT_FAILURE (marker_line_count files) ∈ stdout run.2) ∧
  (capability_fails files → HTTP3_FAILURE ∈ stdout run.2).
Proof.
  intros generated run files. subst generated run files.
  destruct (generate_all_run any_entry false specific_project projects
              (is_first_server_block st) (output_dir st)
              (Forall_any_entry projects))
    as (r & eff & _ & Hrun).
  destruct (Hrun st eq_refl eq_refl) as (-> & out & -> & Hout).
  simpl. intros -> _. simpl in Hout. destruct Hout as (_ & Hcount & Hquic).
  set (files := write_all (writes eff) (output_files st)) in *.
  pose proof (validation_passes_spec files) as Hspec.
  split; [done|]. split.
  { destruct (validate_generated_configs_run (apply_effect eff st))
      as (out' & -> & _). by exists (validation_passes files). }
  cbn [final_result fst snd].
  destruct (validation_passes files) eqn:Hpasses; cbn [exit_status].
  - assert (¬ (exclusivity_fails files ∨ capability_fails files)) as Hno.
    { intros Hfail. apply Hspec in Hfail. done. }
    split_and!; [by left|split; [done|tauto]|split; [done|tauto]|tauto|tauto].
  - assert (exclusivity_fails files ∨ capability_fails files) as Hyes by by apply Hspec.
    split_and!; [by right|done|done|..].
    + intros Hex. apply elem_of_app. right.
      rewrite <-reuseport_count_marker_lines. apply Hcount.
      by rewrite reuseport_count_marker_lines.
    + intros Hcap. apply elem_of_app. right.
      by apply Hquic, configs_without_http3_spec.
Qed.

Lemma validation_fails_iff_marker_count_or_missing_listener_witness :
  let run := generate_all false None [("blog", blog)] (init "/srv/conf.d" stale) in
  run.1 = Raise (SystemExit 1) ∧
  exit_status run.1 ≠ 0%Z ∧
  exclusivity_fails (output_files run.2) ∧
  REUSEPORT_FAILURE (marker_line_count (output_files run.2)) ∈ stdout run.2.
Proof.
  intros run.
  assert (exclusivity_fails (output_files run.2)) as Hfails.
  { unfold exclusivity_fails. vm_compute. lia. }
  destruct (validation_fails_iff_marker_count_or_missing_listener
              None [("blog", blog)] (init "/srv/conf.d" stale))
    as (_ & _ & _ & Hresult & Hexit & Hmessage & _).
  - by vm_compute.
  - apply decodable_forallb. by vm_compute.
  - split; [apply Hresult; by left|]. split; [apply Hexit; by left|].
    split; [exact Hfails|]. by apply Hmessage.
Defined.

(** ** Primary domain, certificates and logs (C3) *)

(** C3, as stated, fails: the block of a project named "boutique" whose
    primary domain is "example.com" names its log files after the project
    and the environment; no log line mentions the primary domain. *)
Lemma log_files_not_named_after_primary_domain :
  ∃ text,
    (generate_server_block "boutique" boutique Production
       (init "/srv/conf.d" ∅)).1 = Ok text ∧
    primary_domain (DomainList ["example.com"; "www.example.com"]) = Ok "example.com" ∧
    log_lines text
    = ["    access_log /var/log/nginx/boutique-production.access.log detailed;" +:+ NL;
       "    error_log /var/log/nginx/boutique-production.error.log warn;" +:+ NL] ∧
    Forall (λ line, contains "example.com" line = false) (log_lines text).
Proof.
  eexists. split; [by vm_compute|]. split; [done|].
  split; [by vm_compute|]. vm_compute. by repeat constructor.
Qed.

(** C3, amended.  For an environment whose domain entry is a non-empty list
    the primary domain is the first entry; the block is rendered, its two
    certificate lines use the primary domain, and its access and error log
    lines are named after the project key and the environment. *)
Theorem primary_domain_in_certificates_logs_by_project
    project_name p e st first rest :
  environment_domains p e = Ok (DomainList (first :: rest)) →
  primary_domain (DomainList (first :: rest)) = Ok first ∧
  ∃ text st',
    generate_server_block project_name p e st = (Ok text, st') ∧
    contains (("    ssl_certificate /etc/letsencrypt/live/" +:+ first
               +:+ "/fullchain.pem;") +:+ NL) text = true ∧
    contains (("    ssl_certificate_key /etc/letsencrypt/live/" +:+ first
               +:+ "/privkey.pem;") +:+ NL) text = true ∧
    contains (("    access_log /var/log/nginx/" +:+ project_name +:+ "-"
               +:+ env_str e +:+ ".access.log detailed;") +:+ NL) text = true ∧
    contains (("    error_log /var/log/nginx/" +:+ project_name +:+ "-"
               +:+ env_str e +:+ ".error.log warn;") +:+ NL) text = true.
Proof.
  intros Hds. split; [done|].
  rewrite generate_server_block_run, Hds. simpl.
  eexists _, _. split; [reflexivity|].
  unfold server_block_text.
  destruct (classify_containers e (containers p)) as [backend frontend].
  split_and!; apply contains_app_l; unfold server_block_head;
    apply contains_unlines; set_solver.
Qed.

Lemma primary_domain_in_certificates_logs_by_project_witness :
  primary_domain (DomainList ["example.com"; "www.example.com"]) = Ok "example.com" ∧
  ∃ text st',
    generate_server_block "boutique" boutique Production (init "/srv/conf.d" ∅)
    = (Ok text, st') ∧
    contains (("    ssl_certificate /etc/letsencrypt/live/" +:+ "example.com"
               +:+ "/fullchain.pem;") +:+ NL) text = true ∧
    contains (("    ssl_certificate_key /etc/letsencrypt/live/" +:+ "example.com"
               +:+ "/privkey.pem;") +:+ NL) text = true ∧
    contains (("    access_log /var/log/nginx/" +:+ "boutique" +:+ "-"
               +:+ env_str Production +:+ ".access.log detailed;") +:+ NL) text = true ∧
    contains (("    error_log /var/log/nginx/" +:+ "boutique" +:+ "-"
               +:+ env_str Production +:+ ".error.log warn;") +:+ NL) text = true.
Proof.
  apply (primary_domain_in_certificates_logs_by_project
           "boutique" boutique Production (init "/srv/conf.d" ∅)
           "example.com" ["www.example.com"]).
  reflexivity.
Defined.

(** ** Output file names (C4) *)

Lemma replace_absent old new s :
  contains old s = false → replace old new s = s.
Proof.
  unfold replace. induction s as [|c s IH]; [done|].
  rewrite contains_cons. intros [Hhead Htail]%orb_false_iff.
  cbn [replace_from]. rewrite Hhead. by rewrite IH.
Qed.

Lemma replace_leading_www rest :
  contains "www." rest = false → replace "www." "" ("www." +:+ rest) = rest.
Proof.
  intros Hrest. unfold replace.
  change ("www." +:+ rest)
    with (String "w" (String "w" (String "w" (String "." rest)))).
  cbn [replace_from].
  rewrite !startswith_cons, startswith_nil.
  rewrite !bool_decide_eq_true_2 by done. cbn [andb String.length Nat.sub].
  rewrite str_app_nil_l. by apply replace_absent.
Qed.

(** Generating a project's text writes no file. *)
Lemma generate_project_config_files project_name p st :
  output_files (generate_project_config project_name p st).2 = output_files st.
Proof.
  destruct (acts_generate_project_config any_entry (well_behaved any_entry true)
              project_name p I (is_first_server_block st) (output_dir st))
    as (r & eff & (_ & _ & _ & Hwrites) & Hrun).
  rewrite (Hrun st) by done. simpl. by rewrite Hwrites.
Qed.

(** Whether "www." starts a text depends on its first four characters. *)
Lemma startswith_www c a rest :
  startswith "www." (String c (a +:+ "www" +:+ rest))
  = startswith "www." (String c (a +:+ "www")).
Proof.
  change ("www" +:+ rest) with (String "w" (String "w" (String "w" rest))).
  destruct a as [|c1 [|c2 [|c3 a]]];
    rewrite ?str_app_cons, ?str_app_nil_l, !startswith_cons, ?startswith_nil;
    by repeat (destruct (bool_decide _); cbn [andb]).
Qed.

(** The first occurrence of "www." goes, and the rest is treated in turn. *)
Lemma replace_first_www before after :
  contains "www." (before +:+ "www") = false →
  replace "www." "" (before +:+ "www." +:+ after)
  = before +:+ replace "www." "" after.
Proof.
  unfold replace. induction before as [|c before IH].
  - intros _. rewrite !str_app_nil_l.
    change ("www." +:+ after)
      with (String "w" (String "w" (String "w" (String "." after)))).
    cbn [replace_from].
    rewrite !startswith_cons, startswith_nil.
    rewrite !bool_decide_eq_true_2 by done. cbn [andb String.length Nat.sub].
    by rewrite str_app_nil_l.
  - rewrite !(str_app_cons c before), contains_cons.
    intros [Hhead Htail]%orb_false_iff. cbn [replace_from].
    pose proof (startswith_www c before ("." +:+ after)) as Hsame.
    change ("www" +:+ "." +:+ after) with ("www." +:+ after) in Hsame.
    rewrite Hsame, Hhead. by rewrite IH.
Qed.

(** C4, as stated, fails: "www." is removed wherever it occurs, not only
    as a leading prefix. *)
Lemma www_removed_inside_the_domain :
  primary_domain (DomainList ["mywww.example.com"]) = Ok "mywww.example.com" ∧
  output_file_name "portal" portal = Ok "myexample.com.conf" ∧
  removeprefix "www." "mywww.example.com" +:+ ".conf" = "mywww.example.com.conf" ∧
  removeprefix "www." "www.example.com" +:+ ".conf" = "example.com.conf".
Proof. by vm_compute. Qed.

(** C4, amended.  The output file of a project is named after the
    production primary domain with the occurrences of "www." removed, taken
    from left to right: a domain without "www." keeps its name, a leading
    "www." before a remainder without "www." is stripped, and an occurrence
    inside the domain is removed as well, the text after it being treated in
    the same way.  Without a production entry the file is named after the
    project key.  In write mode the text of the project is written under
    that name, which is an entry of the output directory when the name is a
    single path component. *)
Theorem output_file_named_after_domain_without_www project_name p :
  (production (domains p) = None →
   output_file_name project_name p = Ok (project_name +:+ ".conf")) ∧
  (∀ ds primary,
     production (domains p) = Some ds → primary_domain ds = Ok primary →
     output_file_name project_name p
     = Ok (replace "www." "" primary +:+ ".conf") ∧
     (contains "www." primary = false → replace "www." "" primary = primary) ∧
     (∀ rest, primary = "www." +:+ rest → contains "www." rest = false →
              replace "www." "" primary = rest) ∧
     (∀ before after,
        primary = before +:+ "www." +:+ after →
        contains "www." (before +:+ "www") = false →
        replace "www." "" primary = before +:+ replace "www." "" after)) ∧
  (∀ st st' file_name,
     output_file_name project_name p = Ok file_name →
     path_component file_name = true →
     generate_one false (project_name, p) st = (Ok (), st') →
     ∃ config, output_files st' = <[file_name := config]> (output_files st)).
Proof.
  split_and!.
  - unfold output_file_name. by intros ->.
  - intros ds primary Hprod Hprimary. unfold output_file_name.
    rewrite Hprod, Hprimary. split_and!; [done|apply replace_absent| |].
    + intros rest -> Hrest. by apply replace_leading_www.
    + intros before after -> Hbefore. by apply replace_first_www.
  - intros st st' file_name Hname _. unfold generate_one.
    rewrite print_bind, bind_run.
    pose proof (generate_project_config_files project_name p
                  (say ["Generating config for: " +:+ project_name] st)) as Hfiles.
    destruct (generate_project_config _ _ _) as [[config|x] st1]; [|done].
    rewrite bind_run. unfold lift. rewrite Hname.
    rewrite bind_run. unfold get_output_dir. rewrite bind_run. unfold write_file.
    rewrite print_run. intros [= <-]. exists config.
    simpl in *. by rewrite Hfiles.
Qed.

Lemma output_file_named_after_domain_without_www_witness :
  output_file_name "shop" shop = Ok "example.com.conf" ∧
  output_file_name "portal" portal
  = Ok (replace "www." "" "mywww.example.com" +:+ ".conf") ∧
  replace "www." "" "mywww.example.com" = "my" +:+ replace "www." "" "example.com" ∧
  replace "www." "" "example.com" = "example.com".
Proof.
  destruct (output_file_named_after_domain_without_www "shop" shop)
    as (_ & Hshop & _).
  destruct (Hshop (DomainList ["www.example.com"; "example.com"]) "www.example.com"
              eq_refl eq_refl) as (Hname & _ & Hstrip & _).
  destruct (output_file_named_after_domain_without_www "portal" portal)
    as (_ & Hportal & _).
  destruct (Hportal (DomainList ["mywww.example.com"]) "mywww.example.com"
              eq_refl eq_refl) as (Hname' & Hkeep & _ & Hinside).
  split.
  { rewrite Hname. by rewrite (Hstrip "example.com") by reflexivity. }
  split; [exact Hname'|]. split.
  - apply (Hinside "my" "example.com"); reflexivity.
  - reflexivity.
Defined.

(** ** Rate-limit bursts (C5) *)

(** C5, as stated, fails: with a backend container but no API location the
    block has no API section, a burst of 100 is configured, and the frontend
    section still uses 50. *)
Lemma frontend_burst_forced_without_api_section :
  ∃ text,
    (generate_server_block "kiosk" kiosk Production (init "/srv/conf.d" ∅)).1
    = Ok text ∧
    burst (rate_limit_of kiosk) = Some (SInt 100) ∧
    contains "BACKEND ROUTES" text = false ∧
    contains "limit_req zone=api" text = false ∧
    contains "limit_req zone=general burst=50 nodelay;" text = true ∧
    contains "burst=100" text = false.
Proof. eexists. split; [by vm_compute|]. by vm_compute. Qed.

(** C5, amended.  In a rendered block, the API section (present when a
    backend container is recognised and there are API locations) has the
    configured burst, 20 by default; the frontend section (present when a
    frontend container is recognised) has burst 50 whenever a backend
    container is recognised, whether or not the API section is present, and
    otherwise the configured burst, 50 by default. *)
Theorem burst_defaults_and_forced_frontend_burst
    project_name p e st text backend frontend :
  (generate_server_block project_name p e st).1 = Ok text →
  classify_containers e (containers p) = (backend, frontend) →
  (is_Some backend → default [] (api_locations (nginx_of p)) ≠ [] →
   contains (("        limit_req zone=api burst="
              +:+ str (default (SInt 20) (burst (rate_limit_of p)))
              +:+ " nodelay;") +:+ NL) text = true) ∧
  (is_Some frontend →
   contains (("        limit_req zone=" +:+ default "general" (zone (rate_limit_of p))
              +:+ " burst="
              +:+ str (if backend is Some _ then SInt 50
                       else default (SInt 50) (burst (rate_limit_of p)))
              +:+ " nodelay;") +:+ NL) text = true).
Proof.
  rewrite generate_server_block_run. intros Hrun Hclassify.
  destruct (environment_domains p e) as [ds|]; [|done].
  destruct (primary_domain ds) as [primary|]; [|done].
  simpl in Hrun. injection Hrun as <-.
  unfold server_block_text. rewrite Hclassify. split.
  - intros [b ->] Hlocations.
    apply contains_app_r, contains_app_l.
    unfold backend_section. fold (nginx_of p).
    destruct (default [] (api_locations (nginx_of p))) as [|location more]; [done|].
    unfold backend_routes, api_burst. fold (rate_limit_of p).
    apply contains_unlines. set_solver.
  - intros [f ->].
    apply contains_app_r, contains_app_r, contains_app_l.
    unfold frontend_section, frontend_routes, frontend_burst.
    fold (nginx_of p). fold (rate_limit_of p).
    apply contains_unlines. destruct backend; set_solver.
Qed.

Lemma burst_defaults_and_forced_frontend_burst_witness :
  let text :=
    server_block_text "shop" shop Production QUIC_REUSEPORT
      (DomainList ["www.example.com"; "example.com"]) "www.example.com" in
  contains (("        limit_req zone=api burst=" +:+ "100" +:+ " nodelay;") +:+ NL)
    text = true ∧
  contains (("        limit_req zone=" +:+ "general" +:+ " burst=" +:+ "50"
             +:+ " nodelay;") +:+ NL) text = true.
Proof.
  intros text.
  destruct (burst_defaults_and_forced_frontend_burst
              "shop" shop Production (init "/srv/conf.d" ∅) text
              (Some {| endpoint_name := "shop-api"; endpoint_port := SInt 3000 |})
              (Some {| endpoint_name := "shop-web"; endpoint_port := SInt 80 |})
              eq_refl eq_refl) as [Hapi Hfrontend].
  split.
  - apply Hapi; [by eexists|done].
  - apply Hfrontend. by eexists.
Defined.

(** ** Running generation again (C6) *)

(** A sequence of writes overlays the directory with the files it leaves. *)
Lemma write_all_union ws files : write_all ws files = write_all ws ∅ ∪ files.
Proof.
  revert files. induction ws as [|[file_name content] ws IH]; intros files.
  { simpl. by rewrite (left_id_L ∅ (∪)). }
  unfold write_all in *. cbn [foldl fst snd].
  rewrite IH, (IH (<[file_name:=content]> ∅)).
  rewrite <-(assoc_L (∪)). f_equal.
  by rewrite insert_union_singleton_l, insert_union_singleton_l, (right_id_L ∅ (∪)).
Qed.

Lemma write_all_idempotent ws files :
  write_all ws (write_all ws files) = write_all ws files.
Proof.
  rewrite (write_all_union ws (write_all ws files)), (write_all_union ws files).
  by rewrite (assoc_L (∪)), (idemp_L (∪)).
Qed.

(** C6.  A run from a fresh generator, followed by a second run from a
    fresh generator over the same registry, in the same mode and with the
    same selection, on the directory the first run left: the second run
    leaves every file of the directory with the text it had, and ends with
    the same result.  The files a run writes, and their texts, do not
    depend on the directory it starts from. *)
Theorem second_run_leaves_the_files_unchanged
    dry_run specific_project projects dir files :
  let first := generate_all dry_run specific_project projects (init dir files) in
  let second :=
    generate_all dry_run specific_project projects
      (init dir (output_files first.2)) in
  output_files second.2 = output_files first.2 ∧
  second.1 = first.1 ∧
  ∃ ws, ∀ files',
    output_files (generate_all dry_run specific_project projects
                    (init dir files')).2
    = write_all ws files'.
Proof.
  intros first second. subst first second.
  destruct (generate_all_run any_entry dry_run specific_project projects
              true dir (Forall_any_entry projects))
    as (r & eff & _ & Hrun).
  assert (∀ files',
    output_files (generate_all dry_run specific_project projects
                    (init dir files')).2
    = write_all (writes eff) files') as Hwrites.
  { intros files'.
    by destruct (Hrun (init dir files') eq_refl eq_refl) as (_ & out & -> & _). }
  apply and_assoc. split; [|by exists (writes eff)].
  destruct (Hrun (init dir files) eq_refl eq_refl) as (_ & out1 & -> & _).
  cbn [fst snd say apply_effect output_files init].
  destruct (Hrun (init dir (write_all (writes eff) files)) eq_refl eq_refl)
    as (_ & out2 & -> & _).
  cbn [fst snd say apply_effect output_files init].
  by rewrite write_all_idempotent.
Qed.

(** ** Dry-run mode (C7) *)

Lemma split_absent sep s : contains sep s = false → split sep s = [s].
Proof.
  unfold split. intros Hs.
  assert (split_from sep 0 s = (s, [])) as ->; [|done].
  induction s as [|c s IH]; [done|].
  rewrite contains_cons in Hs. apply orb_false_iff in Hs as [Hhead Htail].
  cbn [split_from]. by rewrite Hhead, IH.
Qed.

(** A text without that pair of characters is previewed whole, as one
    printed entry. *)
Lemma preview_prints_whole_config output_file config st :
  contains PREVIEW_SEPARATOR config = false →
  preview output_file config st
  = (Ok (),
     say ["  Would write to: " +:+ output_file;
          "  Config preview (first 10 lines):";
          "    " +:+ config;
          "  ..."] st).
Proof.
  intros Hconfig. unfold preview.
  fold PREVIEW_SEPARATOR. rewrite (split_absent _ _ Hconfig).
  by run_prints.
Qed.

(** C7.  A dry run writes nothing: the files of the output directory are
    those it found.  Its preview, however, is not the first ten lines of
    the text: for the project "blog" of the sample registry the text has
    more than ten lines and the preview is a single entry holding all of
    it, because the text is split at backslash-n, not at line ends. *)
Theorem dry_run_writes_nothing_but_previews_everything :
  (∀ specific_project projects st,
     output_files (generate_all true specific_project projects st).2
     = output_files st) ∧
  let run := generate_all true (Some "blog") sample_registry
               (init "/srv/conf.d" ∅) in
  ∃ config,
    (generate_project_config "blog" blog (init "/srv/conf.d" ∅)).1 = Ok config ∧
    10 < length (split NL config) ∧
    preview_entries (stdout run.2) = ["    " +:+ config] ∧
    preview_entries (stdout run.2)
    ≠ (λ line, "    " +:+ line) <$> take 10 (split NL config).
Proof.
  split.
  - intros specific_project projects st.
    destruct (generate_all_run any_entry true specific_project projects
              (is_first_server_block st) (output_dir st)
                (Forall_any_entry projects))
      as (r & eff & (_ & _ & _ & Hwrites) & Hrun).
    destruct (Hrun st eq_refl eq_refl) as (_ & out & -> & _).
    simpl. by rewrite Hwrites.
  - eexists. split; [by vm_compute|]. split_and!.
    + vm_compute. lia.
    + by vm_compute.
    + vm_compute. discriminate.
Qed.

(** ** When the validator runs (C8) *)

(** C8, as stated, fails: a write-mode generation restricted to the single
    project "blog" is followed by the validator, whose heading is
    printed. *)
Lemma validator_runs_after_single_project_generation :
  let run := generate_all false (Some "blog") sample_registry
               (init "/srv/conf.d" ∅) in
  requested (Some "blog") = Some "blog" ∧
  VALIDATOR_BANNER ∈ stdout run.2.
Proof.
  intros run. split; [done|]. apply (bool_decide_unpack _). by vm_compute.
Qed.

(** C8, amended.  In a run of a fresh process the validator runs (its
    heading is printed) exactly when the run is not a dry run and its
    generation phase completed, whether all projects or a single named one
    were generated; in dry-run mode it never runs. *)
Theorem validator_runs_iff_write_mode_generation_completed
    dry_run specific_project projects dir files :
  let generated := generate_configs dry_run specific_project projects
                     (init dir files) in
  let run := generate_all dry_run specific_project projects (init dir files) in
  VALIDATOR_BANNER ∈ stdout run.2 ↔ dry_run = false ∧ generated.1 = Ok ().
Proof.
  intros generated run. subst generated run.
  destruct (generate_all_run any_entry dry_run specific_project projects
              true dir (Forall_any_entry projects))
    as (r & eff & (_ & _ & Hquiet & _) & Hrun).
  destruct (Hrun (init dir files) eq_refl eq_refl) as (-> & out & -> & Hout).
  cbn [fst snd say apply_effect stdout init]. rewrite app_nil_l, elem_of_app.
  destruct r as [[]|x], dry_run; simpl in Hout.
  - subst out. split; [|by intros [[=] _]]. intros [?|?%elem_of_nil]; done.
  - destruct Hout as [Hbanner _]. split; [done|]. by right.
  - subst out. split; [|by intros [[=] _]]. intros [?|?%elem_of_nil]; done.
  - subst out. split; [|by intros [_ [=]]]. intros [?|?%elem_of_nil]; done.
Qed.

(** ** Container classification (C9) *)

Lemma classify_step_backend e acc key config :
  is_backend_key key = true →
  classify_step e acc (key, config) = (Some (to_endpoint e config), acc.2).
Proof. unfold classify_step, is_backend_key. by intros ->. Qed.

Lemma classify_step_frontend e acc key config :
  is_frontend_key key = true →
  classify_step e acc (key, config) = (acc.1, Some (to_endpoint e config)).
Proof.
  unfold classify_step, is_frontend_key, is_backend_key.
  intros [Hb Hf]%andb_true_iff. apply negb_true_iff in Hb. by rewrite Hb, Hf.
Qed.

Lemma classify_step_other e acc key config :
  is_backend_key key = false → is_frontend_key key = false →
  classify_step e acc (key, config) = acc.
Proof.
  unfold classify_step, is_frontend_key, is_backend_key.
  intros ->. simpl. by intros ->.
Qed.

(** The loop keeps the last backend and the last frontend it meets. *)
Lemma classify_containers_last e cs :
  classify_containers e cs
  = (to_endpoint e ∘ snd <$> last (filter (λ kv, is_backend_key kv.1 = true) cs),
     to_endpoint e ∘ snd <$> last (filter (λ kv, is_frontend_key kv.1 = true) cs)).
Proof.
  unfold classify_containers.
  induction cs as [|[key config] cs IH] using rev_ind; [done|].
  rewrite foldl_app, !filter_app, IH. cbn [foldl].
  destruct (is_backend_key key) eqn:Hb.
  - rewrite classify_step_backend by done.
    assert (is_frontend_key key = false) as Hf.
    { unfold is_frontend_key. by rewrite Hb. }
    rewrite (filter_cons_True _ (key, config)) by done.
    rewrite (filter_cons_False _ (key, config)) by (simpl; congruence).
    by rewrite !filter_nil, app_nil_r, last_snoc.
  - rewrite (filter_cons_False _ (key, config)) by (simpl; congruence).
    destruct (is_frontend_key key) eqn:Hf.
    + rewrite classify_step_frontend by done.
      rewrite (filter_cons_True _ (key, config)) by done.
      by rewrite !filter_nil, app_nil_r, last_snoc.
    + rewrite classify_step_other by done.
      rewrite (filter_cons_False _ (key, config)) by (simpl; congruence).
      by rewrite !filter_nil, !app_nil_r.
Qed.

Lemma distinct_keys_functional {A B} (l : list (A * B)) k v1 v2 :
  NoDup l.*1 → (k, v1) ∈ l → (k, v2) ∈ l → v1 = v2.
Proof.
  induction l as [|[k' v'] l IH]; intros Hnodup H1 H2.
  { by apply elem_of_nil in H1. }
  simpl in Hnodup. apply NoDup_cons in Hnodup as [Hfresh Hnodup].
  apply elem_of_cons in H1 as [H1|H1], H2 as [H2|H2].
  - congruence.
  - injection H1 as -> ->. destruct Hfresh.
    by apply (list_elem_of_fmap_2 fst _ (k', v2)).
  - injection H2 as -> ->. destruct Hfresh.
    by apply (list_elem_of_fmap_2 fst _ (k', v1)).
  - by apply IH.
Qed.

(** In a mapping, when one entry alone satisfies [P], it is the last one
    that does. *)
Lemma last_filter_unique {A} (P : A → Prop) `{!∀ x, Decision (P x)}
    (l : list A) (x : A) :
  x ∈ l → P x → (∀ y, y ∈ l → P y → y = x) → last (filter P l) = Some x.
Proof.
  intros Hx HP Honly.
  assert (x ∈ filter P l) as Hin by by apply list_elem_of_filter.
  destruct (last (filter P l)) as [z|] eqn:Hlast.
  - f_equal. apply last_Some in Hlast as [zs Hzs].
    assert (z ∈ filter P l) as Hz by (rewrite Hzs; set_solver).
    apply list_elem_of_filter in Hz as [HPz Hzl]. by apply Honly.
  - apply last_None in Hlast. rewrite Hlast in Hin. by apply elem_of_nil in Hin.
Qed.

(** C9, as stated, fails: a mapping with the keys "api-backend",
    "web-frontend" and "db-backend" has "db-backend" as its backend in one
    iteration order and "api-backend" in another. *)
Lemma backend_depends_on_order_with_third_key :
  depot_containers ≡ₚ depot_containers_reordered ∧
  (classify_containers Production depot_containers).1
  = Some {| endpoint_name := "depot-db"; endpoint_port := SInt 5432 |} ∧
  (classify_containers Production depot_containers_reordered).1
  = Some {| endpoint_name := "depot-api"; endpoint_port := SInt 3000 |}.
Proof.
  split; [|by vm_compute].
  unfold depot_containers, depot_containers_reordered.
  symmetry. apply (Permutation_cons_append [_; _]).
Qed.

(** C9, amended.  For a container mapping (its keys are pairwise distinct)
    whose keys are ASCII strings and that has the keys "api-backend" and
    "web-frontend" and no other key containing "backend", "frontend" or
    "web" in any letter case, the classification yields the container of
    "api-backend" as backend and that of "web-frontend" as frontend, in
    every iteration order. *)
Theorem classification_of_api_backend_and_web_frontend
    e (cs order : list (string * container_config)) api web :
  NoDup cs.*1 →
  Forall (λ key, is_ascii key = true) cs.*1 →
  ("api-backend", api) ∈ cs →
  ("web-frontend", web) ∈ cs →
  (∀ key config, (key, config) ∈ cs →
     key ≠ "api-backend" → key ≠ "web-frontend" →
     contains "backend" (lower key) = false ∧
     contains "frontend" (lower key) = false ∧
     contains "web" (lower key) = false) →
  order ≡ₚ cs →
  classify_containers e order = (Some (to_endpoint e api), Some (to_endpoint e web)).
Proof.
  intros Hnodup _ Hapi Hweb Hothers Horder.
  assert (∀ key c1 c2, (key, c1) ∈ cs → (key, c2) ∈ cs → c1 = c2) as Hfun.
  { intros key c1 c2 H1 H2.
    by apply (distinct_keys_functional cs key). }
  rewrite classify_containers_last.
  rewrite (last_filter_unique _ order ("api-backend", api)).
  - rewrite (last_filter_unique _ order ("web-frontend", web)); [done|..].
    + by rewrite Horder.
    + by vm_compute.
    + intros [key config]. rewrite Horder. simpl. intros Hin Hf.
      destruct (decide (key = "web-frontend")) as [->|Hw].
      { f_equal. by eapply Hfun. }
      destruct (decide (key = "api-backend")) as [->|Ha]; [by vm_compute in Hf|].
      destruct (Hothers key config Hin Ha Hw) as (Hb & Hfr & Hwb).
      unfold is_frontend_key in Hf. by rewrite Hfr, Hwb, andb_false_r in Hf.
  - by rewrite Horder.
  - by vm_compute.
  - intros [key config]. rewrite Horder. simpl. intros Hin Hb.
    destruct (decide (key = "api-backend")) as [->|Ha].
    { f_equal. by eapply Hfun. }
    destruct (decide (key = "web-frontend")) as [->|Hw]; [by vm_compute in Hb|].
    destruct (Hothers key config Hin Ha Hw) as (Hb' & _).
    unfold is_backend_key in Hb. congruence.
Qed.

Lemma classification_of_api_backend_and_web_frontend_witness :
  classify_containers Staging
    [("web-frontend", {| container_name := "stack-web"; container_port := SInt 80 |});
     ("api-backend", {| container_name := "stack-api"; container_port := SInt 3000 |});
     ("Redis-Cache", {| container_name := "stack-redis"; container_port := SInt 6379 |})]
  = (Some {| endpoint_name := "stack-api-staging"; endpoint_port := SInt 3000 |},
     Some {| endpoint_name := "stack-web-staging"; endpoint_port := SInt 80 |}).
Proof.
  refine (classification_of_api_backend_and_web_frontend Staging
            stack_containers _
            {| container_name := "stack-api"; container_port := SInt 3000 |}
            {| container_name := "stack-web"; container_port := SInt 80 |}
            _ _ _ _ _ _).
  - apply (bool_decide_unpack _). by vm_compute.
  - repeat (apply Forall_cons_2 || apply Forall_nil_2); reflexivity.
  - by left.
  - by right; right; left.
  - intros key config Hin Hapi Hweb.
    apply elem_of_cons in Hin as [[= -> _]|Hin]; [done|].
    apply elem_of_cons in Hin as [[= -> _]|Hin]; [by vm_compute|].
    apply elem_of_cons in Hin as [[= -> _]|Hin]; [done|].
    by apply elem_of_nil in Hin.
  - unfold stack_containers.
    etransitivity; [apply Permutation_swap|]. apply perm_skip, Permutation_swap.
Defined.

(** ** Empty domain lists (C10) *)

Global Instance domain_spec_eq_dec : EqDecision domain_spec.
Proof. solve_decision. Defined.

Lemma primary_domain_fails d :
  primary_domain d = Raise IndexError ↔ d = DomainList [].
Proof. destruct d as [[|x l]|s]; simpl; split; congruence. Qed.

Lemma primary_domain_total d :
  d ≠ DomainList [] → ∃ primary, primary_domain d = Ok primary.
Proof. destruct d as [[|x l]|s]; simpl; [done|eauto..]. Qed.

(** Assembling a project either succeeds or stops on the index error of an
    empty list. *)
Lemma generate_project_config_result project_name p st :
  (has_empty_domain_list p →
   (generate_project_config project_name p st).1 = Raise IndexError) ∧
  (¬ has_empty_domain_list p →
   ∃ config, (generate_project_config project_name p st).1 = Ok config).
Proof.
  unfold generate_project_config, has_empty_domain_list.
  rewrite bind_run.
  destruct (production (domains p)) as [prod|] eqn:Hprod.
  - rewrite lift_bind.
    destruct (decide (prod = DomainList [])) as [->|Hne].
    { simpl. split; [done|]. intros []. by left. }
    destruct (primary_domain_total prod Hne) as [primary Hprimary].
    rewrite Hprimary, bind_run, generate_server_block_run.
    unfold environment_domains. rewrite Hprod, Hprimary. cbn zeta.
    rewrite ret_run. cbv beta iota.
    destruct (staging (domains p)) as [s|] eqn:Hstaging.
    + rewrite lift_bind.
      destruct (decide (staging_domains s = DomainList [])) as [Hs|Hs].
      { rewrite Hs. simpl. split; [done|]. intros []. right. eauto. }
      destruct (primary_domain_total _ Hs) as [primary' Hprimary'].
      rewrite Hprimary', bind_run, generate_server_block_run.
      unfold environment_domains. rewrite Hstaging, Hprimary'. cbn zeta.
      rewrite ret_run. cbv beta iota.
      split; [|by eauto].
      intros [[=]|(s' & [= <-] & ?)]; congruence.
    + split; [|by eauto]. intros [[=]|(s' & [=] & ?)]; congruence.
  - rewrite ret_run. cbv beta iota.
    destruct (staging (domains p)) as [s|] eqn:Hstaging.
    + rewrite lift_bind.
      destruct (decide (staging_domains s = DomainList [])) as [Hs|Hs].
      { rewrite Hs. simpl. split; [done|]. intros []. right. eauto. }
      destruct (primary_domain_total _ Hs) as [primary' Hprimary'].
      rewrite Hprimary', bind_run, generate_server_block_run.
      unfold environment_domains. rewrite Hstaging, Hprimary'. cbn zeta.
      rewrite ret_run. cbv beta iota.
      split; [|by eauto].
      intros [[=]|(s' & [= <-] & ?)]; congruence.
    + split; [|by eauto]. intros [[=]|(s' & [=] & ?)].
Qed.

Lemma output_file_name_total project_name p :
  ¬ has_empty_domain_list p →
  ∃ file_name, output_file_name project_name p = Ok file_name.
Proof.
  intros Hp. unfold output_file_name.
  destruct (production (domains p)) as [prod|] eqn:Hprod; [|by eauto].
  destruct (primary_domain_total prod) as [primary ->]; [|by eauto].
  intros ->. apply Hp. by left.
Qed.

Lemma preview_run output_file config st :
  ∃ out, preview output_file config st = (Ok (), say out st).
Proof. unfold preview. run_prints. by eexists. Qed.

(** One turn of the loop: an empty list stops it before anything is
    written; otherwise it completes. *)
Lemma generate_one_result dry_run project_name p st :
  (has_empty_domain_list p →
   ∃ st', generate_one dry_run (project_name, p) st = (Raise IndexError, st') ∧
          output_files st' = output_files st) ∧
  (¬ has_empty_domain_list p →
   (generate_one dry_run (project_name, p) st).1 = Ok ()).
Proof.
  unfold generate_one. rewrite print_bind, bind_run.
  set (st0 := say _ st).
  pose proof (generate_project_config_files project_name p st0) as Hfiles.
  destruct (generate_project_config_result project_name p st0) as [Hbad Hgood].
  destruct (generate_project_config project_name p st0) as [r st1].
  simpl in *. split.
  - intros Hp. rewrite (Hbad Hp). by exists st1.
  - intros Hp. destruct (Hgood Hp) as [config ->].
    destruct (output_file_name_total project_name p Hp) as [file_name ->].
    rewrite lift_bind. unfold get_output_dir. rewrite bind_run.
    destruct dry_run.
    + by destruct (preview_run (output_dir st1 +:+ "/" +:+ file_name) config st1)
        as [out ->].
    + done.
Qed.

Lemma for_each_completes {A} (body : A → M ()) (l : list A) :
  Forall (λ x, ∀ st, (body x st).1 = Ok ()) l →
  ∀ st, (for_each body l st).1 = Ok ().
Proof.
  induction 1 as [|x l Hx _ IH]; intros st; [done|].
  simpl. rewrite bind_run. specialize (Hx st).
  destruct (body x st) as [[[]|e] st']; [apply IH|done].
Qed.

Lemma for_each_stops {A} (body : A → M ()) (l : list A) (x : A) (e : exn) :
  x ∈ l →
  (∀ st, (body x st).1 = Raise e) →
  (∀ y st, y ∈ l → (body y st).1 = Ok () ∨ (body y st).1 = Raise e) →
  ∀ st, (for_each body l st).1 = Raise e.
Proof.
  intros Hx Hraise. induction l as [|y l IH]; intros Hbody st.
  { by apply elem_of_nil in Hx. }
  simpl. rewrite bind_run.
  destruct (Hbody y st) as [Hy|Hy]; [by left|..];
    destruct (body y st) as [[[]|e'] st'] eqn:Hrun; simpl in Hy; try done.
  apply elem_of_cons in Hx as [->|Hx].
  - specialize (Hraise st). by rewrite Hrun in Hraise.
  - apply IH; [done|]. intros z st'' Hz. apply Hbody. by right.
Qed.

(** The generation phase, by the loop over the selected projects. *)
Lemma generate_configs_selected dry_run specific_project projects selected st :
  selection specific_project projects = Some selected →
  ∃ st0,
    generate_configs dry_run specific_project projects st
    = match for_each (generate_one dry_run) selected st0 with
      | (Ok _, st1) =>
          (Ok (),
           say [""; mul "=" 80;
                GREEN +:+ CHECK_MARK +:+ " Configuration generation complete" +:+ NC;
                mul "=" 80] st1)
      | (Raise x, st1) => (Raise x, st1)
      end.
Proof.
  unfold selection. intros Hselected.
  assert (∀ st',
    (mret selected ≫= λ chosen : registry,
       print (mul "=" 80);;
       print (BLUE +:+ WRENCH +:+ " NGINX CONFIGURATION GENERATOR" +:+ NC);;
       print (mul "=" 80);;
       print ("Projects to generate: " +:+ pretty (length chosen));;
       (if dry_run
        then print (YELLOW +:+ "DRY RUN MODE - No files will be written" +:+ NC)
        else mret ());;
       print "";;
       for_each (generate_one dry_run) chosen;;
       print "";;
       print (mul "=" 80);;
       print (GREEN +:+ CHECK_MARK +:+ " Configuration generation complete" +:+ NC);;
       print (mul "=" 80)) st'
    = generate_configs dry_run specific_project projects st') as Heq.
  { intros st'. unfold generate_configs, select_projects.
    destruct (requested specific_project) as [s|].
    - destruct (lookup_project s projects) as [p|]; [|done].
      by injection Hselected as <-.
    - by injection Hselected as <-. }
  rewrite <-Heq. rewrite ret_bind, !print_bind.
  destruct dry_run; rewrite ?print_bind, ?ret_bind, ?print_bind;
    match goal with
    | |- context [(for_each ?body selected ≫= _) ?st0] =>
        exists st0; rewrite bind_run;
        destruct (for_each body selected st0) as [[[]|x] st1]; [|done];
        by run_prints
    end.
Qed.

(** ** Texts free of the word "reuseport" *)

Lemma clean_tail c s : clean (String c s) → clean s.
Proof. unfold clean. rewrite contains_cons. by intros [_ ?]%orb_false_iff. Qed.

Lemma clean_app_starts s t :
  clean s → starts_foreign t = true → clean t → clean (s +:+ t).
Proof.
  destruct t as [|c t]; [done|]. simpl. unfold foreign, clean.
  intros Hs Hc%negb_true_iff Ht.
  rewrite contains_app_foreign by done. rewrite Hs. simpl.
  by apply (clean_tail c).
Qed.

Lemma ends_foreign_split s :
  ends_foreign s = true → ∃ s' c, s = s' +:+ String c "" ∧ foreign c = true.
Proof.
  induction s as [|c s IH]; [done|]. simpl. destruct s as [|d s].
  - intros Hc. by exists "", c.
  - intros Hs. destruct (IH Hs) as (s' & c' & -> & Hc').
    by exists (String c s'), c'.
Qed.

Lemma clean_app_ends s t :
  clean s → ends_foreign s = true → clean t → clean (s +:+ t).
Proof.
  intros Hs Hends Ht. destruct (ends_foreign_split s Hends) as (s' & c & -> & Hc).
  unfold foreign in Hc. apply negb_true_iff in Hc. unfold clean in *.
  rewrite str_app_assoc. change (String c "" +:+ t) with (String c t).
  rewrite contains_app_foreign in Hs |- * by done.
  apply orb_false_iff in Hs as [-> _]. by rewrite Ht.
Qed.

Lemma clean_foreign_char c : foreign c = true → clean (String c "").
Proof.
  unfold foreign, clean. intros Hc%negb_true_iff.
  rewrite <-(str_app_nil_l (String c "")), contains_app_foreign by done.
  done.
Qed.

Lemma clean_unlines_app lines rest :
  Forall clean lines → clean rest → clean (unlines lines +:+ rest).
Proof.
  intros Hlines Hrest. induction Hlines as [|line lines Hline _ IH]; [done|].
  cbn [unlines]. rewrite !str_app_assoc.
  apply clean_app_starts; [done|reflexivity|].
  by apply clean_app_ends; [vm_compute|reflexivity|].
Qed.

Lemma clean_join c l :
  foreign c = true → Forall clean l → clean (join (String c "") l).
Proof.
  intros Hc. induction 1 as [|x l Hx Hl IH]; [done|].
  cbn [join]. destruct l as [|y l]; [done|].
  apply clean_app_starts; [done|done|].
  by apply clean_app_ends; [apply clean_foreign_char|..].
Qed.

(** Closed texts are checked by evaluation; around a text supplied by the
    registry, the template puts characters foreign to the word. *)
Ltac clean_text :=
  repeat first
    [ solve [vm_compute; reflexivity]
    | assumption
    | apply clean_app_ends; [solve [vm_compute; reflexivity]|reflexivity|]
    | apply clean_app_starts; [assumption|reflexivity|] ].

Lemma clean_to_endpoint e config :
  clean (container_name config) → clean (str (container_port config)) →
  clean (endpoint_name (to_endpoint e config)) ∧
  clean (str (endpoint_port (to_endpoint e config))).
Proof.
  intros Hname Hport. split; [|done]. destruct e; simpl; clean_text.
Qed.

Lemma clean_classify_containers e cs :
  Forall (λ entry, clean (container_name entry.2) ∧
                   clean (str (container_port entry.2))) cs →
  clean_endpoint (classify_containers e cs).1 ∧
  clean_endpoint (classify_containers e cs).2.
Proof.
  intros Hcs. rewrite classify_containers_last. cbn [fst snd].
  split; intros ep Hep;
    apply fmap_Some in Hep as ([key config] & Hlast & ->);
    apply last_Some_elem_of, list_elem_of_filter in Hlast as [_ Hin];
    rewrite Forall_forall in Hcs; destruct (Hcs _ Hin);
    by apply clean_to_endpoint.
Qed.

Lemma clean_default_scalar v d :
  clean_scalar v → clean (str d) → clean (str (default d v)).
Proof. intros Hv Hd. destruct v as [x|]; [by apply Hv|done]. Qed.

Lemma clean_environment_domains p e project_name ds primary :
  hygienic project_name p →
  environment_domains p e = Ok ds → primary_domain ds = Ok primary →
  clean primary ∧ clean (server_names ds).
Proof.
  intros (_ & _ & Hprod & Hstaging & _) Hds Hprimary.
  assert (clean_domains ds) as Hclean.
  { destruct e; simpl in Hds.
    - destruct (production (domains p)) as [d|] eqn:Hd; [|done].
      injection Hds as <-. by apply Hprod.
    - destruct (staging (domains p)) as [s|] eqn:Hs; [|done].
      injection Hds as <-. by apply Hstaging. }
  destruct ds as [[|first rest]|s];
    cbn [primary_domain server_names clean_domains] in *; [done|..].
  - injection Hprimary as <-. split; [by apply Forall_cons in Hclean as []|].
    by apply (clean_join " ").
  - by injection Hprimary as <-.
Qed.

(** The text of a block of a hygienic entry holds the word only if its
    listener does. *)
Lemma clean_server_block_text project_name p e listener ds primary :
  hygienic project_name p →
  environment_domains p e = Ok ds → primary_domain ds = Ok primary →
  clean listener →
  clean (server_block_text project_name p e listener ds primary).
Proof.
  intros Hp Hds Hprimary Hlistener.
  destruct (clean_environment_domains p e project_name ds primary Hp Hds Hprimary)
    as [Hprimary_clean Hnames].
  destruct Hp as (Hkey & Hname & _ & _ & Hcs & Hlocations & Hzone & Hburst
                  & Hconnect & Htimeout).
  destruct (clean_classify_containers e (containers p) Hcs) as [Hbackend Hfrontend].
  unfold server_block_text.
  destruct (classify_containers e (containers p)) as [backend frontend].
  cbn [fst snd] in *.
  fold (nginx_of p). unfold server_block_head.
  apply clean_unlines_app.
  { assert (clean (upper (env_str e))) by (destruct e; vm_compute; reflexivity).
    assert (clean (env_str e +:+ ".access.log detailed;"))
      by (destruct e; vm_compute; reflexivity).
    assert (clean (env_str e +:+ ".error.log warn;"))
      by (destruct e; vm_compute; reflexivity).
    repeat (apply Forall_cons; split; [clean_text|]). constructor. }
  assert (clean ("}" +:+ NL)) as Hclose by (vm_compute; reflexivity).
  assert (clean (frontend_section (nginx_of p) backend frontend +:+ "}" +:+ NL))
    as Hfront.
  { unfold frontend_section. fold (rate_limit_of p).
    destruct frontend as [f|]; [|done].
    destruct (Hfrontend f eq_refl) as [Hf_name Hf_port].
    assert (clean (str (frontend_burst (rate_limit_of p) backend))).
    { unfold frontend_burst. destruct backend; [vm_compute; reflexivity|].
      apply clean_default_scalar; [done|vm_compute; reflexivity]. }
    unfold frontend_routes. apply clean_unlines_app; [|done].
    repeat (apply Forall_cons; split; [clean_text|]). constructor. }
  unfold backend_section. fold (rate_limit_of p).
  destruct backend as [b|]; [|done].
  destruct (default [] (api_locations (nginx_of p))) as [|location more] eqn:Hl;
    [done|].
  destruct (Hbackend b eq_refl) as [Hb_name Hb_port].
  assert (clean (join "|" (location :: more))) by by apply (clean_join "|").
  assert (clean (str (api_burst (rate_limit_of p)))).
  { apply clean_default_scalar; [done|vm_compute; reflexivity]. }
  assert (clean (str (default (SStr "60s") (proxy_connect_timeout (nginx_of p))))).
  { apply clean_default_scalar; [done|vm_compute; reflexivity]. }
  assert (clean (str (default (SStr "60s") (proxy_timeout (nginx_of p))))).
  { apply clean_default_scalar; [done|vm_compute; reflexivity]. }
  unfold backend_routes. apply clean_unlines_app; [|done].
  repeat (apply Forall_cons; split; [clean_text|]). constructor.
Qed.

(** ** The exclusive listener (C1) *)

(** The text of a block carries the line of its listener. *)
Lemma server_block_text_listener project_name p e listener ds primary :
  contains ("    " +:+ listener +:+ NL)
    (server_block_text project_name p e listener ds primary) = true.
Proof.
  unfold server_block_text.
  destruct (classify_containers e (containers p)) as [backend frontend].
  apply contains_app_l. unfold server_block_head.
  rewrite <-str_app_assoc. apply contains_unlines. set_solver.
Qed.


Ltac solve_clean :=
  repeat first
    [ progress intros
    | match goal with
      | H : _ = Some _ |- _ =>
          vm_compute in H; first [discriminate H|injection H as <-]
      end
    | split
    | apply Forall_nil_2
    | apply Forall_cons_2
    | solve [vm_compute; reflexivity] ].

(** ** Reading a file line by line *)

Lemma contains_foreign_head sub c t :
  sub ≠ "" → occurs c sub = false → contains sub (String c t) = contains sub t.
Proof.
  intros Hne Hc.
  pose proof (contains_app_foreign sub "" c t Hc) as H.
  rewrite str_app_nil_l in H. rewrite H.
  rewrite contains_empty. by destruct sub.
Qed.

Lemma startswith_universal_newlines sub t :
  occurs "013" sub = false → occurs "010" sub = false →
  startswith sub (universal_newlines t) = startswith sub t.
Proof.
  revert t. induction sub as [|d sub IH]; intros t Hcr Hlf.
  - by rewrite !startswith_nil.
  - cbn [occurs] in Hcr, Hlf.
    apply orb_false_iff in Hcr as [Hd1 Hcr], Hlf as [Hd2 Hlf].
    apply bool_decide_eq_false in Hd1, Hd2.
    destruct t as [|c t]; [done|].
    cbn [universal_newlines].
    destruct (Ascii.eqb c "013") eqn:Hc.
    + apply Ascii.eqb_eq in Hc as ->.
      assert (startswith (String d sub) (String "013" t) = false) as ->.
      { rewrite startswith_cons. by rewrite bool_decide_eq_false_2. }
      destruct t as [|c' t].
      * rewrite startswith_cons. by rewrite bool_decide_eq_false_2.
      * destruct (Ascii.eqb c' "010");
          rewrite startswith_cons; by rewrite bool_decide_eq_false_2.
    + rewrite !startswith_cons. by rewrite IH.
Qed.

Lemma contains_universal_newlines sub s :
  sub ≠ "" → occurs "013" sub = false → occurs "010" sub = false →
  contains sub (universal_newlines s) = contains sub s.
Proof.
  intros Hne Hcr Hlf.
  assert (∀ n s, String.length s ≤ n →
            contains sub (universal_newlines s) = contains sub s) as H;
    [|by apply (H (String.length s))].
  clear s. induction n as [|n IH]; intros s Hn.
  { destruct s; [done|]. cbn in Hn. lia. }
  destruct s as [|c s]; [done|]. cbn [String.length] in Hn.
  rewrite (contains_cons sub c s).
  rewrite <- (startswith_universal_newlines sub (String c s)) by done.
  cbn [universal_newlines].
  destruct (Ascii.eqb c "013") eqn:Hc.
  - apply Ascii.eqb_eq in Hc as ->.
    destruct s as [|c' s].
    + by rewrite contains_cons.
    + cbn [String.length] in Hn. destruct (Ascii.eqb c' "010") eqn:Hc'.
      * apply Ascii.eqb_eq in Hc' as ->.
        rewrite (contains_cons sub "010" (universal_newlines s)).
        rewrite (contains_foreign_head sub "010" s) by done.
        rewrite IH by lia. done.
      * rewrite (contains_cons sub "010" (universal_newlines (String c' s))).
        rewrite IH by (cbn [String.length]; lia). done.
  - rewrite (contains_cons sub c (universal_newlines s)).
    rewrite IH by lia. done.
Qed.

Lemma readlines_nonempty s : s ≠ "" → readlines s ≠ [].
Proof.
  destruct s as [|c s]; [done|]. intros _. cbn [readlines].
  destruct (Ascii.eqb c "010"); [done|]. by destruct (readlines s).
Qed.

Lemma universal_newlines_nonempty s : s ≠ "" → universal_newlines s ≠ "".
Proof.
  destruct s as [|c s]; [done|]. intros _. cbn [universal_newlines].
  destruct (Ascii.eqb c "013"); [|done].
  destruct s as [|c' s]; [done|]. by destruct (Ascii.eqb c' "010").
Qed.

Lemma file_lines_nonempty s : s ≠ "" → file_lines s ≠ [].
Proof.
  intros H. apply readlines_nonempty, universal_newlines_nonempty, H.
Qed.

Lemma str_app_nonempty s t : t ≠ "" → s +:+ t ≠ "".
Proof.
  intros Ht. destruct s as [|c s]; [by rewrite str_app_nil_l|].
  by rewrite str_app_cons.
Qed.

(** A text read after a line end is read as if it started the file. *)
Lemma file_lines_app s t :
  file_lines ((s +:+ NL) +:+ t) = file_lines (s +:+ NL) ++ file_lines t.
Proof.
  assert (∀ n s, String.length s ≤ n →
            file_lines ((s +:+ NL) +:+ t) = file_lines (s +:+ NL) ++ file_lines t)
    as H; [|by apply (H (String.length s))].
  clear s. unfold file_lines, read_text.
  induction n as [|n IH]; intros s Hn.
  { destruct s; [done|]. cbn in Hn. lia. }
  destruct s as [|c s]; [done|]. cbn [String.length] in Hn.
  rewrite !str_app_cons. cbn [universal_newlines].
  destruct (Ascii.eqb c "013") eqn:Hc.
  - destruct s as [|c' s].
    + rewrite !str_app_nil_l. unfold NL. rewrite !str_app_cons, str_app_nil_l.
      done.
    + cbn [String.length] in Hn. rewrite !str_app_cons.
      destruct (Ascii.eqb c' "010") eqn:Hc'.
      * cbn [readlines]. cbn [Ascii.eqb Bool.eqb]. cbn [app].
        rewrite <- IH by lia. done.
      * cbn [readlines]. cbn [Ascii.eqb Bool.eqb]. cbn [app].
        rewrite <- !str_app_cons. rewrite <- IH by (cbn [String.length]; lia).
        done.
  - cbn [readlines]. destruct (Ascii.eqb c "010") eqn:Hc'.
    + cbn [app]. by rewrite <- IH by lia.
    + rewrite IH by lia.
      pose proof (file_lines_nonempty (s +:+ NL)) as Hne.
      unfold file_lines, read_text in Hne.
      destruct (readlines (universal_newlines (s +:+ NL))) as [|l ls]; [|done].
      exfalso. apply Hne; [|done]. by apply str_app_nonempty.
Qed.

Lemma marker_lines_app s t :
  marker_lines ((s +:+ NL) +:+ t) = marker_lines (s +:+ NL) ++ marker_lines t.
Proof.
  unfold marker_lines. fold (file_lines ((s +:+ NL) +:+ t)).
  fold (file_lines (s +:+ NL)) (file_lines t).
  by rewrite file_lines_app, filter_app.
Qed.

Lemma contains_file_lines sub raw :
  sub ≠ "" → occurs "013" sub = false → occurs "010" sub = false →
  contains sub raw = existsb (contains sub) (file_lines raw).
Proof.
  intros Hne Hcr Hlf. unfold file_lines, read_text.
  rewrite <- contains_readlines by done.
  by rewrite contains_universal_newlines.
Qed.

(** A text without the word "reuseport" has no marker line. *)
Lemma marker_lines_clean raw : clean raw → marker_lines raw = [].
Proof.
  unfold clean. intros Hclean.
  rewrite (contains_file_lines WORD raw) in Hclean by done.
  unfold marker_lines. fold (file_lines raw).
  induction (file_lines raw) as [|l ls IH]; [done|].
  cbn [existsb] in Hclean. apply orb_false_iff in Hclean as [Hl Hls].
  rewrite filter_cons_False; [by apply IH|].
  intros Hm. rewrite (contains_trans WORD REUSEPORT_MARKER l) in Hl; done.
Qed.

(** ** The driver, step by step *)

(** The project assembler, run from a state: each environment present is
    rendered in turn, production first, and an empty domain list stops the
    assembly where it is met. *)
Lemma generate_project_config_run project_name p st :
  generate_project_config project_name p st =
  match production (domains p) with
  | Some prod =>
      match primary_domain prod with
      | Raise x => (Raise x, st)
      | Ok primary =>
          let listener := listener_for (is_first_server_block st) in
          let block := server_block_text project_name p Production listener prod primary in
          let config := config_header p +:+ generate_http_redirect prod primary
                        +:+ block +:+ NL in
          let st1 := render {| quic_listener := listener; block_text := block |} st in
          match staging (domains p) with
          | Some s =>
              match primary_domain (staging_domains s) with
              | Raise x => (Raise x, st1)
              | Ok primary' =>
                  let block' := server_block_text project_name p Staging QUIC_PLAIN
                                  (staging_domains s) primary' in
                  (Ok (config +:+ generate_http_redirect (staging_domains s) primary'
                       +:+ block'),
                   render {| quic_listener := QUIC_PLAIN; block_text := block' |} st1)
              end
          | None => (Ok config, st1)
          end
      end
  | None =>
      match staging (domains p) with
      | Some s =>
          match primary_domain (staging_domains s) with
          | Raise x => (Raise x, st)
          | Ok primary' =>
              let listener := listener_for (is_first_server_block st) in
              let block' := server_block_text project_name p Staging listener
                              (staging_domains s) primary' in
              (Ok (config_header p +:+ generate_http_redirect (staging_domains s) primary'
                   +:+ block'),
               render {| quic_listener := listener; block_text := block' |} st)
          end
      | None => (Ok (config_header p), st)
      end
  end.
Proof.
  unfold generate_project_config, render. rewrite bind_run.
  destruct (production (domains p)) as [prod|] eqn:Hprod.
  - rewrite lift_bind. destruct (primary_domain prod) as [primary|x] eqn:Hprimary;
      [|done].
    rewrite bind_run, generate_server_block_run.
    unfold environment_domains. rewrite Hprod, Hprimary. cbn zeta.
    rewrite ret_run. cbv beta iota.
    destruct (staging (domains p)) as [s|] eqn:Hstaging; [|done].
    rewrite lift_bind.
    destruct (primary_domain (staging_domains s)) as [primary'|x] eqn:Hprimary';
      [|done].
    rewrite bind_run, generate_server_block_run.
    unfold environment_domains. rewrite Hstaging, Hprimary'. cbn zeta.
    by rewrite ret_run.
  - rewrite ret_run. cbv beta iota.
    destruct (staging (domains p)) as [s|] eqn:Hstaging; [|done].
    rewrite lift_bind.
    destruct (primary_domain (staging_domains s)) as [primary'|x] eqn:Hprimary';
      [|done].
    rewrite bind_run, generate_server_block_run.
    unfold environment_domains. rewrite Hstaging, Hprimary'. cbn zeta.
    by rewrite ret_run.
Qed.

(** One turn of the loop of lines 329-357. *)
Lemma generate_one_run dry_run project_name p st :
  generate_one dry_run (project_name, p) st =
  match generate_project_config project_name p (say [GENERATING project_name] st) with
  | (Raise x, st1) => (Raise x, st1)
  | (Ok config, st1) =>
      match output_file_name project_name p with
      | Raise x => (Raise x, st1)
      | Ok file_name =>
          let output_file := output_dir st1 +:+ "/" +:+ file_name in
          if dry_run then preview output_file config st1
          else (Ok (), say [GENERATED output_file] (store file_name config st1))
      end
  end.
Proof.
  unfold generate_one. rewrite print_bind, bind_run. fold (GENERATING project_name).
  destruct (generate_project_config _ _ _) as [[config|x] st1]; [|done].
  rewrite lift_bind. destruct (output_file_name project_name p) as [file_name|x];
    [|done].
  unfold get_output_dir. rewrite bind_run. destruct dry_run; [done|].
  by rewrite bind_run.
Qed.

(** The generation phase: the selection, the heading, the loop and the
    closing lines. *)
Lemma generate_configs_unfold dry_run specific_project projects st :
  generate_configs dry_run specific_project projects st =
  match selection specific_project projects with
  | None =>
      (Raise (SystemExit 1),
       say [NOT_FOUND (default "" (requested specific_project))] st)
  | Some selected =>
      match for_each (generate_one dry_run) selected
              (say (run_heading dry_run (length selected)) st) with
      | (Ok _, st1) => (Ok (), say RUN_FOOTER st1)
      | (Raise x, st1) => (Raise x, st1)
      end
  end.
Proof.
  unfold generate_configs, select_projects, selection.
  destruct (requested specific_project) as [s|].
  - destruct (lookup_project s projects) as [p|].
    + rewrite ret_bind, !print_bind.
      destruct dry_run; rewrite ?print_bind, ?ret_bind, ?print_bind, !say_say;
        rewrite bind_run;
        (destruct (for_each _ _ _) as [[[]|x] st1]; [|done]); by run_prints.
    + rewrite bind_bind, print_bind, lift_bind. done.
  - rewrite ret_bind, !print_bind.
    destruct dry_run; rewrite ?print_bind, ?ret_bind, ?print_bind, !say_say;
      rewrite bind_run;
      (destruct (for_each _ _ _) as [[[]|x] st1]; [|done]); by run_prints.
Qed.

(** ** What the block renderer does to the generator *)

(** X1.  [generate_server_block] asked for an environment that the project
    does not have raises the key error that names the environment.  A
    render that raises leaves the generator as it was, the flag of the
    exclusive listener included; a render that returns takes the flag
    down, records one block with the listener the flag stood for, prints
    nothing and touches no file. *)
Theorem failed_render_keeps_the_generator_state project_name p e st :
  let run := generate_server_block project_name p e st in
  (production (domains p) = None →
   generate_server_block project_name p Production st
   = (Raise (KeyError "production"), st)) ∧
  (staging (domains p) = None →
   generate_server_block project_name p Staging st
   = (Raise (KeyError "staging"), st)) ∧
  (∀ x, run.1 = Raise x → run.2 = st) ∧
  (∀ text, run.1 = Ok text →
     is_first_server_block run.2 = false ∧
     rendered run.2
     = rendered st ++ [{| quic_listener := listener_for (is_first_server_block st);
                          block_text := text |}] ∧
     output_files run.2 = output_files st ∧
     stdout run.2 = stdout st ∧
     output_dir run.2 = output_dir st).
Proof.
  cbv zeta. rewrite !generate_server_block_run.
  split; [|split; [|split]].
  - intros Hnone. unfold environment_domains. by rewrite Hnone.
  - intros Hnone. unfold environment_domains. by rewrite Hnone.
  - intros x. destruct (environment_domains p e) as [ds|]; [|done].
    by destruct (primary_domain ds) as [primary|].
  - intros text.
    destruct (environment_domains p e) as [ds|]; [|done].
    destruct (primary_domain ds) as [primary|]; [|done].
    cbn. intros [= <-]. by rewrite app_nil_r.
Qed.

Lemma failed_render_keeps_the_generator_state_witness :
  generate_server_block "preview" preview_site Production (init "/srv/conf.d" ∅)
  = (Raise (KeyError "production"), init "/srv/conf.d" ∅).
Proof.
  apply (failed_render_keeps_the_generator_state
           "preview" preview_site Production (init "/srv/conf.d" ∅)).
  reflexivity.
Defined.

(** ** Which containers are recognised *)

Lemma lower_char_upper_char c : lower_char (upper_char c) = lower_char c.
Proof. by destruct c as [[] [] [] [] [] [] [] []]. Qed.

Lemma lower_char_lower_char c : lower_char (lower_char c) = lower_char c.
Proof. by destruct c as [[] [] [] [] [] [] [] []]. Qed.

Lemma lower_upper s : lower (upper s) = lower s.
Proof.
  unfold lower, upper. induction s as [|c s IH]; [done|].
  cbn [map_chars]. by rewrite lower_char_upper_char, IH.
Qed.

Lemma lower_lower s : lower (lower s) = lower s.
Proof.
  unfold lower. induction s as [|c s IH]; [done|].
  cbn [map_chars]. by rewrite lower_char_lower_char, IH.
Qed.

Lemma classify_rekey e (f : string → string) cs acc :
  (∀ key, lower (f key) = lower key) →
  foldl (classify_step e) acc (rekey f cs) = foldl (classify_step e) acc cs.
Proof.
  intros Hf. revert acc. induction cs as [|[key config] cs IH]; intros acc; [done|].
  cbn [rekey fmap list_fmap foldl prod_map fst snd]. fold (rekey f cs).
  rewrite IH. f_equal. unfold classify_step, id. by rewrite Hf.
Qed.

(** X2.  The staging block of a project recognises the same containers as
    its production block, with the same ports, under the container names
    followed by "-staging". *)
Theorem staging_containers_carry_the_staging_suffix cs :
  classify_containers Staging cs
  = (staged <$> (classify_containers Production cs).1,
     staged <$> (classify_containers Production cs).2).
Proof.
  rewrite !classify_containers_last. cbn [fst snd].
  rewrite <-!option_fmap_compose. done.
Qed.

(** X3.  For container keys that are ASCII strings, the recognition of
    containers does not depend on the letter case of the keys: writing
    every key in capitals, or in small letters, gives the same backend and
    frontend containers, as long as the keys so written are still pairwise
    distinct. *)
Theorem classification_ignores_the_letter_case e cs :
  Forall (λ key, is_ascii key = true) cs.*1 →
  (NoDup (rekey upper cs).*1 →
   classify_containers e (rekey upper cs) = classify_containers e cs) ∧
  (NoDup (rekey lower cs).*1 →
   classify_containers e (rekey lower cs) = classify_containers e cs).
Proof.
  intros _. unfold classify_containers. split; intros _.
  - apply classify_rekey, lower_upper.
  - apply classify_rekey, lower_lower.
Qed.

Lemma classification_ignores_the_letter_case_witness :
  classify_containers Production
    [("API-BACKEND", {| container_name := "mixed-api"; container_port := SInt 3000 |});
     ("WEB-UI", {| container_name := "mixed-web"; container_port := SInt 80 |})]
  = classify_containers Production mixed_case_containers ∧
  classify_containers Production
    [("api-backend", {| container_name := "mixed-api"; container_port := SInt 3000 |});
     ("web-ui", {| container_name := "mixed-web"; container_port := SInt 80 |})]
  = classify_containers Production mixed_case_containers.
Proof.
  destruct (classification_ignores_the_letter_case Production mixed_case_containers)
    as [Hupper Hlower].
  { repeat (apply Forall_cons_2 || apply Forall_nil_2); reflexivity. }
  split.
  - apply Hupper. apply (bool_decide_unpack _). by vm_compute.
  - apply Hlower. apply (bool_decide_unpack _). by vm_compute.
Defined.

(** X4.  For container keys that are ASCII strings: a backend container is
    recognised exactly when some key of the mapping holds "backend"; a
    frontend container exactly when some key holds "frontend" or "web" and
    does not hold "backend", so that a key with both words counts for the
    backend only.  A recognised container is the one of such an entry of
    the mapping: the name and the port are those of the entry, the name
    with the staging suffix in staging. *)
Theorem recognised_containers_come_from_matching_keys e cs :
  Forall (λ key, is_ascii key = true) cs.*1 →
  (is_Some (classify_containers e cs).1 ↔
   ∃ key config, (key, config) ∈ cs ∧ contains "backend" (lower key) = true) ∧
  (is_Some (classify_containers e cs).2 ↔
   ∃ key config, (key, config) ∈ cs ∧
     contains "backend" (lower key) = false ∧
     (contains "frontend" (lower key) = true ∨ contains "web" (lower key) = true)) ∧
  (∀ ep, (classify_containers e cs).1 = Some ep →
     ∃ key config, (key, config) ∈ cs ∧
       contains "backend" (lower key) = true ∧
       ep = to_endpoint e config) ∧
  (∀ ep, (classify_containers e cs).2 = Some ep →
     ∃ key config, (key, config) ∈ cs ∧
       contains "backend" (lower key) = false ∧
       ep = to_endpoint e config).
Proof.
  intros _. rewrite classify_containers_last. cbn [fst snd].
  assert (∀ (P : string * container_config → Prop) `{!∀ x, Decision (P x)},
            is_Some (last (filter P cs)) ↔ ∃ kv, kv ∈ cs ∧ P kv) as Hlast.
  { intros P ?. split.
    - intros [kv Hkv]. apply last_Some_elem_of, list_elem_of_filter in Hkv.
      exists kv. tauto.
    - intros (kv & Hin & HP).
      assert (kv ∈ filter P cs) as Hf by by apply list_elem_of_filter.
      destruct (last (filter P cs)) eqn:Hl; [by eexists|].
      apply last_None in Hl. rewrite Hl in Hf. by apply elem_of_nil in Hf. }
  split; [|split; [|split]].
  - rewrite fmap_is_Some, Hlast. split.
    + intros ([key config] & Hin & Hkey). by exists key, config.
    + intros (key & config & Hin & Hkey). by exists (key, config).
  - rewrite fmap_is_Some, Hlast. unfold is_frontend_key, is_backend_key. split.
    + intros ([key config] & Hin & Hkey). exists key, config.
      cbn [fst] in Hkey.
      apply andb_true_iff in Hkey as [Hb%negb_true_iff Hf%orb_true_iff]. done.
    + intros (key & config & Hin & Hb & Hf). exists (key, config).
      split; [done|]. cbn [fst]. rewrite Hb. cbn [negb andb].
      by apply orb_true_iff.
  - intros ep ([key config] & Hl & ->)%fmap_Some.
    apply last_Some_elem_of, list_elem_of_filter in Hl as [Hkey Hin].
    by exists key, config.
  - intros ep ([key config] & Hl & ->)%fmap_Some.
    apply last_Some_elem_of, list_elem_of_filter in Hl as [Hkey Hin].
    exists key, config. split; [done|]. split; [|done].
    unfold is_frontend_key, is_backend_key in Hkey. cbn [fst] in Hkey.
    by apply andb_true_iff in Hkey as [Hb%negb_true_iff _].
Qed.

Lemma recognised_containers_come_from_matching_keys_witness :
  (is_Some (classify_containers Production mixed_case_containers).1 ↔
   ∃ key config, (key, config) ∈ mixed_case_containers ∧
     contains "backend" (lower key) = true) ∧
  (is_Some (classify_containers Production mixed_case_containers).2 ↔
   ∃ key config, (key, config) ∈ mixed_case_containers ∧
     contains "backend" (lower key) = false ∧
     (contains "frontend" (lower key) = true ∨ contains "web" (lower key) = true)) ∧
  (∀ ep, (classify_containers Production mixed_case_containers).1 = Some ep →
     ∃ key config, (key, config) ∈ mixed_case_containers ∧
       contains "backend" (lower key) = true ∧
       ep = to_endpoint Production config) ∧
  (∀ ep, (classify_containers Production mixed_case_containers).2 = Some ep →
     ∃ key config, (key, config) ∈ mixed_case_containers ∧
       contains "backend" (lower key) = false ∧
       ep = to_endpoint Production config).
Proof.
  apply (recognised_containers_come_from_matching_keys
           Production mixed_case_containers).
  repeat (apply Forall_cons_2 || apply Forall_nil_2); reflexivity.
Defined.

(** ** What a rendered block holds *)

Lemma contains_refl s : contains s s = true.
Proof.
  apply contains_startswith. rewrite <-(str_app_nil_r s) at 2.
  apply startswith_app.
Qed.

Lemma contains_join sep d l : d ∈ l → contains d (join sep l) = true.
Proof.
  induction l as [|x l IH]; [by intros ?%elem_of_nil|].
  intros Hd. cbn [join]. destruct l as [|y l].
  - apply list_elem_of_singleton in Hd as ->. apply contains_refl.
  - apply elem_of_cons in Hd as [->|Hd].
    + apply contains_app_l, contains_refl.
    + by apply contains_app_r, contains_app_r, IH.
Qed.

Lemma generate_server_block_text project_name p e st text :
  (generate_server_block project_name p e st).1 = Ok text →
  ∃ ds primary,
    environment_domains p e = Ok ds ∧ primary_domain ds = Ok primary ∧
    text = server_block_text project_name p e
             (listener_for (is_first_server_block st)) ds primary.
Proof.
  rewrite generate_server_block_run.
  destruct (environment_domains p e) as [ds|]; [|done].
  destruct (primary_domain ds) as [primary|] eqn:Hprimary; [|done].
  cbv zeta. cbn [fst]. intros [= <-]. by exists ds, primary.
Qed.

(** X5.  The redirect block and the HTTPS block of an environment name the
    same servers: both hold the line [server_name] with the domains of the
    environment separated by spaces (the single domain for an entry that is
    not a list), so that every domain of the entry is served by both.  The
    primary domain passed to [generate_http_redirect] plays no part in its
    text. *)
Theorem redirect_and_https_block_name_the_same_servers
    project_name p e st ds primary text :
  environment_domains p e = Ok ds →
  (generate_server_block project_name p e st).1 = Ok text →
  contains (server_name_line ds) text = true ∧
  contains (server_name_line ds) (generate_http_redirect ds primary) = true ∧
  (∀ d, d ∈ domain_names ds → contains d (server_name_line ds) = true) ∧
  (∀ other, generate_http_redirect ds other = generate_http_redirect ds primary).
Proof.
  intros Hds Hrun.
  destruct (generate_server_block_text _ _ _ _ _ Hrun) as (ds' & primary' & Hds' & _ & ->).
  assert (ds' = ds) as -> by congruence.
  split; [|split; [|split]].
  - unfold server_block_text.
    destruct (classify_containers e (containers p)) as [backend frontend].
    apply contains_app_l. unfold server_block_head, server_name_line.
    apply contains_unlines. set_solver.
  - unfold generate_http_redirect, server_name_line.
    rewrite <-(str_app_nil_r (unlines _)).
    apply contains_app_l, contains_unlines. set_solver.
  - intros d Hd. unfold server_name_line.
    apply contains_app_l, contains_app_r, contains_app_l.
    destruct ds as [l|s]; cbn [domain_names server_names] in *.
    + by apply contains_join.
    + apply list_elem_of_singleton in Hd as ->. apply contains_refl.
  - done.
Qed.

Lemma redirect_and_https_block_name_the_same_servers_witness :
  let ds := DomainList ["www.example.com"; "example.com"] in
  let text := server_block_text "shop" shop Production QUIC_REUSEPORT ds
                "www.example.com" in
  contains (server_name_line ds) text = true ∧
  contains (server_name_line ds) (generate_http_redirect ds "www.example.com") = true ∧
  (∀ d, d ∈ domain_names ds → contains d (server_name_line ds) = true) ∧
  (∀ other, generate_http_redirect ds other
            = generate_http_redirect ds "www.example.com").
Proof.
  intros ds text.
  exact (redirect_and_https_block_name_the_same_servers
           "shop" shop Production (init "/srv/conf.d" ∅) ds "www.example.com" text
           eq_refl eq_refl).
Defined.

(** X6.  When a backend container is recognised and the project lists API
    locations, the rendered block routes the locations, joined by bars in
    one pattern, to that container: its name and port are the ones set for
    the proxy.  The connect timeout is [proxy_connect_timeout]; the send and
    the read timeout are both [proxy_timeout]; each is 60s when the project
    does not set it. *)
Theorem api_section_routes_to_the_backend_container
    project_name p e st text backend frontend :
  (generate_server_block project_name p e st).1 = Ok text →
  classify_containers e (containers p) = (Some backend, frontend) →
  default [] (api_locations (nginx_of p)) ≠ [] →
  let timeout := str (default (SStr "60s") (proxy_timeout (nginx_of p))) in
  contains (("    location ~ ^/("
             +:+ join "|" (default [] (api_locations (nginx_of p))) +:+ ") {") +:+ NL)
    text = true ∧
  contains (("        set $backend_host " +:+ DQ +:+ endpoint_name backend +:+ DQ +:+ ";")
            +:+ NL) text = true ∧
  contains (("        set $backend_port " +:+ DQ +:+ str (endpoint_port backend)
             +:+ DQ +:+ ";") +:+ NL) text = true ∧
  contains (("        proxy_connect_timeout "
             +:+ str (default (SStr "60s") (proxy_connect_timeout (nginx_of p))) +:+ ";")
            +:+ NL) text = true ∧
  contains (("        proxy_send_timeout " +:+ timeout +:+ ";") +:+ NL) text = true ∧
  contains (("        proxy_read_timeout " +:+ timeout +:+ ";") +:+ NL) text = true.
Proof.
  intros Hrun Hclassify Hlocations timeout. subst timeout.
  destruct (generate_server_block_text _ _ _ _ _ Hrun) as (ds & primary & _ & _ & ->).
  unfold server_block_text. rewrite Hclassify.
  unfold backend_section. fold (nginx_of p).
  destruct (default [] (api_locations (nginx_of p))) as [|location more]; [done|].
  unfold backend_routes.
  repeat split; apply contains_app_r, contains_app_l, contains_unlines; set_solver.
Qed.

Lemma api_section_routes_to_the_backend_container_witness :
  let text :=
    server_block_text "shop" shop Staging QUIC_REUSEPORT
      (DomainList ["staging.example.com"]) "staging.example.com" in
  contains (("    location ~ ^/(" +:+ "api|health" +:+ ") {") +:+ NL) text = true ∧
  contains (("        set $backend_host " +:+ DQ +:+ "shop-api-staging" +:+ DQ +:+ ";")
            +:+ NL) text = true ∧
  contains (("        set $backend_port " +:+ DQ +:+ "3000" +:+ DQ +:+ ";") +:+ NL)
    text = true ∧
  contains (("        proxy_connect_timeout " +:+ "60s" +:+ ";") +:+ NL) text = true ∧
  contains (("        proxy_send_timeout " +:+ "120s" +:+ ";") +:+ NL) text = true ∧
  contains (("        proxy_read_timeout " +:+ "120s" +:+ ";") +:+ NL) text = true.
Proof.
  intros text.
  apply (api_section_routes_to_the_backend_container
           "shop" shop Staging (init "/srv/conf.d" ∅) text
           {| endpoint_name := "shop-api-staging"; endpoint_port := SInt 3000 |}
           (Some {| endpoint_name := "shop-web-staging"; endpoint_port := SInt 80 |})
           eq_refl eq_refl).
  vm_compute. discriminate.
Defined.

(** X7.  When a frontend container is recognised, the rendered block sends
    the site itself, the fallback to index.html and the static assets to
    that container: its name and port are the ones set for the proxy. *)
Theorem frontend_section_routes_to_the_frontend_container
    project_name p e st text backend frontend :
  (generate_server_block project_name p e st).1 = Ok text →
  classify_containers e (containers p) = (backend, Some frontend) →
  contains (("    location / {") +:+ NL) text = true ∧
  contains (("    location @frontend_fallback {") +:+ NL) text = true ∧
  contains (("        set $frontend_host " +:+ DQ +:+ endpoint_name frontend +:+ DQ +:+ ";")
            +:+ NL) text = true ∧
  contains (("        set $frontend_port " +:+ DQ +:+ str (endpoint_port frontend)
             +:+ DQ +:+ ";") +:+ NL) text = true ∧
  contains (("        proxy_pass http://$frontend_host:$frontend_port/index.html;")
            +:+ NL) text = true.
Proof.
  intros Hrun Hclassify.
  destruct (generate_server_block_text _ _ _ _ _ Hrun) as (ds & primary & _ & _ & ->).
  unfold server_block_text. rewrite Hclassify.
  unfold frontend_section, frontend_routes.
  repeat split;
    apply contains_app_r, contains_app_r, contains_app_l, contains_unlines; set_solver.
Qed.

Lemma frontend_section_routes_to_the_frontend_container_witness :
  let text :=
    server_block_text "preview" preview_site Staging QUIC_REUSEPORT
      (DomainStr "preview.example.net") "preview.example.net" in
  contains (("    location / {") +:+ NL) text = true ∧
  contains (("    location @frontend_fallback {") +:+ NL) text = true ∧
  contains (("        set $frontend_host " +:+ DQ +:+ "preview-web-staging" +:+ DQ +:+ ";")
            +:+ NL) text = true ∧
  contains (("        set $frontend_port " +:+ DQ +:+ "8080" +:+ DQ +:+ ";") +:+ NL)
    text = true ∧
  contains (("        proxy_pass http://$frontend_host:$frontend_port/index.html;")
            +:+ NL) text = true.
Proof.
  intros text.
  exact (frontend_section_routes_to_the_frontend_container
           "preview" preview_site Staging (init "/srv/conf.d" ∅) text
           None {| endpoint_name := "preview-web-staging"; endpoint_port := SStr "8080" |}
           eq_refl eq_refl).
Defined.

(** ** Marker lines of a generated file *)

Lemma ends_with_newline_NL : ends_with_newline NL.
Proof. by exists "". Qed.

Lemma ends_with_newline_app s t : ends_with_newline t → ends_with_newline (s +:+ t).
Proof. intros [t' ->]. exists (s +:+ t'). by rewrite str_app_assoc. Qed.

Lemma ends_with_newline_unlines lines :
  lines ≠ [] → ends_with_newline (unlines lines).
Proof.
  induction lines as [|x lines IH]; [done|]. intros _. cbn [unlines].
  destruct lines as [|y lines].
  - cbn [unlines]. rewrite str_app_nil_r. by exists x.
  - apply ends_with_newline_app, ends_with_newline_app, IH. done.
Qed.

Lemma marker_count_app s t :
  ends_with_newline s → marker_count (s +:+ t) = marker_count s + marker_count t.
Proof.
  intros [s' ->]. unfold marker_count.
  by rewrite marker_lines_app, length_app.
Qed.

Lemma marker_count_clean raw : clean raw → marker_count raw = 0.
Proof. intros H. unfold marker_count. by rewrite marker_lines_clean. Qed.

Lemma clean_app_inv s t : clean (s +:+ t) → clean s ∧ clean t.
Proof.
  unfold clean. intros H. split.
  - destruct (contains WORD s) eqn:Hs; [|done].
    by rewrite (contains_app_l WORD s t Hs) in H.
  - destruct (contains WORD t) eqn:Ht; [|done].
    by rewrite (contains_app_r WORD s t Ht) in H.
Qed.

(** The block around the line of its listener. *)
Lemma server_block_text_split project_name p e ds primary :
  ∃ before after,
    ends_with_newline before ∧
    ∀ listener,
      server_block_text project_name p e listener ds primary
      = before +:+ (("    " +:+ listener) +:+ NL) +:+ after.
Proof.
  unfold server_block_text.
  destruct (classify_containers e (containers p)) as [backend frontend].
  set (tail := backend_section _ _ +:+ _).
  exists (unlines [RULE; "# " +:+ name p +:+ " - " +:+ upper (env_str e); RULE;
                   "server {"; "    listen 443 ssl;"]).
  eexists. split; [by apply ends_with_newline_unlines|].
  intros listener. unfold server_block_head. cbn [unlines].
  rewrite !str_app_assoc. rewrite !str_app_nil_l. reflexivity.
Qed.

Lemma ends_with_newline_server_block_text project_name p e listener ds primary :
  ends_with_newline (server_block_text project_name p e listener ds primary).
Proof.
  unfold server_block_text.
  destruct (classify_containers e (containers p)) as [backend frontend].
  repeat apply ends_with_newline_app. apply ends_with_newline_NL.
Qed.

Lemma contains_quic_marker_server_block_text project_name p e first ds primary :
  contains QUIC_MARKER
    (server_block_text project_name p e (listener_for first) ds primary) = true.
Proof.
  apply (contains_trans _ ("    " +:+ listener_for first +:+ NL));
    [by destruct first; vm_compute|].
  apply server_block_text_listener.
Qed.

(** The block with the exclusive listener has a marker line; in a hygienic
    entry it has exactly one, and the block with the plain listener none. *)
Lemma marker_count_server_block_text project_name p e first ds primary :
  let text := server_block_text project_name p e (listener_for first) ds primary in
  (first = true → 1 ≤ marker_count text) ∧
  (hygienic project_name p →
   environment_domains p e = Ok ds → primary_domain ds = Ok primary →
   marker_count text = if first then 1 else 0).
Proof.
  cbv zeta.
  destruct (server_block_text_split project_name p e ds primary)
    as (before & after & Hbefore & Hsplit).
  split.
  - intros ->. rewrite Hsplit, marker_count_app by done.
    rewrite marker_count_app by by eexists.
    assert (marker_count (("    " +:+ listener_for true) +:+ NL) = 1) as ->
      by by vm_compute.
    lia.
  - intros Hp Hds Hprimary.
    assert (clean QUIC_PLAIN) as Hplain by by vm_compute.
    pose proof (clean_server_block_text project_name p e QUIC_PLAIN ds primary
                  Hp Hds Hprimary Hplain) as Hclean.
    rewrite Hsplit in Hclean.
    apply clean_app_inv in Hclean as [Hclean_before Hclean].
    apply clean_app_inv in Hclean as [_ Hclean_after].
    rewrite Hsplit, marker_count_app by done.
    rewrite marker_count_app by by eexists.
    rewrite (marker_count_clean before), (marker_count_clean after) by done.
    destruct first; by vm_compute.
Qed.

Lemma clean_config_header p : clean (name p) → clean (config_header p).
Proof.
  intros Hname. unfold config_header. rewrite <-(str_app_nil_r (unlines _)).
  apply clean_unlines_app; [|done].
  repeat (apply Forall_cons; split; [clean_text|]). constructor.
Qed.

Lemma clean_generate_http_redirect ds primary :
  clean (server_names ds) → clean (generate_http_redirect ds primary).
Proof.
  intros Hnames. unfold generate_http_redirect.
  rewrite <-(str_app_nil_r (unlines _)).
  apply clean_unlines_app; [|done].
  repeat (apply Forall_cons; split; [clean_text|]). constructor.
Qed.

Lemma ends_with_newline_config_header p : ends_with_newline (config_header p).
Proof. by apply ends_with_newline_unlines. Qed.

Lemma ends_with_newline_generate_http_redirect ds primary :
  ends_with_newline (generate_http_redirect ds primary).
Proof. by apply ends_with_newline_unlines. Qed.

Lemma render_render b1 b2 st :
  render b2 (render b1 st)
  = apply_effect {| flag_after := false; writes := []; printed := [];
                    blocks := [b1; b2] |} st.
Proof. unfold render. by rewrite apply_then_effect. Qed.

Ltac ends_with_newline_part :=
  lazymatch goal with
  | |- ends_with_newline (config_header _) =>
      apply ends_with_newline_config_header
  | |- ends_with_newline (generate_http_redirect _ _) =>
      apply ends_with_newline_generate_http_redirect
  | |- ends_with_newline NL => apply ends_with_newline_NL
  | |- ends_with_newline _ => apply ends_with_newline_server_block_text
  end.

Ltac split_marker_count :=
  repeat match goal with
         | |- context [marker_count (?s +:+ ?t)] =>
             rewrite (marker_count_app s t) by ends_with_newline_part
         end.

(** What the project assembler leaves behind for a project without an empty
    domain list: the blocks of its environments, a flag that is down as soon
    as there was one, and a text whose marker lines are those of its first
    block. *)
Lemma generate_project_config_summary project_name p st :
  ¬ has_empty_domain_list p →
  ∃ config blks,
    generate_project_config project_name p st
    = (Ok config,
       apply_effect {| flag_after := is_first_server_block st
                                     && negb (has_environment p);
                       writes := []; printed := []; blocks := blks |} st) ∧
    (has_environment p = true → contains QUIC_MARKER config = true) ∧
    (has_environment p = true → is_first_server_block st = true →
     1 ≤ marker_count config) ∧
    (hygienic project_name p →
     marker_count config
     = if is_first_server_block st && has_environment p then 1 else 0).
Proof.
  intros Hp. rewrite generate_project_config_run. unfold has_environment.
  assert (marker_count NL = 0) as Hnl by by vm_compute.
  destruct (production (domains p)) as [prod|] eqn:Hprod.
  - destruct (primary_domain_total prod) as [primary Hprimary].
    { intros ->. apply Hp. by left. }
    rewrite Hprimary. cbv zeta.
    set (first := is_first_server_block st).
    destruct (marker_count_server_block_text project_name p Production first prod primary)
      as [Hlow Hexact].
    pose proof (contains_quic_marker_server_block_text
                  project_name p Production first prod primary) as Hquic.
    set (block := server_block_text _ _ Production _ _ _) in *.
    destruct (staging (domains p)) as [s|] eqn:Hstaging.
    + destruct (primary_domain_total (staging_domains s)) as [primary' Hprimary'].
      { intros Hs. apply Hp. right. by exists s. }
      rewrite Hprimary'. rewrite render_render.
      destruct (marker_count_server_block_text project_name p Staging false
                  (staging_domains s) primary') as [_ Hexact'].
      change (listener_for false) with QUIC_PLAIN in Hexact'.
      set (block' := server_block_text _ _ Staging _ _ _) in *.
      eexists _, _. rewrite andb_false_r. split; [reflexivity|].
      rewrite ?str_app_assoc. split; [|split].
      * intros _. by apply contains_app_r, contains_app_r, contains_app_l.
      * intros _ Hfirst. split_marker_count. specialize (Hlow Hfirst). lia.
      * intros Hhygienic. split_marker_count.
        destruct (clean_environment_domains p Production project_name prod primary)
          as [_ Hnames]; [done|by unfold environment_domains; rewrite Hprod|done|].
        destruct (clean_environment_domains p Staging project_name
                    (staging_domains s) primary')
          as [_ Hnames'];
          [done|by unfold environment_domains; rewrite Hstaging|done|].
        rewrite (marker_count_clean (config_header p))
          by (apply clean_config_header, Hhygienic).
        rewrite !(marker_count_clean (generate_http_redirect _ _))
          by by apply clean_generate_http_redirect.
        rewrite Hexact, Hexact', Hnl, andb_true_r;
          [by destruct first|done|by unfold environment_domains; rewrite Hstaging
          |done|done|by unfold environment_domains; rewrite Hprod|done].
    + eexists _, _. rewrite andb_false_r. split; [reflexivity|].
      rewrite ?str_app_assoc. split; [|split].
      * intros _. by apply contains_app_r, contains_app_r, contains_app_l.
      * intros _ Hfirst. split_marker_count. specialize (Hlow Hfirst). lia.
      * intros Hhygienic. split_marker_count.
        destruct (clean_environment_domains p Production project_name prod primary)
          as [_ Hnames]; [done|by unfold environment_domains; rewrite Hprod|done|].
        rewrite (marker_count_clean (config_header p))
          by (apply clean_config_header, Hhygienic).
        rewrite !(marker_count_clean (generate_http_redirect _ _))
          by by apply clean_generate_http_redirect.
        rewrite Hexact, Hnl, andb_true_r;
          [by destruct first|done|by unfold environment_domains; rewrite Hprod|done].
  - destruct (staging (domains p)) as [s|] eqn:Hstaging.
    + destruct (primary_domain_total (staging_domains s)) as [primary' Hprimary'].
      { intros Hs. apply Hp. right. by exists s. }
      rewrite Hprimary'. cbv zeta.
      set (first := is_first_server_block st).
      destruct (marker_count_server_block_text project_name p Staging first
                  (staging_domains s) primary') as [Hlow Hexact].
      pose proof (contains_quic_marker_server_block_text
                    project_name p Staging first (staging_domains s) primary') as Hquic.
      set (block' := server_block_text _ _ Staging _ _ _) in *.
      eexists _, _. rewrite andb_false_r. split; [reflexivity|].
      split; [|split].
      * intros _. by apply contains_app_r, contains_app_r.
      * intros _ Hfirst. split_marker_count. specialize (Hlow Hfirst). lia.
      * intros Hhygienic. split_marker_count.
        destruct (clean_environment_domains p Staging project_name
                    (staging_domains s) primary')
          as [_ Hnames'];
          [done|by unfold environment_domains; rewrite Hstaging|done|].
        rewrite (marker_count_clean (config_header p))
          by (apply clean_config_header, Hhygienic).
        rewrite !(marker_count_clean (generate_http_redirect _ _))
          by by apply clean_generate_http_redirect.
        rewrite Hexact, andb_true_r;
          [by destruct first|done|by unfold environment_domains; rewrite Hstaging|done].
    + exists (config_header p), []. rewrite andb_true_r.
      split; [by rewrite <-(apply_no_effect st) at 1|]. rewrite andb_false_r.
      split; [done|]. split; [done|].
      intros Hhygienic. apply marker_count_clean, clean_config_header, Hhygienic.
Qed.

(** ** The files of a write-mode run *)

Lemma endswith_app suf s : endswith suf (s +:+ suf) = true.
Proof.
  induction s as [|c s IH].
  - rewrite str_app_nil_l. destruct suf; cbn [endswith]; by rewrite String.eqb_refl.
  - rewrite str_app_cons. cbn [endswith]. rewrite IH. apply orb_true_r.
Qed.

Lemma output_file_name_conf project_name p file_name :
  output_file_name project_name p = Ok file_name →
  endswith ".conf" file_name = true.
Proof.
  unfold output_file_name.
  destruct (production (domains p)) as [prod|].
  - destruct (primary_domain prod); [|done]. intros [= <-]. apply endswith_app.
  - intros [= <-]. apply endswith_app.
Qed.

(** A completed turn of the loop in write mode. *)
Lemma generate_one_write project_name p st :
  ¬ has_empty_domain_list p →
  ∃ file_name config blks,
    output_file_name project_name p = Ok file_name ∧
    generate_one false (project_name, p) st
    = (Ok (),
       apply_effect
         {| flag_after := is_first_server_block st && negb (has_environment p);
            writes := [(file_name, config)];
            printed := [GENERATING project_name;
                        GENERATED (output_dir st +:+ "/" +:+ file_name)];
            blocks := blks |} st) ∧
    (has_environment p = true → contains QUIC_MARKER config = true) ∧
    (has_environment p = true → is_first_server_block st = true →
     1 ≤ marker_count config) ∧
    (hygienic project_name p →
     marker_count config
     = if is_first_server_block st && has_environment p then 1 else 0).
Proof.
  intros Hp. rewrite generate_one_run.
  destruct (generate_project_config_summary project_name p
              (say [GENERATING project_name] st) Hp)
    as (config & blks & -> & Hquic & Hlow & Hexact).
  destruct (output_file_name_total project_name p Hp) as [file_name Hname].
  rewrite Hname. exists file_name, config, blks. split; [done|].
  split; [|done].
  f_equal. unfold say, store, apply_effect. cbn.
  f_equal. by rewrite app_nil_r, <-app_assoc.
Qed.

(** The loop in write mode over projects without an empty domain list. *)
Lemma generate_each_write selected :
  Forall (λ entry, ¬ has_empty_domain_list entry.2) selected →
  ∀ st, ∃ eff,
    for_each (generate_one false) selected st = (Ok (), apply_effect eff st) ∧
    Forall2 written_by selected (writes eff) ∧
    (Forall (λ entry, hygienic entry.1 entry.2) selected →
     written_marker_count (writes eff)
     = if is_first_server_block st
          && existsb (λ entry, has_environment entry.2) selected
       then 1 else 0) ∧
    flag_after eff
    = is_first_server_block st
      && forallb (λ entry, negb (has_environment entry.2)) selected.
Proof.
  induction 1 as [|[project_name p] selected Hp _ IH]; intros st.
  { exists (no_effect (is_first_server_block st)).
    rewrite apply_no_effect. cbn. rewrite andb_false_r, andb_true_r.
    by repeat split. }
  cbn [fst snd] in Hp.
  destruct (generate_one_write project_name p st Hp)
    as (file_name & config & blks & Hname & Hrun & Hquic & _ & Hexact).
  cbn [for_each]. rewrite bind_run, Hrun.
  set (eff1 := {| flag_after := _ |}) in *.
  destruct (IH (apply_effect eff1 st)) as (eff2 & -> & Hws & Hcount & Hflag).
  exists (then_effect eff1 eff2). rewrite apply_then_effect.
  split; [done|]. cbn [then_effect writes flag_after eff1 app] in *.
  split; [|split].
  - by constructor.
  - intros [Hhygienic Hothers]%Forall_cons. cbn [fst snd] in Hhygienic.
    unfold written_marker_count in *. cbn [sum_list_with snd existsb].
    rewrite (Hcount Hothers), (Hexact Hhygienic).
    by destruct (is_first_server_block st), (has_environment p),
      (existsb _ selected).
  - rewrite Hflag. cbn [forallb snd]. by rewrite andb_assoc.
Qed.

Lemma lookup_write_all_other ws files key :
  key ∉ ws.*1 → write_all ws files !! key = files !! key.
Proof.
  revert files. induction ws as [|[k v] ws IH]; intros files Hkey; [done|].
  cbn [fmap list_fmap fst] in Hkey. apply not_elem_of_cons in Hkey as [Hk Hkey].
  unfold write_all. cbn [foldl fst snd]. fold (write_all ws (<[k:=v]> files)).
  rewrite IH by done. by rewrite lookup_insert_ne.
Qed.

Lemma lookup_write_all ws files key value :
  NoDup ws.*1 → (key, value) ∈ ws → write_all ws files !! key = Some value.
Proof.
  revert files. induction ws as [|[k v] ws IH]; intros files Hnodup Hin.
  { by apply elem_of_nil in Hin. }
  cbn [fmap list_fmap fst] in Hnodup. apply NoDup_cons in Hnodup as [Hk Hnodup].
  unfold write_all. cbn [foldl fst snd]. fold (write_all ws (<[k:=v]> files)).
  apply elem_of_cons in Hin as [[= -> ->]|Hin].
  - rewrite lookup_write_all_other by done. by rewrite lookup_insert_eq.
  - by apply IH.
Qed.

(** The [*.conf] files after distinct files were written over a directory
    all of whose [*.conf] files are among them. *)
Lemma conf_files_write_all ws files :
  NoDup ws.*1 →
  Forall (λ w, endswith ".conf" w.1 = true) ws →
  (∀ key, endswith ".conf" key = true → is_Some (files !! key) → key ∈ ws.*1) →
  conf_files (write_all ws files) ≡ₚ ws.
Proof.
  intros Hnodup Hconf Hold. apply NoDup_Permutation.
  - apply NoDup_filter, NoDup_map_to_list.
  - by apply (NoDup_fmap_1 fst).
  - intros [key value]. unfold conf_files.
    rewrite list_elem_of_filter, elem_of_map_to_list. cbn [fst]. split.
    + intros [Hkey Hlookup].
      destruct (decide (key ∈ ws.*1)) as [Hin|Hout].
      * apply list_elem_of_fmap in Hin as ([k v] & -> & Hin). cbn [fst] in *.
        rewrite (lookup_write_all ws files k v) in Hlookup by done.
        by injection Hlookup as <-.
      * rewrite lookup_write_all_other in Hlookup by done.
        destruct Hout. by apply Hold.
    + intros Hin. split.
      * rewrite Forall_forall in Hconf. by apply (Hconf (key, value)).
      * by apply lookup_write_all.
Qed.

Lemma written_by_names selected ws :
  Forall2 written_by selected ws →
  output_file_names selected = (λ w, Ok w.1) <$> ws.
Proof.
  unfold output_file_names.
  induction 1 as [|entry w selected ws [Hname _] _ IH]; [done|].
  cbn [fmap list_fmap]. by rewrite Hname, IH.
Qed.

Lemma written_by_NoDup selected ws :
  Forall2 written_by selected ws →
  NoDup (output_file_names selected) → NoDup ws.*1.
Proof.
  intros Hws. rewrite (written_by_names selected ws Hws).
  intros Hnodup. apply (NoDup_fmap_1 Ok).
  by rewrite <-list_fmap_compose.
Qed.

Lemma written_by_conf selected ws :
  Forall2 written_by selected ws →
  Forall (λ w, endswith ".conf" w.1 = true) ws.
Proof.
  induction 1 as [|entry w selected ws [Hname _] _ IH]; constructor; [|done].
  by apply (output_file_name_conf entry.1 entry.2).
Qed.

(** The verdict on a directory whose [*.conf] files are known. *)
Lemma validation_passes_of_conf_files files ws :
  conf_files files ≡ₚ ws →
  written_marker_count ws = 1 →
  Forall (λ w, contains QUIC_MARKER w.2 = true) ws →
  validation_passes files = true.
Proof.
  intros Hperm Hcount Hquic. unfold validation_passes.
  rewrite reuseport_count_marker_lines. unfold marker_line_count.
  rewrite Hperm. unfold written_marker_count, marker_count in Hcount.
  rewrite Hcount. cbn [Nat.eqb andb]. apply bool_decide_eq_true.
  destruct (configs_without_http3 (glob_conf files)) eqn:Hmissing; [done|].
  assert (capability_fails files) as (file_name & raw & Hlookup & Hconf & Hlines).
  { apply configs_without_http3_spec. by rewrite Hmissing. }
  assert ((file_name, raw) ∈ ws) as Hin.
  { rewrite <-Hperm. unfold conf_files.
    by rewrite list_elem_of_filter, elem_of_map_to_list. }
  rewrite Forall_forall in Hquic. specialize (Hquic _ Hin). cbn [snd] in Hquic.
  rewrite (contains_file_lines QUIC_MARKER raw) in Hquic by done.
  apply existsb_exists in Hquic as (line & Hline%list_elem_of_In & Hcontains).
  rewrite Forall_forall in Hlines. by rewrite (Hlines line Hline) in Hcontains.
Qed.

(** ** A run and its own validation *)

Lemma written_by_quic selected ws :
  Forall2 written_by selected ws →
  Forall (λ entry, has_environment entry.2 = true) selected →
  Forall (λ w, contains QUIC_MARKER w.2 = true) ws.
Proof.
  induction 1 as [|entry w selected ws [_ Hquic] _ IH]; [done|].
  intros [Henv Hothers]%Forall_cons. constructor; [by apply Hquic|by apply IH].
Qed.

Lemma existsb_has_environment (selected : registry) :
  selected ≠ [] →
  Forall (λ entry, has_environment entry.2 = true) selected →
  existsb (λ entry, has_environment entry.2) selected = true.
Proof. destruct 2 as [|entry selected Henv _]; [done|]. cbn. by rewrite Henv. Qed.

(** The whole run in write mode over projects without an empty domain list:
    the files written, then the verdict of the validator on the directory. *)
Lemma generate_all_write specific_project projects selected st :
  selection specific_project projects = Some selected →
  Forall (λ entry, ¬ has_empty_domain_list entry.2) selected →
  ∃ ws out,
    let files := write_all ws (output_files st) in
    generate_all false specific_project projects st
    = (if validation_passes files then Ok () else Raise (SystemExit 1), out) ∧
    output_files out = files ∧
    Forall2 written_by selected ws ∧
    (Forall (λ entry, hygienic entry.1 entry.2) selected →
     written_marker_count ws
     = if is_first_server_block st
          && existsb (λ entry, has_environment entry.2) selected
       then 1 else 0).
Proof.
  intros Hselection Hselected.
  rewrite generate_all_unfold, generate_configs_unfold, Hselection.
  destruct (generate_each_write selected Hselected
              (say (run_heading false (length selected)) st))
    as (eff & -> & Hws & Hcount & _).
  set (st1 := say RUN_FOOTER _).
  destruct (validate_and_report_run st1) as (out & -> & _).
  exists (writes eff), (say out st1). by repeat split.
Qed.

(** X8.  A run in write mode passes its own validation, and so ends with
    exit status 0, when the projects it works on are hygienic (none of their
    texts holds the word "reuseport"), have no empty domain list and at
    least one environment each, there is at least one project, their output
    files have distinct names that are single path components, every
    [*.conf] file found in the directory is one of these output files, and
    the files the run leaves can be read as text.  The directory then has
    exactly one line with the exclusive listener, and every [*.conf] file
    has a QUIC listener. *)
Theorem hygienic_run_passes_its_own_validation
    specific_project projects selected dir files :
  selection specific_project projects = Some selected →
  selected ≠ [] →
  Forall (λ entry, hygienic entry.1 entry.2) selected →
  Forall (λ entry, ¬ has_empty_domain_list entry.2) selected →
  Forall (λ entry, has_environment entry.2 = true) selected →
  NoDup (output_file_names selected) →
  (∀ file_name,
     Ok file_name ∈ output_file_names selected → path_component file_name = true) →
  (∀ file_name,
     endswith ".conf" file_name = true → is_Some (files !! file_name) →
     Ok file_name ∈ output_file_names selected) →
  let run := generate_all false specific_project projects (init dir files) in
  decodable (output_files run.2) →
  run.1 = Ok () ∧
  exit_status run.1 = 0%Z ∧
  marker_line_count (output_files run.2) = 1 ∧
  ¬ capability_fails (output_files run.2).
Proof.
  intros Hselection Hsome Hhygienic Hlists Henvs Hnames _ Hold run _. subst run.
  destruct (generate_all_write specific_project projects selected (init dir files)
              Hselection Hlists) as (ws & out & Hrun & Hfiles & Hws & Hcount).
  cbv zeta in *. cbn [init output_files is_first_server_block] in *.
  specialize (Hcount Hhygienic).
  rewrite existsb_has_environment in Hcount by done. cbn [andb] in Hcount.
  assert (conf_files (write_all ws files) ≡ₚ ws) as Hperm.
  { apply conf_files_write_all.
    - by apply (written_by_NoDup selected).
    - by apply (written_by_conf selected).
    - intros key Hkey Hin. specialize (Hold key Hkey Hin).
      rewrite (written_by_names selected ws Hws) in Hold.
      apply list_elem_of_fmap in Hold as (w & [= ->] & Hw).
      by apply list_elem_of_fmap_2. }
  assert (validation_passes (write_all ws files) = true) as Hpasses.
  { apply (validation_passes_of_conf_files _ ws); [done|done|].
    by apply (written_by_quic selected). }
  rewrite Hrun, Hpasses. cbn [fst snd]. rewrite Hfiles.
  split; [done|]. split; [done|]. split.
  - unfold marker_line_count. by rewrite Hperm.
  - intros Hfails.
    assert (validation_passes (write_all ws files) = false) as Hno
      by (apply validation_passes_spec; by right).
    by rewrite Hpasses in Hno.
Qed.

Lemma hygienic_run_passes_its_own_validation_witness :
  let run := generate_all false None sample_registry (init "/srv/conf.d" notes_only) in
  run.1 = Ok () ∧
  exit_status run.1 = 0%Z ∧
  marker_line_count (output_files run.2) = 1 ∧
  ¬ capability_fails (output_files run.2).
Proof.
  apply (hygienic_run_passes_its_own_validation
           None sample_registry sample_registry "/srv/conf.d" notes_only).
  - reflexivity.
  - discriminate.
  - unfold sample_registry, hygienic, clean_scalar, clean_domains. solve_clean.
  - unfold sample_registry, has_empty_domain_list.
    repeat (apply Forall_cons_2 || apply Forall_nil_2);
      (intros [Hl|(s & Hs & Hl)]; [discriminate Hl|]); by simplify_eq/=.
  - unfold sample_registry. repeat (apply Forall_cons_2 || apply Forall_nil_2);
      reflexivity.
  - vm_compute. apply NoDup_cons. split; [|apply NoDup_singleton].
    intros Hin%list_elem_of_singleton. discriminate Hin.
  - intros file_name Hin. vm_compute in Hin.
    apply elem_of_cons in Hin as [[= ->]|Hin]; [reflexivity|].
    apply list_elem_of_singleton in Hin as [= ->]. reflexivity.
  - intros file_name Hconf [raw Hlookup]. unfold notes_only in Hlookup.
    apply lookup_singleton_Some in Hlookup as [<- _]. discriminate Hconf.
  - apply decodable_forallb. by vm_compute.
Defined.

(** ** The file of one project *)

(** X9.  For a project with both environments, [generate_project_config]
    returns the header, the redirect block and the HTTPS block of
    production, an empty line, then the redirect block and the HTTPS block
    of staging.  The production block is rendered first and takes the
    listener the flag stands for; the staging block always has the plain
    listener, and the flag is down afterwards.  Nothing is printed and no
    file is touched. *)
Theorem production_precedes_staging_in_the_project_file
    project_name p st prod stage primary primary' :
  production (domains p) = Some prod →
  staging (domains p) = Some stage →
  primary_domain prod = Ok primary →
  primary_domain (staging_domains stage) = Ok primary' →
  let listener := listener_for (is_first_server_block st) in
  let block := server_block_text project_name p Production listener prod primary in
  let block' := server_block_text project_name p Staging QUIC_PLAIN
                  (staging_domains stage) primary' in
  generate_project_config project_name p st
  = (Ok (config_header p
         +:+ generate_http_redirect prod primary +:+ block +:+ NL
         +:+ generate_http_redirect (staging_domains stage) primary' +:+ block'),
     {| output_dir := output_dir st;
        is_first_server_block := false;
        output_files := output_files st;
        stdout := stdout st;
        rendered := rendered st
                    ++ [{| quic_listener := listener; block_text := block |};
                        {| quic_listener := QUIC_PLAIN; block_text := block' |}] |}).
Proof.
  intros Hprod Hstage Hprimary Hprimary'. cbv zeta.
  rewrite generate_project_config_run, Hprod, Hstage, Hprimary, Hprimary'.
  cbv zeta. rewrite render_render, !str_app_assoc. f_equal.
  unfold apply_effect. cbn. by rewrite app_nil_r.
Qed.

Lemma production_precedes_staging_in_the_project_file_witness :
  let block := server_block_text "journal" journal Production QUIC_REUSEPORT
                 (DomainList ["journal.example.org"]) "journal.example.org" in
  let block' := server_block_text "journal" journal Staging QUIC_PLAIN
                  (DomainStr "next.journal.example.org") "next.journal.example.org" in
  generate_project_config "journal" journal (init "/srv/conf.d" ∅)
  = (Ok (config_header journal
         +:+ generate_http_redirect (DomainList ["journal.example.org"])
               "journal.example.org"
         +:+ block +:+ NL
         +:+ generate_http_redirect (DomainStr "next.journal.example.org")
               "next.journal.example.org"
         +:+ block'),
     {| output_dir := "/srv/conf.d";
        is_first_server_block := false;
        output_files := ∅;
        stdout := [];
        rendered := [{| quic_listener := QUIC_REUSEPORT; block_text := block |};
                     {| quic_listener := QUIC_PLAIN; block_text := block' |}] |}).
Proof.
  exact (production_precedes_staging_in_the_project_file
           "journal" journal (init "/srv/conf.d" ∅)
           (DomainList ["journal.example.org"])
           {| staging_domains := DomainStr "next.journal.example.org" |}
           "journal.example.org" "next.journal.example.org"
           eq_refl eq_refl eq_refl eq_refl).
Defined.

(** ** What the loop does to the directory *)

Lemma primary_domain_raises d x : primary_domain d = Raise x → x = IndexError.
Proof. destruct d as [[|first rest]|s]; cbn; congruence. Qed.

(** The project assembler raises nothing but the index error. *)
Lemma generate_project_config_raises project_name p st x :
  (generate_project_config project_name p st).1 = Raise x → x = IndexError.
Proof.
  rewrite generate_project_config_run.
  destruct (production (domains p)) as [prod|];
    [destruct (primary_domain prod) as [primary|y] eqn:Hprimary|];
    cbv zeta;
    (destruct (staging (domains p)) as [s|];
     [destruct (primary_domain (staging_domains s)) as [primary'|z] eqn:Hprimary'|]);
    cbn [fst]; intros [= <-] || intros [=];
    eauto using primary_domain_raises.
Qed.

Lemma output_file_name_raises project_name p x :
  output_file_name project_name p = Raise x → x = IndexError.
Proof.
  unfold output_file_name. destruct (production (domains p)) as [prod|]; [|done].
  destruct (primary_domain prod) as [primary|y] eqn:Hprimary; [done|].
  intros [= <-]. by apply (primary_domain_raises prod).
Qed.

(** One turn of the loop, seen from the directory: it is left as it was, or
    the turn completed in write mode and wrote the output file of the
    project with the text assembled for it. *)
Lemma generate_one_directory dry_run project_name p st :
  let run := generate_one dry_run (project_name, p) st in
  (run.1 = Ok () ∨ run.1 = Raise IndexError) ∧
  (output_files run.2 = output_files st ∨
   dry_run = false ∧ run.1 = Ok () ∧ ∃ file_name config,
     output_file_name project_name p = Ok file_name ∧
     (generate_project_config project_name p (say [GENERATING project_name] st)).1
     = Ok config ∧
     output_files run.2 = <[file_name := config]> (output_files st)).
Proof.
  cbv zeta. rewrite generate_one_run.
  pose proof (generate_project_config_files project_name p
                (say [GENERATING project_name] st)) as Hfiles.
  pose proof (generate_project_config_raises project_name p
                (say [GENERATING project_name] st)) as Hraises.
  destruct (generate_project_config _ _ _) as [[config|x] st1]; cbn [fst snd] in *.
  - pose proof (output_file_name_raises project_name p) as Hname.
    destruct (output_file_name project_name p) as [file_name|x].
    + cbv zeta. destruct dry_run.
      * destruct (preview_run (output_dir st1 +:+ "/" +:+ file_name) config st1)
          as [out ->]. split; [by left|by left].
      * split; [by left|]. right. split; [done|]. split; [done|].
        exists file_name, config. cbn. by rewrite Hfiles.
    + rewrite (Hname x eq_refl). split; [by right|by left].
  - rewrite (Hraises x eq_refl). split; [by right|by left].
Qed.

Lemma for_each_cons_run {A} (body : A → M ()) x l st :
  for_each body (x :: l) st
  = match body x st with
    | (Ok _, st') => for_each body l st'
    | (Raise e, st') => (Raise e, st')
    end.
Proof. cbn [for_each]. by rewrite bind_run. Qed.


(** A file that no project of the loop writes stays as it is; a file that
    is there stays there. *)
Lemma generate_each_keeps dry_run selected st key :
  (∀ entry, entry ∈ selected → output_file_name entry.1 entry.2 ≠ Ok key) →
  output_files (for_each (generate_one dry_run) selected st).2 !! key
  = output_files st !! key.
Proof.
  revert st. induction selected as [|[project_name p] selected IH];
    intros st Hkey; [done|].
  rewrite for_each_cons_run.
  destruct (generate_one_directory dry_run project_name p st) as [_ Hfiles].
  assert (output_files (generate_one dry_run (project_name, p) st).2 !! key
          = output_files st !! key) as Hstep.
  { destruct Hfiles as [->|(_ & _ & file_name & config & Hname & _ & ->)]; [done|].
    apply lookup_insert_ne. intros ->.
    by apply (Hkey (project_name, p)); [left|]. }
  destruct (generate_one _ _ st) as [[[]|x] st1]; cbn [fst snd] in *; [|done].
  rewrite IH; [done|]. intros entry Hentry. apply Hkey. by right.
Qed.

Lemma generate_each_never_removes dry_run selected st key :
  is_Some (output_files st !! key) →
  is_Some (output_files (for_each (generate_one dry_run) selected st).2 !! key).
Proof.
  revert st. induction selected as [|[project_name p] selected IH];
    intros st Hkey; [done|].
  rewrite for_each_cons_run.
  destruct (generate_one_directory dry_run project_name p st) as [_ Hfiles].
  assert (is_Some (output_files (generate_one dry_run (project_name, p) st).2 !! key))
    as Hstep.
  { destruct Hfiles as [->|(_ & _ & file_name & config & Hname & _ & ->)]; [done|].
    rewrite lookup_insert_is_Some. destruct (decide (file_name = key)); by auto. }
  destruct (generate_one _ _ st) as [[[]|x] st1]; cbn [fst snd] in *; [|done].
  by apply IH.
Qed.

(** ** How a run ends *)

(** The directory after a whole run is the one the loop left. *)
Lemma generate_all_directory dry_run specific_project projects st :
  output_files (generate_all dry_run specific_project projects st).2
  = match selection specific_project projects with
    | None => output_files st
    | Some selected =>
        output_files (for_each (generate_one dry_run) selected
                        (say (run_heading dry_run (length selected)) st)).2
    end.
Proof.
  rewrite generate_all_unfold, generate_configs_unfold.
  destruct (selection specific_project projects) as [selected|]; [|done].
  destruct (for_each _ _ _) as [[[]|x] st1]; [|done].
  destruct dry_run; [done|].
  by destruct (validate_and_report_run (say RUN_FOOTER st1)) as (out & -> & _).
Qed.

(** The result of a whole run, from the result of the loop. *)
Lemma generate_all_result dry_run specific_project projects st :
  (generate_all dry_run specific_project projects st).1
  = match selection specific_project projects with
    | None => Raise (SystemExit 1)
    | Some selected =>
        match for_each (generate_one dry_run) selected
                (say (run_heading dry_run (length selected)) st) with
        | (Ok _, st1) =>
            if dry_run then Ok ()
            else if validation_passes (output_files st1) then Ok ()
                 else Raise (SystemExit 1)
        | (Raise x, _) => Raise x
        end
    end.
Proof.
  rewrite generate_all_unfold, generate_configs_unfold.
  destruct (selection specific_project projects) as [selected|]; [|done].
  destruct (for_each _ _ _) as [[[]|x] st1]; [|done].
  destruct dry_run; [done|].
  by destruct (validate_and_report_run (say RUN_FOOTER st1)) as (out & -> & _).
Qed.

(** X11.  When the project asked for is not a key of the registry, the run
    prints the one line that says so and leaves with [sys.exit(1)]: no
    block is rendered, no file is written, the flag is not touched and the
    validator does not run, in dry-run mode as in write mode. *)
Theorem unknown_project_stops_the_run_at_once
    dry_run project_name projects st :
  project_name ≠ "" →
  project_name ∉ projects.*1 →
  generate_all dry_run (Some project_name) projects st
  = (Raise (SystemExit 1),
     say [CROSS_MARK +:+ " Project not found: " +:+ project_name] st).
Proof.
  intros Hname Hkey.
  assert (lookup_project project_name projects = None) as Hlookup.
  { destruct (lookup_project project_name projects) as [p|] eqn:Hp; [|done].
    destruct Hkey. apply lookup_project_elem in Hp.
    by apply (list_elem_of_fmap_2 fst) in Hp. }
  rewrite generate_all_unfold, generate_configs_unfold.
  unfold selection, requested.
  apply String.eqb_neq in Hname. by rewrite Hname, Hlookup.
Qed.

Lemma unknown_project_stops_the_run_at_once_witness :
  generate_all false (Some "forum") sample_registry (init "/srv/conf.d" ∅)
  = (Raise (SystemExit 1),
     say [CROSS_MARK +:+ " Project not found: " +:+ "forum"] (init "/srv/conf.d" ∅)).
Proof.
  apply (unknown_project_stops_the_run_at_once
           false "forum" sample_registry (init "/srv/conf.d" ∅)).
  - discriminate.
  - vm_compute. intros [[=]|[[=]|[]%elem_of_nil]%elem_of_cons]%elem_of_cons.
Defined.

(** X12.  A run for a project of the registry is the run over the registry
    cut down to the entry of that project: the same result and the same
    final state, whatever the other projects are.  An empty project name
    selects nothing: the run is the one over the whole registry. *)
Theorem run_for_one_project_is_the_run_over_its_entry
    dry_run specific_project projects selected st :
  selection specific_project projects = Some selected →
  generate_all dry_run specific_project projects st
  = generate_all dry_run None selected st.
Proof.
  intros Hselection.
  rewrite !generate_all_unfold, !generate_configs_unfold, Hselection.
  done.
Qed.

Lemma run_for_one_project_is_the_run_over_its_entry_witness :
  generate_all true (Some "blog") sample_registry (init "/srv/conf.d" ∅)
  = generate_all true None [("blog", blog)] (init "/srv/conf.d" ∅) ∧
  generate_all true (Some "") sample_registry (init "/srv/conf.d" ∅)
  = generate_all true None sample_registry (init "/srv/conf.d" ∅).
Proof.
  split.
  - by apply (run_for_one_project_is_the_run_over_its_entry
                true (Some "blog") sample_registry [("blog", blog)]).
  - by apply (run_for_one_project_is_the_run_over_its_entry
                true (Some "") sample_registry sample_registry).
Defined.

(** X13.  A run never removes a file of the output directory, and a file it
    changes or creates is the output file of one of the projects it works
    on: every other file, and so every file whose name does not end in
    ".conf", is after the run what it was before.  The file of a project
    that left the registry stays in the directory. *)
Theorem run_touches_only_the_output_files_of_its_projects
    dry_run specific_project projects st file_name :
  let final := output_files (generate_all dry_run specific_project projects st).2 in
  (is_Some (output_files st !! file_name) → is_Some (final !! file_name)) ∧
  (endswith ".conf" file_name = false →
   final !! file_name = output_files st !! file_name) ∧
  (∀ selected,
     selection specific_project projects = Some selected →
     Ok file_name ∉ output_file_names selected →
     final !! file_name = output_files st !! file_name).
Proof.
  cbv zeta. rewrite generate_all_directory.
  destruct (selection specific_project projects) as [selected|]; [|done].
  assert (Ok file_name ∉ output_file_names selected →
          ∀ entry, entry ∈ selected →
                   output_file_name entry.1 entry.2 ≠ Ok file_name) as Hother.
  { intros Hout entry Hentry Hname. apply Hout. rewrite <-Hname.
    by apply (list_elem_of_fmap_2 (λ entry, output_file_name entry.1 entry.2)). }
  split; [|split].
  - intros Hthere. by apply generate_each_never_removes.
  - intros Hconf. rewrite generate_each_keeps; [done|].
    intros entry _ Hname%output_file_name_conf. congruence.
  - intros ? [= <-] Hout. rewrite generate_each_keeps; [done|by apply Hother].
Qed.

Lemma run_touches_only_the_output_files_of_its_projects_witness :
  output_files (generate_all false None sample_registry
                  (init "/srv/conf.d" notes_only)).2 !! "notes.txt"
  = Some "renew the certificates in March".
Proof.
  apply (run_touches_only_the_output_files_of_its_projects
           false None sample_registry (init "/srv/conf.d" notes_only) "notes.txt").
  reflexivity.
Defined.

(** ** Runs that cannot pass the validation *)









Lemma elem_of_conf_files files file_name raw :
  (file_name, raw) ∈ conf_files files
  ↔ files !! file_name = Some raw ∧ endswith ".conf" file_name = true.
Proof.
  unfold conf_files. rewrite list_elem_of_filter, elem_of_map_to_list. cbn [fst].
  tauto.
Qed.




(** ** Dry-run mode against write mode *)


Lemma announced_say dir files out out' a b :
  announced dir files a b → announced dir files (say out a) (say out' b).
Proof.
  intros H file_name Hfile. cbn. apply elem_of_app. left. by apply H.
Qed.






(** ** What the validator reads and what it reports *)

Lemma conf_files_agree files files' :
  (∀ file_name, endswith ".conf" file_name = true →
                files !! file_name = files' !! file_name) →
  conf_files files ≡ₚ conf_files files'.
Proof.
  intros Hagree. apply NoDup_Permutation.
  - apply NoDup_filter, NoDup_map_to_list.
  - apply NoDup_filter, NoDup_map_to_list.
  - intros [file_name raw]. rewrite !elem_of_conf_files.
    split; intros [Hraw Hconf]; (split; [|done]);
      [by rewrite <-Hagree|by rewrite Hagree].
Qed.

Lemma configs_without_http3_nil files :
  configs_without_http3 (glob_conf files) = [] ↔
  Forall (λ conf, contains QUIC_MARKER (read_text conf.2) = true) (conf_files files).
Proof.
  unfold configs_without_http3. rewrite <-glob_conf_Permutation.
  induction (glob_conf files) as [|conf confs IH]; [done|].
  rewrite Forall_cons. destruct (contains QUIC_MARKER (read_text conf.2)) eqn:Hquic.
  - rewrite filter_cons_False by by rewrite Hquic. rewrite IH. tauto.
  - rewrite filter_cons_True by done. cbn. split; [done|]. by intros [[=] _].
Qed.

(** X17.  The verdict of the validator depends on the [*.conf] files of the
    directory alone: two directories that agree on every file whose name
    ends in ".conf" have the same count of marker lines and get the same
    verdict, from whatever state the validator is called. *)
Theorem validator_reads_the_conf_files_only (a b : state) :
  (∀ file_name, endswith ".conf" file_name = true →
                output_files a !! file_name = output_files b !! file_name) →
  marker_line_count (output_files a) = marker_line_count (output_files b) ∧
  validation_passes (output_files a) = validation_passes (output_files b) ∧
  (validate_generated_configs a).1 = (validate_generated_configs b).1.
Proof.
  intros Hagree. pose proof (conf_files_agree _ _ Hagree) as Hperm.
  assert (marker_line_count (output_files a) = marker_line_count (output_files b))
    as Hcount by (unfold marker_line_count; by rewrite Hperm).
  assert (validation_passes (output_files a) = validation_passes (output_files b))
    as Hverdict.
  { unfold validation_passes. rewrite !reuseport_count_marker_lines, Hcount.
    f_equal. apply bool_decide_ext. rewrite !configs_without_http3_nil.
    by rewrite Hperm. }
  split; [done|]. split; [done|].
  destruct (validate_generated_configs_run a) as (out & -> & _).
  destruct (validate_generated_configs_run b) as (out' & -> & _).
  cbn [fst]. by rewrite Hverdict.
Qed.

Lemma validator_reads_the_conf_files_only_witness :
  validation_passes notes_only = validation_passes ∅.
Proof.
  apply (validator_reads_the_conf_files_only
           (init "/srv/conf.d" notes_only) (init "/srv/conf.d" ∅)).
  intros file_name Hconf. cbn [init output_files]. unfold notes_only.
  rewrite lookup_empty. apply lookup_singleton_None. by intros <-.
Defined.

Lemma scan_lines_locations file_name lines start acc loc :
  loc ∈ (foldl (scan_line file_name) acc (enumerate start lines)).2 →
  loc ∈ acc.2 ∨
  ∃ index line,
    lines !! index = Some line ∧
    contains REUSEPORT_MARKER line = true ∧
    loc = location file_name (start + index).
Proof.
  revert start acc. induction lines as [|line lines IH]; intros start acc Hloc;
    [by left|].
  cbn [enumerate foldl] in Hloc. apply IH in Hloc as [Hloc|Hloc].
  - unfold scan_line in Hloc.
    destruct (contains REUSEPORT_MARKER line) eqn:Hline; [|by left].
    cbn [snd] in Hloc. apply elem_of_app in Hloc as [Hloc|Hloc]; [by left|].
    apply list_elem_of_singleton in Hloc as ->. right.
    exists 0, line. by rewrite Nat.add_0_r.
  - destruct Hloc as (index & line' & Hindex & Hline & ->). right.
    exists (S index), line'. by rewrite Nat.add_succ_r.
Qed.

Lemma scan_files_locations confs acc loc :
  loc ∈ (foldl scan_file acc confs).2 →
  loc ∈ acc.2 ∨
  ∃ file_name raw index line,
    (file_name, raw) ∈ confs ∧
    file_lines raw !! index = Some line ∧
    contains REUSEPORT_MARKER line = true ∧
    loc = location file_name (S index).
Proof.
  revert acc. induction confs as [|[file_name raw] confs IH]; intros acc Hloc;
    [by left|].
  cbn [foldl] in Hloc. apply IH in Hloc as [Hloc|Hloc].
  - unfold scan_file in Hloc. cbn [fst snd] in Hloc.
    apply scan_lines_locations in Hloc as [Hloc|(index & line & Hindex & Hline & ->)];
      [by left|].
    right. exists file_name, raw, index, line. by repeat split; [left|..].
  - destruct Hloc as (file_name' & raw' & index & line & Hin & Hindex & Hline & ->).
    right. exists file_name', raw', index, line. by repeat split; [right|..].
Qed.

(** Membership of a listed item in the output of the validator. *)
Ltac listed :=
  repeat (apply elem_of_app;
          first [ left; apply (list_elem_of_fmap_2 (String.append "   - "));
                  assumption
                | right ]).

(** X18.  On a directory whose [*.conf] files can be read as text, the
    validator returns its verdict and changes nothing but the standard
    output: the access to the first noted place at line 276 is always in
    range.  It notes as many places as it counts marker lines, and each
    place is the name of a [*.conf] file of the directory with the number,
    counted from 1, of a line of that file that holds the marker.  When the
    count is 1 the place is printed as the location; otherwise every place
    is listed, and so is every file without a QUIC listener. *)
Theorem validator_reports_the_lines_it_counted st :
  let files := output_files st in
  decodable files →
  ∃ out,
    validate_generated_configs st = (Ok (validation_passes files), say out st) ∧
    length (reuseport_locations files) = reuseport_count files ∧
    Forall (marker_location files) (reuseport_locations files) ∧
    (reuseport_count files = 1 →
     ∃ loc, reuseport_locations files = [loc] ∧ ("   Location: " +:+ loc) ∈ out) ∧
    (reuseport_count files ≠ 1 →
     Forall (λ loc, ("   - " +:+ loc) ∈ out) (reuseport_locations files)) ∧
    Forall (λ conf, ("   - " +:+ conf) ∈ out) (configs_without_http3 (glob_conf files)).
Proof.
  intros files _.
  assert (Forall (marker_location files) (reuseport_locations files)) as Hlocated.
  { apply Forall_forall. intros loc Hloc.
    apply scan_files_locations in Hloc as [[]%elem_of_nil|Hloc].
    destruct Hloc as (file_name & raw & index & line & Hin & Hindex & Hline & ->).
    rewrite glob_conf_Permutation in Hin. apply elem_of_conf_files in Hin as [? ?].
    by exists file_name, raw, index, line. }
  revert Hlocated.
  unfold validate_generated_configs.
  rewrite !print_bind, get_files_bind.
  change (output_files (say _ (say _ (say _ st)))) with files.
  unfold validation_passes, reuseport_count, reuseport_locations.
  pose proof (scan_files_count (glob_conf files) (0, []) eq_refl) as Hcount.
  destruct (foldl scan_file (0, []) (glob_conf files)) as [count locs].
  cbn [fst snd] in *. intros Hlocated.
  destruct (count =? 1)%nat eqn:Hone.
  - apply Nat.eqb_eq in Hone. subst count.
    destruct locs as [|loc [|loc' locs]]; [done| |done].
    run_prints. change (output_files (say _ st)) with files.
    destruct (configs_without_http3 (glob_conf files)) as [|conf missing] eqn:Hmissing;
      run_prints; (eexists; split; [reflexivity|]);
      (split; [done|]); (split; [done|]);
      (split; [intros _; exists loc; split; [done|set_solver]|]);
      (split; [done|]); [done|].
    apply Forall_forall. intros x Hx. listed.
  - apply Nat.eqb_neq in Hone.
    run_prints. change (output_files (say _ st)) with files.
    destruct (configs_without_http3 (glob_conf files)) as [|conf missing] eqn:Hmissing;
      run_prints; (eexists; split; [reflexivity|]);
      (split; [done|]); (split; [done|]); (split; [done|]);
      (split; [intros _|]); try done;
      apply Forall_forall; intros x Hx; rewrite <-?app_assoc; listed.
Qed.

Lemma validator_reports_the_lines_it_counted_witness :
  ∃ out,
    validate_generated_configs (init "/srv/conf.d" stale)
    = (Ok (validation_passes stale), say out (init "/srv/conf.d" stale)) ∧
    length (reuseport_locations stale) = reuseport_count stale ∧
    Forall (marker_location stale) (reuseport_locations stale) ∧
    (reuseport_count stale = 1 →
     ∃ loc, reuseport_locations stale = [loc] ∧ ("   Location: " +:+ loc) ∈ out) ∧
    (reuseport_count stale ≠ 1 →
     Forall (λ loc, ("   - " +:+ loc) ∈ out) (reuseport_locations stale)) ∧
    Forall (λ conf, ("   - " +:+ conf) ∈ out) (configs_without_http3 (glob_conf stale)).
Proof.
  apply (validator_reports_the_lines_it_counted (init "/srv/conf.d" stale)).
  apply decodable_forallb. by vm_compute.
Defined.

(** ** The log of the generation phase *)





(** ** What a run writes *)

Lemma is_empty_list_spec d : is_empty_list d = true ↔ d = DomainList [].
Proof. destruct d as [[|x l]|s]; simpl; split; congruence. Qed.

Lemma has_empty_list_spec p :
  has_empty_list p = true ↔ has_empty_domain_list p.
Proof.
  unfold has_empty_list, has_empty_domain_list.
  rewrite orb_true_iff. split.
  - intros [Hprod|Hstaging].
    + left. destruct (production (domains p)) as [d|]; [|done].
      by apply is_empty_list_spec in Hprod as ->.
    + right. destruct (staging (domains p)) as [s|]; [|done].
      exists s. split; [done|]. by apply is_empty_list_spec.
  - intros [->|(s & -> & Hs)]; [by left|].
    right. by apply is_empty_list_spec.
Qed.

Lemma has_empty_list_false p :
  has_empty_list p = false ↔ ¬ has_empty_domain_list p.
Proof. rewrite <-has_empty_list_spec. by destruct (has_empty_list p). Qed.


Lemma processed_all selected :
  Forall (λ entry, ¬ has_empty_domain_list entry.2) selected →
  processed selected = selected.
Proof.
  induction 1 as [|entry rest Hentry _ IH]; [done|].
  cbn [processed]. apply has_empty_list_false in Hentry as ->. by rewrite IH.
Qed.

Lemma processed_before earlier project_name p later :
  Forall (λ entry, ¬ has_empty_domain_list entry.2) earlier →
  has_empty_domain_list p →
  processed (earlier ++ (project_name, p) :: later) = earlier.
Proof.
  intros Hearlier Hp. induction Hearlier as [|entry rest Hentry _ IH].
  - cbn [app processed snd]. by apply has_empty_list_spec in Hp as ->.
  - cbn [app processed]. apply has_empty_list_false in Hentry as ->.
    by rewrite IH.
Qed.

Lemma primary_domain_raises_on_empty ds x :
  primary_domain ds = Raise x → ds = DomainList [].
Proof. destruct ds as [[|first rest]|s]; simpl; congruence. Qed.

(** The text assembled for a project without an empty domain list. *)
Lemma generate_project_config_planned project_name p st :
  ¬ has_empty_domain_list p →
  (generate_project_config project_name p st).1
  = Ok (planned_text (is_first_server_block st) project_name p).
Proof.
  intros Hp. rewrite generate_project_config_run.
  unfold planned_text, primary_of, has_empty_domain_list in *.
  destruct (production (domains p)) as [prod|].
  - destruct (primary_domain prod) as [primary|x] eqn:Hprimary.
    2:{ destruct Hp. left. by rewrite (primary_domain_raises_on_empty prod x). }
    cbv zeta. destruct (staging (domains p)) as [s|]; [|done].
    destruct (primary_domain (staging_domains s)) as [primary'|x] eqn:Hprimary';
      [done|].
    destruct Hp. right. exists s. split; [done|].
    by apply (primary_domain_raises_on_empty _ x).
  - destruct (staging (domains p)) as [s|]; [|done].
    destruct (primary_domain (staging_domains s)) as [primary'|x] eqn:Hprimary';
      [done|].
    destruct Hp. right. exists s. split; [done|].
    by apply (primary_domain_raises_on_empty _ x).
Qed.

(** The assembler prints nothing. *)
Lemma generate_project_config_stdout project_name p st :
  stdout (generate_project_config project_name p st).2 = stdout st.
Proof.
  rewrite generate_project_config_run. unfold render, apply_effect.
  destruct (production (domains p)) as [prod|].
  - destruct (primary_domain prod) as [primary|x]; [|done].
    cbv zeta. destruct (staging (domains p)) as [s|]; cbn [snd stdout].
    + destruct (primary_domain (staging_domains s)); cbn;
        by rewrite ?app_nil_r.
    + cbn. by rewrite app_nil_r.
  - destruct (staging (domains p)) as [s|]; [|done].
    destruct (primary_domain (staging_domains s)); cbn; by rewrite ?app_nil_r.
Qed.

(** A turn of the loop in write mode that completes: one file, with the
    planned name and text, and the two lines of the log. *)
Lemma generate_one_planned project_name p st :
  ¬ has_empty_domain_list p →
  ∃ blks,
    generate_one false (project_name, p) st
    = (Ok (),
       apply_effect
         {| flag_after := is_first_server_block st && negb (has_environment p);
            writes := [(planned_name project_name p,
                        planned_text (is_first_server_block st) project_name p)];
            printed := progress_lines (output_dir st) (project_name, p);
            blocks := blks |} st).
Proof.
  intros Hp. rewrite generate_one_run.
  pose proof (generate_project_config_planned project_name p
                (say [GENERATING project_name] st) Hp) as Htext.
  destruct (generate_project_config_summary project_name p
              (say [GENERATING project_name] st) Hp)
    as (config & blks & Hrun & _).
  rewrite Hrun in Htext |- *. injection Htext as ->.
  destruct (output_file_name_total project_name p Hp) as [file_name Hname].
  unfold planned_name, progress_lines. cbn [fst snd]. rewrite Hname.
  exists blks. f_equal. unfold say, store, apply_effect. cbn.
  f_equal. by rewrite app_nil_r, <-app_assoc.
Qed.

(** A turn of the loop that meets an empty domain list: the announcement
    is printed, the index error raised, and no file is written. *)
Lemma generate_one_stops dry_run project_name p st :
  has_empty_domain_list p →
  ∃ st',
    generate_one dry_run (project_name, p) st = (Raise IndexError, st') ∧
    output_files st' = output_files st ∧
    stdout st' = stdout st ++ [GENERATING project_name].
Proof.
  intros Hp.
  destruct (generate_one_result dry_run project_name p st) as [Hbad _].
  destruct (Hbad Hp) as (st' & Hrun & Hfiles). exists st'.
  split; [done|]. split; [done|].
  rewrite generate_one_run in Hrun.
  pose proof (generate_project_config_stdout project_name p
                (say [GENERATING project_name] st)) as Hout.
  destruct (generate_project_config_result project_name p
              (say [GENERATING project_name] st)) as [Hraise _].
  specialize (Hraise Hp).
  destruct (generate_project_config project_name p _) as [r st1].
  cbn [fst snd] in Hraise, Hout. subst r. by injection Hrun as <-.
Qed.

Lemma for_each_app_run {A} (body : A → M ()) l1 l2 st :
  for_each body (l1 ++ l2) st
  = match for_each body l1 st with
    | (Ok _, st1) => for_each body l2 st1
    | (Raise e, st1) => (Raise e, st1)
    end.
Proof.
  revert st. induction l1 as [|x l1 IH]; intros st; [done|].
  cbn [app]. rewrite !for_each_cons_run.
  destruct (body x st) as [[[]|e] st1]; [apply IH|done].
Qed.

(** The loop in write mode over projects without an empty domain list. *)
Lemma generate_each_planned selected :
  Forall (λ entry, ¬ has_empty_domain_list entry.2) selected →
  ∀ st, ∃ blks,
    for_each (generate_one false) selected st
    = (Ok (),
       apply_effect
         {| flag_after :=
              is_first_server_block st
              && forallb (λ entry, negb (has_environment entry.2)) selected;
            writes := planned_files (is_first_server_block st) selected;
            printed := flat_map (progress_lines (output_dir st)) selected;
            blocks := blks |} st).
Proof.
  induction 1 as [|[project_name p] selected Hp _ IH]; intros st.
  { exists []. cbn [for_each forallb planned_files flat_map].
    rewrite andb_true_r. by rewrite <-(apply_no_effect st) at 1. }
  cbn [fst snd] in Hp. rewrite for_each_cons_run.
  destruct (generate_one_planned project_name p st Hp) as [blks1 ->].
  set (eff1 := {| flag_after := _ |}).
  destruct (IH (apply_effect eff1 st)) as [blks2 ->].
  exists (blks1 ++ blks2). rewrite apply_then_effect. f_equal.
  unfold then_effect. cbn [flag_after writes printed blocks eff1 apply_effect
    is_first_server_block output_dir forallb planned_files flat_map fst snd app].
  by rewrite andb_assoc.
Qed.

(** The loop that meets an empty domain list: the projects after it play
    no part. *)
Lemma generate_each_stops dry_run earlier project_name p later st :
  has_empty_domain_list p →
  for_each (generate_one dry_run) (earlier ++ (project_name, p) :: later) st
  = for_each (generate_one dry_run) (earlier ++ [(project_name, p)]) st.
Proof.
  intros Hp. rewrite !for_each_app_run.
  destruct (for_each (generate_one dry_run) earlier st) as [[[]|e] st1]; [|done].
  rewrite !for_each_cons_run.
  by destruct (generate_one_stops dry_run project_name p st1 Hp)
    as (st' & -> & _).
Qed.

(** The state in which the loop in write mode leaves on an empty list. *)
Lemma generate_each_stopped earlier project_name p later st :
  Forall (λ entry, ¬ has_empty_domain_list entry.2) earlier →
  has_empty_domain_list p →
  ∃ st',
    for_each (generate_one false) (earlier ++ (project_name, p) :: later) st
    = (Raise IndexError, st') ∧
    output_files st'
    = write_all (planned_files (is_first_server_block st) earlier) (output_files st) ∧
    stdout st'
    = stdout st ++ flat_map (progress_lines (output_dir st)) earlier
      ++ [GENERATING project_name].
Proof.
  intros Hearlier Hp. rewrite for_each_app_run.
  destruct (generate_each_planned earlier Hearlier st) as [blks ->].
  rewrite for_each_cons_run. set (eff := {| flag_after := _ |}).
  destruct (generate_one_stops false project_name p (apply_effect eff st) Hp)
    as (st' & -> & Hfiles & Hout).
  exists st'. split; [done|]. rewrite Hfiles, Hout. cbn.
  by rewrite <-app_assoc.
Qed.





(** ** The exclusive listener in the files of a run (C1) *)




(** ** The run that meets an empty domain list (C10) *)

(** C10.  For an environment whose domain entry is a list, the primary
    domain is defined and the block is rendered exactly when the list is
    not empty; on an empty list the renderer raises the index error and
    leaves the state as it was.  A project with an empty production or
    staging list stops its turn of the loop with that error before any file
    is written, and a run whose selected projects hold such a project ends
    with the error, exit status 1; a run whose selected projects hold none
    completes its generation phase.  The loop stops at the first such
    project: the projects after it play no part, in either mode.  In write
    mode the run then leaves in the directory the files of the projects
    before it (their names being single path components) and no other, and
    its log ends with the line that announces the project: nothing is
    generated for the later projects, the closing lines are not printed and
    the validator is not run. *)
Theorem empty_domain_list_aborts_the_run :
  (∀ project_name p e st l,
     environment_domains p e = Ok (DomainList l) →
     (l ≠ [] ↔ ∃ primary, primary_domain (DomainList l) = Ok primary) ∧
     (l ≠ [] ↔ ∃ text, (generate_server_block project_name p e st).1 = Ok text) ∧
     (l = [] → generate_server_block project_name p e st = (Raise IndexError, st))) ∧
  (∀ dry_run project_name p st,
     has_empty_domain_list p →
     ∃ st', generate_one dry_run (project_name, p) st = (Raise IndexError, st') ∧
            output_files st' = output_files st) ∧
  (∀ dry_run specific_project projects selected project_name p st,
     selection specific_project projects = Some selected →
     (project_name, p) ∈ selected →
     has_empty_domain_list p →
     (generate_all dry_run specific_project projects st).1 = Raise IndexError ∧
     exit_status (generate_all dry_run specific_project projects st).1 = 1%Z) ∧
  (∀ dry_run specific_project projects selected st,
     selection specific_project projects = Some selected →
     Forall (λ entry, ¬ has_empty_domain_list entry.2) selected →
     (generate_configs dry_run specific_project projects st).1 = Ok ()) ∧
  (∀ dry_run earlier project_name p later st,
     has_empty_domain_list p →
     for_each (generate_one dry_run) (earlier ++ (project_name, p) :: later) st
     = for_each (generate_one dry_run) (earlier ++ [(project_name, p)]) st) ∧
  (∀ specific_project projects earlier project_name p later st,
     selection specific_project projects
     = Some (earlier ++ (project_name, p) :: later) →
     Forall (λ entry, ¬ has_empty_domain_list entry.2) earlier →
     has_empty_domain_list p →
     (∀ file_name,
        Ok file_name ∈ output_file_names earlier →
        path_component file_name = true) →
     let run := generate_all false specific_project projects st in
     run.1 = Raise IndexError ∧
     output_files run.2
     = write_all (planned_files (is_first_server_block st) earlier)
         (output_files st) ∧
     stdout run.2
     = stdout st
       ++ run_heading false (length (earlier ++ (project_name, p) :: later))
       ++ flat_map (progress_lines (output_dir st)) earlier
       ++ [GENERATING project_name]).
Proof.
  split_and!.
  - intros project_name p e st l Hds.
    rewrite generate_server_block_run, Hds.
    destruct l as [|first rest]; simpl.
    + split_and!; [|..|done]; (split; [done|by intros [? [=]]]).
    + split_and!; [..|done]; (split; [by eauto|done]).
  - intros dry_run project_name p st Hp.
    by apply generate_one_result.
  - intros dry_run specific_project projects selected project_name p st
      Hselected Hin Hp.
    assert ((generate_all dry_run specific_project projects st).1
            = Raise IndexError) as Hall.
    { rewrite generate_all_unfold.
      destruct (generate_configs_selected dry_run specific_project projects
                  selected st Hselected) as [st0 ->].
      pose proof (for_each_stops (generate_one dry_run) selected
                    (project_name, p) IndexError Hin) as Hstop.
      rewrite (surjective_pairing (for_each _ selected st0)), Hstop; [done|..].
      - intros st1. destruct (generate_one_result dry_run project_name p st1)
          as [Hbad _]. by destruct (Hbad Hp) as (st' & -> & _).
      - intros [name' p'] st1 _.
        destruct (generate_one_result dry_run name' p' st1) as [Hbad Hgood].
        destruct (decide (production (domains p') = Some (DomainList []))) as [?|Hprod].
        { right. destruct Hbad as (st' & -> & _); [by left|done]. }
        destruct (staging (domains p')) as [s|] eqn:Hstaging.
        + destruct (decide (staging_domains s = DomainList [])) as [?|Hs].
          * right. destruct Hbad as (st' & -> & _); [|done].
            right. exists s. by rewrite Hstaging.
          * left. apply Hgood. intros [?|(s' & Hs' & ?)]; [done|].
            rewrite Hstaging in Hs'. congruence.
        + left. apply Hgood. intros [?|(s' & Hs' & ?)]; [done|].
          by rewrite Hstaging in Hs'. }
    by rewrite Hall.
  - intros dry_run specific_project projects selected st Hselected Hprojects.
    destruct (generate_configs_selected dry_run specific_project projects
                selected st Hselected) as [st0 ->].
    pose proof (for_each_completes (generate_one dry_run) selected) as Hloop.
    rewrite (surjective_pairing (for_each _ selected st0)), Hloop; [done|].
    eapply Forall_impl; [exact Hprojects|].
    intros [name' p'] Hp st1. by apply generate_one_result.
  - intros dry_run earlier project_name p later st Hp.
    by apply generate_each_stops.
  - intros specific_project projects earlier project_name p later st
      Hselected Hearlier Hp _.
    cbv zeta. rewrite generate_all_unfold, generate_configs_unfold, Hselected.
    set (st0 := say _ st).
    destruct (generate_each_stopped earlier project_name p later st0 Hearlier Hp)
      as (st' & -> & Hfiles & Hout).
    split; [done|]. cbn [fst snd]. split; [done|].
    rewrite Hout. unfold st0. cbn [say stdout output_dir].
    by rewrite <-app_assoc.
Qed.

Lemma empty_domain_list_aborts_the_run_witness :
  let run := generate_all false None
               [("blog", blog); ("vacant", vacant); ("shop", shop)]
               (init "/srv/conf.d" ∅) in
  (run.1 = Raise IndexError ∧ exit_status run.1 = 1%Z) ∧
  output_files run.2 = write_all (planned_files true [("blog", blog)]) ∅ ∧
  stdout run.2
  = run_heading false 3
    ++ flat_map (progress_lines "/srv/conf.d") [("blog", blog)]
    ++ [GENERATING "vacant"].
Proof.
  intros run.
  destruct empty_domain_list_aborts_the_run as (_ & _ & Hend & _ & _ & Hstate).
  split.
  - apply (Hend false None
             [("blog", blog); ("vacant", vacant); ("shop", shop)]
             [("blog", blog); ("vacant", vacant); ("shop", shop)]
             "vacant" vacant).
    + reflexivity.
    + by right; left.
    + left. reflexivity.
  - apply (Hstate None [("blog", blog); ("vacant", vacant); ("shop", shop)]
             [("blog", blog)] "vacant" vacant [("shop", shop)]
             (init "/srv/conf.d" ∅)).
    + reflexivity.
    + apply Forall_cons_2; [|apply Forall_nil_2].
      intros [Hl|(s & Hs & Hl)]; [discriminate Hl|discriminate Hs].
    + left. reflexivity.
    + intros file_name Hin. vm_compute in Hin.
      apply list_elem_of_singleton in Hin as [= ->]. reflexivity.
Defined.
